(** * Productivity-Ranker: server-side scoring, storage and chat context

    A shallow embedding of the Express backend (storage accessors and route
    handlers) together with the properties its specification states.

    Conventions of the embedding.
    - A calendar date ("YYYY-MM-DD", the only format the client sends and
      the [date] columns hold) is represented by the day it denotes, as the
      number of days since 1970-01-01; [isoDate y m d] builds one.
    - A JavaScript [Date] is its time value: milliseconds since the epoch.
      The accessors follow ECMA-262 (Day, WeekDay, YearFromTime, MakeDay,
      LocalTime, ...).  The offset of the server's local time zone is a
      parameter, [tz], in milliseconds.
    - A JavaScript number is the rational it denotes, or NaN or an
      infinity.  The arithmetic on scores rounds each result to a double:
      the rounding is a parameter, [double], and [Binary64.double] is
      IEEE 754's.
    - Tables are lists of rows in insertion order; a query is a filter, an
      update a map, [ORDER BY] a merge sort.  A storage function that makes
      two queries is the sequence of the two, so that calls in flight
      together can be interleaved between them.
    - A request is served without another in between by [handle]; [served]
      are the worlds that come about that way. *)

From Stdlib Require Import ZArith QArith Qround Qabs Lia Lqa String Ascii.
From stdpp Require Import base list sorting pretty.

Open Scope Z_scope.

(** ** ECMA-262 date arithmetic *)

Module JSDate.

Definition msPerDay : Z := 86400000.

Definition Day (t : Z) : Z := t / msPerDay.
Definition TimeWithinDay (t : Z) : Z := t mod msPerDay.

Definition isLeapYear (y : Z) : bool :=
  if negb (y mod 4 =? 0) then false
  else if negb (y mod 100 =? 0) then true
  else (y mod 400 =? 0).

Definition DayFromYear (y : Z) : Z :=
  365 * (y - 1970) + (y - 1969) / 4 - (y - 1901) / 100 + (y - 1601) / 400.

(** The largest [y] with [DayFromYear y <= day]: an estimate from the mean
    length of a Gregorian year, corrected by at most one. *)
Definition YearFromDay (day : Z) : Z :=
  let y0 := 1970 + (400 * day) / 146097 in
  if day <? DayFromYear y0 then y0 - 1
  else if DayFromYear (y0 + 1) <=? day then y0 + 1
  else y0.

Definition YearFromTime (t : Z) : Z := YearFromDay (Day t).
Definition InLeapYear (t : Z) : Z := if isLeapYear (YearFromTime t) then 1 else 0.
Definition DayWithinYear (t : Z) : Z := Day t - DayFromYear (YearFromTime t).

(** Day within the year on which month [m] (0 = January) starts. *)
Definition monthStart (m leap : Z) : Z :=
  if m =? 0 then 0 else if m =? 1 then 31
  else if m =? 2 then 59 + leap else if m =? 3 then 90 + leap
  else if m =? 4 then 120 + leap else if m =? 5 then 151 + leap
  else if m =? 6 then 181 + leap else if m =? 7 then 212 + leap
  else if m =? 8 then 243 + leap else if m =? 9 then 273 + leap
  else if m =? 10 then 304 + leap else 334 + leap.

Definition monthOfDay (dwy leap : Z) : Z :=
  if dwy <? 31 then 0 else if dwy <? 59 + leap then 1
  else if dwy <? 90 + leap then 2 else if dwy <? 120 + leap then 3
  else if dwy <? 151 + leap then 4 else if dwy <? 181 + leap then 5
  else if dwy <? 212 + leap then 6 else if dwy <? 243 + leap then 7
  else if dwy <? 273 + leap then 8 else if dwy <? 304 + leap then 9
  else if dwy <? 334 + leap then 10 else 11.

Definition MonthFromTime (t : Z) : Z := monthOfDay (DayWithinYear t) (InLeapYear t).

Definition DateFromTime (t : Z) : Z :=
  DayWithinYear t - monthStart (MonthFromTime t) (InLeapYear t) + 1.

Definition WeekDay (t : Z) : Z := (Day t + 4) mod 7.

(** [MakeDay year month date]: months beyond 0..11 carry into the year, and
    a [date] outside the month rolls over into the neighbouring months. *)
Definition MakeDay (year month date : Z) : Z :=
  let ym := year + month / 12 in
  let mn := month mod 12 in
  DayFromYear ym + monthStart mn (if isLeapYear ym then 1 else 0) + date - 1.

Definition MakeDate (day time : Z) : Z := day * msPerDay + time.
Definition MakeTime (h m s ms : Z) : Z := ((h * 60 + m) * 60 + s) * 1000 + ms.

Section LocalZone.

(** Offset of local time from UTC in milliseconds (LocalTZA), taken as
    constant: [3600000] is UTC+1, [0] is UTC. *)
Variable tz : Z.

Definition LocalTime (t : Z) : Z := t + tz.
Definition UTC (t : Z) : Z := t - tz.

(** [Date.prototype.getDay], [getDate], [setDate], [setHours]; the setters
    return the new time value of the object they mutate. *)
Definition getDay (t : Z) : Z := WeekDay (LocalTime t).
Definition getDate (t : Z) : Z := DateFromTime (LocalTime t).

Definition setDate (t dt : Z) : Z :=
  let lt := LocalTime t in
  UTC (MakeDate (MakeDay (YearFromTime lt) (MonthFromTime lt) dt)
                (TimeWithinDay lt)).

Definition setHours (t h m s ms : Z) : Z :=
  let lt := LocalTime t in
  UTC (MakeDate (Day lt) (MakeTime h m s ms)).

End LocalZone.

(** [new Date("YYYY-MM-DD")]: a date-only ISO string is midnight UTC. *)
Definition parseISODate (date : Z) : Z := MakeDate date 0.

(** [toISOString().split("T")[0]]: the UTC calendar date of a time value. *)
Definition toISODate (t : Z) : Z := Day t.

End JSDate.

(** The calendar date "y-m-d" (month 1..12). *)
Definition isoDate (y m d : Z) : Z := JSDate.MakeDay y (m - 1) d.

(** Year, month (1..12) and day of the month of a calendar date. *)
Definition dateFields (date : Z) : Z * Z * Z :=
  let t := JSDate.parseISODate date in
  (JSDate.YearFromTime t, JSDate.MonthFromTime t + 1, JSDate.DateFromTime t).

(** Day of the week of a calendar date, 0 = Sunday .. 6 = Saturday. *)
Definition weekdayOf (date : Z) : Z := (date + 4) mod 7.

(** ** routes: getWeekBounds *)

Record WeekBounds := { weekStart : Z; weekEnd : Z }.

Section WeekBounds.

Variable tz : Z.

(** [now] is the clock reading used when no date string is given (an
    absent or empty [dateStr] is falsy). *)
Definition getWeekBounds (now : Z) (dateStr : option Z) : WeekBounds :=
  let d := match dateStr with
           | Some s => JSDate.parseISODate s
           | None => now
           end in
  let day := JSDate.getDay tz d in
  let diff := JSDate.getDate tz d - day + (if day =? 0 then -6 else 1) in
  let monday := JSDate.setDate tz d diff in
  let monday := JSDate.setHours tz monday 0 0 0 0 in
  let sunday := monday in
  let sunday := JSDate.setDate tz sunday (JSDate.getDate tz monday + 6) in
  {| weekStart := JSDate.toISODate monday;
     weekEnd := JSDate.toISODate sunday |}.

End WeekBounds.

(** ** JavaScript values *)

(** A number: the rational it denotes, NaN or an infinity. *)
Inductive JSNum :=
| Fin (q : Q)
| NaN
| PosInf
| NegInf.

#[local] Unset Elimination Schemes.
Inductive JSValue :=
| JSUndefined
| JSNull
| JSBool (b : bool)
| JSNumber (n : JSNum)
| JSString (s : string)
| JSArray (items : list JSValue)
| JSObject (fields : list (string * JSValue)).
#[local] Set Elimination Schemes.

Definition JSInt_num (z : Z) : JSNum := Fin (inject_Z z).
Definition JSInt (z : Z) : JSValue := JSNumber (JSInt_num z).

(** ToBoolean: [0], [NaN], the empty string, [null] and [undefined] are falsy. *)
Definition numTruthy (n : JSNum) : bool :=
  match n with
  | Fin q => negb (Qeq_bool q 0)
  | NaN => false
  | PosInf | NegInf => true
  end.

Definition strTruthy (s : string) : bool :=
  match s with
  | EmptyString => false
  | String _ _ => true
  end.

Definition ToBoolean (v : JSValue) : bool :=
  match v with
  | JSUndefined | JSNull => false
  | JSBool b => b
  | JSNumber n => numTruthy n
  | JSString s => strTruthy s
  | JSArray _ | JSObject _ => true
  end.

(** [a || b] *)
Definition js_or (a b : JSValue) : JSValue := if ToBoolean a then a else b.

(** [a || b] on numbers. *)
Definition num_or (a b : JSNum) : JSNum := if numTruthy a then a else b.

(** [Math.max] and [Math.min] on two numbers. *)
Definition Math_max (a b : JSNum) : JSNum :=
  match a, b with
  | NaN, _ | _, NaN => NaN
  | PosInf, _ | _, PosInf => PosInf
  | NegInf, x | x, NegInf => x
  | Fin p, Fin q => if Qle_bool p q then Fin q else Fin p
  end.

Definition Math_min (a b : JSNum) : JSNum :=
  match a, b with
  | NaN, _ | _, NaN => NaN
  | NegInf, _ | _, NegInf => NegInf
  | PosInf, x | x, PosInf => x
  | Fin p, Fin q => if Qle_bool p q then Fin p else Fin q
  end.

(** [Math.round] on a finite number: the nearest integer, ties upwards. *)
Definition Math_round (q : Q) : Z := Qfloor (q + (1 # 2))%Q.

Fixpoint assoc (k : string) (fields : list (string * JSValue)) : option JSValue :=
  match fields with
  | [] => None
  | (k', v) :: rest => if String.eqb k k' then Some v else assoc k rest
  end.

(** [v.k] for a key that is not a built-in property: a [TypeError] ([None])
    on [null] and [undefined], [undefined] where the key is absent. *)
Definition getProp (v : JSValue) (k : string) : option JSValue :=
  match v with
  | JSUndefined | JSNull => None
  | JSObject fields => Some (default JSUndefined (assoc k fields))
  | _ => Some JSUndefined
  end.

(** [const { k, ...rest } = obj]: the own properties of [obj] except [k]. *)
Definition omitKey (k : string) (fields : list (string * JSValue))
  : list (string * JSValue) :=
  List.filter (fun kv => negb (String.eqb (fst kv) k)) fields.

(** *** Strings *)

Definition dq : string := String "034"%char EmptyString.
Definition nl : string := String "010"%char EmptyString.

(** [content.match(/\{[\s\S]*\}/)]: the suffix that starts at the first
    opening brace ... *)
Fixpoint fromFirstOpen (s : string) : option string :=
  match s with
  | EmptyString => None
  | String c r => if Ascii.eqb c "{" then Some s else fromFirstOpen r
  end.

(** ... and its longest prefix that ends in a closing brace (the star is
    greedy). *)
Fixpoint throughLastClose (s : string) : option string :=
  match s with
  | EmptyString => None
  | String c r =>
      match throughLastClose r with
      | Some p => Some (String c p)
      | None => if Ascii.eqb c "}" then Some (String c EmptyString) else None
      end
  end.

Definition jsonMatch (content : string) : option string :=
  match fromFirstOpen content with
  | Some t => throughLastClose t
  | None => None
  end.

(** [items.join(sep)] *)
Fixpoint join (sep : string) (items : list string) : string :=
  match items with
  | [] => EmptyString
  | [x] => x
  | x :: rest => x ++ sep ++ join sep rest
  end.

(** [arr.slice(0, n)] and [arr.slice(-n)] for [n > 0]. *)
Definition slice_first {A} (n : nat) (l : list A) : list A := take n l.
Definition slice_last {A} (n : nat) (l : list A) : list A := drop (length l - n) l.

(** Two decimal digits, and four for the year, as in "2026-02-07". *)
Definition pad (width : nat) (z : Z) : string :=
  let s := pretty z in
  String.concat EmptyString (replicate (width - String.length s) "0"%string) ++ s.

Definition formatISODate (date : Z) : string :=
  let '(y, m, d) := dateFields date in
  pad 4 y ++ "-" ++ pad 2 m ++ "-" ++ pad 2 d.

(** [Date.prototype.toISOString] *)
Definition toISOString (t : Z) : string :=
  let time := JSDate.TimeWithinDay t in
  formatISODate (JSDate.Day t) ++ "T" ++ pad 2 (time / 3600000) ++ ":"
  ++ pad 2 (time / 60000 mod 60) ++ ":" ++ pad 2 (time / 1000 mod 60) ++ "."
  ++ pad 3 (time mod 1000) ++ "Z".

(** ** shared/schema: rows and tables *)

Record User := {
  user_id : Z;
  username : string;
  email : string;
  password : string;
  fullName : string;
  occupation : string;
  goals : string;
  user_createdAt : Z
}.

Record InsertUser := {
  iu_username : string;
  iu_email : string;
  iu_password : string;
  iu_fullName : string;
  iu_occupation : string;
  iu_goals : string
}.

Record ProductivityEntry := {
  entry_id : Z;
  entry_userId : Z;
  title : string;
  category : string;
  duration : Z;
  completed : bool;
  notes : option string;
  entry_date : Z;
  entry_createdAt : Z
}.

Record InsertProductivityEntry := {
  ie_title : string;
  ie_category : string;
  ie_duration : Z;
  ie_completed : bool;
  ie_notes : option string;
  ie_date : Z
}.

(** A [real] column ([score], [avgScore]) is read as the number that was
    written to it: the rounding to single precision that the database
    applies is left out. *)
Record DailyScore := {
  ds_id : Z;
  ds_userId : Z;
  ds_date : Z;
  score : Q;
  aiInsight : option string;
  ds_createdAt : Z
}.

Record WeeklyScore := {
  ws_id : Z;
  ws_userId : Z;
  ws_weekStart : Z;
  ws_weekEnd : Z;
  avgScore : Q;
  totalEntries : Z;
  ws_createdAt : Z
}.

Record ChatMessage := {
  msg_id : Z;
  msg_userId : Z;
  role : string;
  content : string;
  msg_createdAt : Z
}.

(** A table: its rows in insertion order and the next value of its
    [serial] key. *)
Record Table (R : Type) := { rows : list R; nextId : Z }.
Arguments rows {R} _.
Arguments nextId {R} _.

Record Store := {
  users : Table User;
  productivityEntries : Table ProductivityEntry;
  dailyScores : Table DailyScore;
  weeklyScores : Table WeeklyScore;
  chatMessages : Table ChatMessage
}.

Definition emptyTable {R} : Table R := {| rows := []; nextId := 1 |}.

Definition emptyStore : Store :=
  {| users := emptyTable; productivityEntries := emptyTable;
     dailyScores := emptyTable; weeklyScores := emptyTable;
     chatMessages := emptyTable |}.

Definition with_users (t : Table User) (st : Store) : Store :=
  {| users := t; productivityEntries := productivityEntries st;
     dailyScores := dailyScores st; weeklyScores := weeklyScores st;
     chatMessages := chatMessages st |}.

Definition with_productivityEntries (t : Table ProductivityEntry) (st : Store) : Store :=
  {| users := users st; productivityEntries := t;
     dailyScores := dailyScores st; weeklyScores := weeklyScores st;
     chatMessages := chatMessages st |}.

Definition with_dailyScores (t : Table DailyScore) (st : Store) : Store :=
  {| users := users st; productivityEntries := productivityEntries st;
     dailyScores := t; weeklyScores := weeklyScores st;
     chatMessages := chatMessages st |}.

Definition with_weeklyScores (t : Table WeeklyScore) (st : Store) : Store :=
  {| users := users st; productivityEntries := productivityEntries st;
     dailyScores := dailyScores st; weeklyScores := t;
     chatMessages := chatMessages st |}.

Definition with_chatMessages (t : Table ChatMessage) (st : Store) : Store :=
  {| users := users st; productivityEntries := productivityEntries st;
     dailyScores := dailyScores st; weeklyScores := weeklyScores st;
     chatMessages := t |}.

(** *** The query builder *)

Section Query.

Context {R : Type} (P : R -> Prop) `{!forall r, Decision (P r)}.

(** [select().from(t).where(P)] *)
Definition db_select (t : Table R) : list R := filter P (rows t).

(** [update(t).set(f).where(P).returning()] *)
Definition db_update (f : R -> R) (t : Table R) : Table R * list R :=
  ({| rows := (fun r => if decide (P r) then f r else r) <$> rows t;
      nextId := nextId t |},
   f <$> filter P (rows t)).

(** [delete(t).where(P).returning()] *)
Definition db_delete (t : Table R) : Table R * list R :=
  ({| rows := filter (fun r => ~ P r) (rows t); nextId := nextId t |},
   filter P (rows t)).

End Query.

(** [insert(t).values(v).returning()]: [mk] completes the values with the
    generated key. *)
Definition db_insert {R} (mk : Z -> R) (t : Table R) : Table R * R :=
  let r := mk (nextId t) in
  ({| rows := rows t ++ [r]; nextId := nextId t + 1 |}, r).

(** [orderBy(col)] and [orderBy(desc(col))] *)
Definition col_le {R} (col : R -> Z) (a b : R) : Prop := col a <= col b.
Definition col_ge {R} (col : R -> Z) (a b : R) : Prop := col b <= col a.

#[global] Instance col_le_dec {R} (col : R -> Z) a b : Decision (col_le col a b).
Proof. unfold col_le. apply _. Defined.

#[global] Instance col_ge_dec {R} (col : R -> Z) a b : Decision (col_ge col a b).
Proof. unfold col_ge. apply _. Defined.

Definition orderBy {R} (col : R -> Z) (l : list R) : list R :=
  merge_sort (col_le col) l.

Definition orderByDesc {R} (col : R -> Z) (l : list R) : list R :=
  merge_sort (col_ge col) l.

(** ** The server's world: the database, the clock and the calls made to
    the text-generation service *)

Record ChatTurn := { turn_role : string; turn_content : JSValue }.

Record AICall := {
  call_messages : list ChatTurn;
  call_stream : bool;
  call_max_completion_tokens : Z
}.

Record World := { db : Store; clock : Z; aiLog : list AICall }.

Inductive Exn :=
| TypeError
| ConstraintViolation (constraint : string)
| QueryError
| UpstreamError.

(** An [async] function: it reads and writes the world and either returns
    or throws; what it wrote before throwing stays written. *)
Definition M (A : Type) : Type := World -> (Exn + A) * World.

Definition ret {A} (a : A) : M A := fun w => (inr a, w).
Definition throw {A} (e : Exn) : M A := fun w => (inl e, w).

Definition bind {A B} (m : M A) (k : A -> M B) : M B :=
  fun w => match m w with
           | (inr a, w') => k a w'
           | (inl e, w') => (inl e, w')
           end.

Definition tryCatch {A} (m : M A) (handler : Exn -> M A) : M A :=
  fun w => match m w with
           | (inr a, w') => (inr a, w')
           | (inl e, w') => handler e w'
           end.

Notation "x <- m ;; k" := (bind m (fun x => k))
  (at level 20, m at level 99, k at level 200, only parsing).
Notation "m ;;; k" := (bind m (fun _ => k))
  (at level 20, k at level 200, only parsing).

Definition getDb : M Store := fun w => (inr (db w), w).
Definition putDb (st : Store) : M unit :=
  fun w => (inr tt, {| db := st; clock := clock w; aiLog := aiLog w |}).
Definition getClock : M Z := fun w => (inr (clock w), w).
Definition logCall (c : AICall) : M unit :=
  fun w => (inr tt, {| db := db w; clock := clock w; aiLog := aiLog w ++ [c] |}).

(** ** The platform the server runs on

    Built-ins and services the repository calls but does not define are
    parameters of the development: every theorem holds whatever they do. *)

Section Server.

(** Offset of the server's local time zone from UTC, in milliseconds. *)
Variable tz : Z.

(** [bcrypt.hash(password, 10)] and [bcrypt.compare]. *)
Variable bcrypt_hash : string -> string.
Variable bcrypt_compare : string -> string -> bool.

(** [JSON.parse]: [None] when it throws a [SyntaxError]. *)
Variable JSON_parse : string -> option JSValue.

(** [Number(s)] on a string, [String(v)] on an array or object, and
    [String(x)] on a number. *)
Variable StringToNumber : string -> JSNum.
Variable ObjectToString : JSValue -> string.
Variable NumberToString : Q -> string.

(** The arithmetic of numbers.  A finite number is the rational it stands
    for; [double q] is the double nearest to [q], so that [a + b], [a * b]
    and [a / b] on numbers are [double (a + b)], [double (a * b)] and
    [double (a / b)]. *)
Variable double : Q -> Q.

(** What the database driver stores in a [text] column for a value that is
    not a string. *)
Variable pgText : JSValue -> string.

(** [parsed.error.flatten()] of a failed schema validation. *)
Variable zodFlatten : JSValue -> JSValue.

(** The text-generation service.  A completion request fails ([None]) or
    answers with [choices[0]?.message?.content], which may be missing.  A
    streaming request fails at once ([None]) or delivers the [content] of
    its chunks and then either ends ([true]) or breaks off ([false]). *)
Variable generate : list ChatTurn -> option (option string).
Variable generateStream : list ChatTurn -> option (list string * bool).

(** ** server/storage *)

Definition includes (sub s : string) : bool :=
  match String.index 0 sub s with
  | Some _ => true
  | None => false
  end.

(** The insert draws the identifier of the new row from the sequence of
    the table before the unique indexes are checked: an insert that one of
    them refuses has used the identifier up. *)
Definition createUser (data : InsertUser) : M User :=
  let hashedPassword := bcrypt_hash (iu_password data) in
  st <- getDb ;;
  now <- getClock ;;
  let '(t, user) :=
    db_insert (fun id =>
      {| user_id := id; username := iu_username data; email := iu_email data;
         password := hashedPassword; fullName := iu_fullName data;
         occupation := iu_occupation data; goals := iu_goals data;
         user_createdAt := now |}) (users st) in
  let refused := {| rows := rows (users st); nextId := nextId t |} in
  if bool_decide (db_select (fun u => username u = iu_username data) (users st) <> [])
  then putDb (with_users refused st) ;;;
       throw (ConstraintViolation "users_username_unique")
  else if bool_decide (db_select (fun u => email u = iu_email data) (users st) <> [])
  then putDb (with_users refused st) ;;;
       throw (ConstraintViolation "users_email_unique")
  else
    putDb (with_users t st) ;;;
    ret user.

Definition getUserByUsername (name : string) : M (option User) :=
  st <- getDb ;;
  ret (head (db_select (fun u => username u = name) (users st))).

Definition getUserById (id : Z) : M (option User) :=
  st <- getDb ;;
  ret (head (db_select (fun u => user_id u = id) (users st))).

Definition verifyPassword (pw hash : string) : M bool :=
  ret (bcrypt_compare pw hash).

Definition createProductivityEntry (userId : Z) (data : InsertProductivityEntry)
  : M ProductivityEntry :=
  st <- getDb ;;
  now <- getClock ;;
  let '(t, entry) :=
    db_insert (fun id =>
      {| entry_id := id; entry_userId := userId; title := ie_title data;
         category := ie_category data; duration := ie_duration data;
         completed := ie_completed data; notes := ie_notes data;
         entry_date := ie_date data; entry_createdAt := now |})
      (productivityEntries st) in
  putDb (with_productivityEntries t st) ;;;
  ret entry.

Definition getEntriesByDate (userId date : Z) : M (list ProductivityEntry) :=
  st <- getDb ;;
  ret (orderByDesc entry_createdAt
         (db_select (fun e => entry_userId e = userId /\ entry_date e = date)
                    (productivityEntries st))).

Definition getEntriesByDateRange (userId startDate endDate : Z)
  : M (list ProductivityEntry) :=
  st <- getDb ;;
  ret (orderByDesc entry_createdAt
         (db_select (fun e => entry_userId e = userId
                              /\ startDate <= entry_date e /\ entry_date e <= endDate)
                    (productivityEntries st))).

(** A number compared with an [integer] column: the query fails unless it
    is a whole number in the range of the column, which [NaN], an infinity
    and a number of 2^31 or more are not. *)
Definition int4 (n : JSNum) : option Z :=
  match n with
  | Fin q =>
      let z := Qfloor q in
      if Qeq_bool q (inject_Z z) && (-2147483648 <=? z) && (z <=? 2147483647)
      then Some z
      else None
  | _ => None
  end.

Definition deleteEntry (id : JSNum) (userId : Z) : M bool :=
  match int4 id with
  | None => throw QueryError
  | Some key =>
      st <- getDb ;;
      let '(t, result) :=
        db_delete (fun e => entry_id e = key /\ entry_userId e = userId)
                  (productivityEntries st) in
      putDb (with_productivityEntries t st) ;;;
      ret (0 <? length result)%nat
  end.

(** [saveDailyScore] awaits two queries, a select and then an update or an
    insert.  Each query is one step of the database; between the two the
    event loop can run the steps of other requests.  The tables of the
    scores have no unique index on their keys and the queries are not in a
    transaction. *)
Definition selectDailyScore (userId date : Z) : M (list DailyScore) :=
  st <- getDb ;;
  ret (db_select (fun r => ds_userId r = userId /\ ds_date r = date) (dailyScores st)).

Definition updateDailyScore (userId date : Z) (sc : Q) (insight : string)
  : M (option DailyScore) :=
  st <- getDb ;;
  let '(t, updated) :=
    db_update (fun r => ds_userId r = userId /\ ds_date r = date)
      (fun r => {| ds_id := ds_id r; ds_userId := ds_userId r; ds_date := ds_date r;
                   score := sc; aiInsight := Some insight;
                   ds_createdAt := ds_createdAt r |})
      (dailyScores st) in
  putDb (with_dailyScores t st) ;;;
  ret (head updated).

Definition insertDailyScore (userId date : Z) (sc : Q) (insight : string)
  : M (option DailyScore) :=
  st <- getDb ;;
  now <- getClock ;;
  let '(t, created) :=
    db_insert (fun id =>
      {| ds_id := id; ds_userId := userId; ds_date := date; score := sc;
         aiInsight := Some insight; ds_createdAt := now |}) (dailyScores st) in
  putDb (with_dailyScores t st) ;;;
  ret (Some created).

(** What a call does once its select has answered [existing]. *)
Definition writeDailyScore (existing : list DailyScore) (userId date : Z) (sc : Q)
    (insight : string) : M (option DailyScore) :=
  if (0 <? length existing)%nat
  then updateDailyScore userId date sc insight
  else insertDailyScore userId date sc insight.

(** One call, with no step of another request between its two queries. *)
Definition saveDailyScore (userId date : Z) (sc : Q) (insight : string)
  : M (option DailyScore) :=
  existing <- selectDailyScore userId date ;;
  writeDailyScore existing userId date sc insight.

Definition getDailyScores (userId startDate endDate : Z) : M (list DailyScore) :=
  st <- getDb ;;
  ret (orderByDesc ds_date
         (db_select (fun r => ds_userId r = userId
                              /\ startDate <= ds_date r /\ ds_date r <= endDate)
                    (dailyScores st))).

(** [saveWeeklyScore], in the same way: a select, then an update or an
    insert, with other requests free to run in between. *)
Definition selectWeeklyScore (userId wkStart : Z) : M (list WeeklyScore) :=
  st <- getDb ;;
  ret (db_select (fun r => ws_userId r = userId /\ ws_weekStart r = wkStart)
                 (weeklyScores st)).

Definition updateWeeklyScore (userId wkStart : Z) (avg : Q) (total : Z)
  : M (option WeeklyScore) :=
  st <- getDb ;;
  let '(t, updated) :=
    db_update (fun r => ws_userId r = userId /\ ws_weekStart r = wkStart)
      (fun r => {| ws_id := ws_id r; ws_userId := ws_userId r;
                   ws_weekStart := ws_weekStart r; ws_weekEnd := ws_weekEnd r;
                   avgScore := avg; totalEntries := total;
                   ws_createdAt := ws_createdAt r |})
      (weeklyScores st) in
  putDb (with_weeklyScores t st) ;;;
  ret (head updated).

Definition insertWeeklyScore (userId wkStart wkEnd : Z) (avg : Q) (total : Z)
  : M (option WeeklyScore) :=
  st <- getDb ;;
  now <- getClock ;;
  let '(t, created) :=
    db_insert (fun id =>
      {| ws_id := id; ws_userId := userId; ws_weekStart := wkStart;
         ws_weekEnd := wkEnd; avgScore := avg; totalEntries := total;
         ws_createdAt := now |}) (weeklyScores st) in
  putDb (with_weeklyScores t st) ;;;
  ret (Some created).

Definition writeWeeklyScore (existing : list WeeklyScore) (userId wkStart wkEnd : Z)
    (avg : Q) (total : Z) : M (option WeeklyScore) :=
  if (0 <? length existing)%nat
  then updateWeeklyScore userId wkStart avg total
  else insertWeeklyScore userId wkStart wkEnd avg total.

Definition saveWeeklyScore (userId wkStart wkEnd : Z) (avg : Q) (total : Z)
  : M (option WeeklyScore) :=
  existing <- selectWeeklyScore userId wkStart ;;
  writeWeeklyScore existing userId wkStart wkEnd avg total.

Definition getChatMessages (userId : Z) : M (list ChatMessage) :=
  st <- getDb ;;
  ret (orderBy msg_createdAt
         (db_select (fun m => msg_userId m = userId) (chatMessages st))).

Definition saveChatMessage (userId : Z) (r c : string) : M ChatMessage :=
  st <- getDb ;;
  now <- getClock ;;
  let '(t, msg) :=
    db_insert (fun id =>
      {| msg_id := id; msg_userId := userId; role := r; content := c;
         msg_createdAt := now |}) (chatMessages st) in
  putDb (with_chatMessages t st) ;;;
  ret msg.

Definition clearChatMessages (userId : Z) : M unit :=
  st <- getDb ;;
  let '(t, _) := db_delete (fun m => msg_userId m = userId) (chatMessages st) in
  putDb (with_chatMessages t st).

Definition getAllUsers : M (list User) :=
  st <- getDb ;;
  ret (rows (users st)).

(** ** server/routes *)

Inductive SSEvent :=
| EvContent (text : string)
| EvError (msg : string)
| EvDone.

Inductive Response :=
| Json (status : Z) (body : JSValue)
| EventStream (events : list SSEvent).

Definition message (m : string) : JSValue := JSObject [("message"%string, JSString m)].

(** [!req.session.userId] is also true of a user id 0. *)
Definition requireAuth (sess : option Z) (next : Z -> M Response) : M Response :=
  match sess with
  | Some userId =>
      if userId =? 0 then ret (Json 401 (message "Not authenticated")) else next userId
  | None => ret (Json 401 (message "Not authenticated"))
  end.

(** A user row as the object the ORM returns (dates as JSON prints them). *)
Definition userObject (u : User) : list (string * JSValue) :=
  [("id", JSInt (user_id u)); ("username", JSString (username u));
   ("email", JSString (email u)); ("password", JSString (password u));
   ("fullName", JSString (fullName u)); ("occupation", JSString (occupation u));
   ("goals", JSString (goals u));
   ("createdAt", JSString (toISOString (user_createdAt u)))]%string.

(** [const { password, ...safeUser } = user] *)
Definition safeUser (u : User) : JSValue := JSObject (omitKey "password" (userObject u)).

Definition stringField (k : string) (body : JSValue) : option string :=
  match body with
  | JSObject fields =>
      match assoc k fields with
      | Some (JSString s) => Some s
      | _ => None
      end
  | _ => None
  end.

(** [insertUserSchema.safeParse]: six required strings. *)
Definition insertUserSchema_safeParse (body : JSValue) : option InsertUser :=
  u ← stringField "username" body;
  e ← stringField "email" body;
  p ← stringField "password" body;
  f ← stringField "fullName" body;
  o ← stringField "occupation" body;
  g ← stringField "goals" body;
  Some {| iu_username := u; iu_email := e; iu_password := p;
          iu_fullName := f; iu_occupation := o; iu_goals := g |}.

(** [loginSchema.safeParse]: two non-empty strings. *)
Definition loginSchema_safeParse (body : JSValue) : option (string * string) :=
  u ← stringField "username" body;
  p ← stringField "password" body;
  if strTruthy u && strTruthy p then Some (u, p) else None.

(** POST /api/auth/register.  The second component is [req.session.userId]
    after the request. *)
Definition postRegister (sess : option Z) (body : JSValue) : M (Response * option Z) :=
  tryCatch
    (match insertUserSchema_safeParse body with
     | None =>
         ret (Json 400 (JSObject [("message", JSString "Invalid input");
                                  ("errors", zodFlatten body)]%string), sess)
     | Some data =>
         existing <- getUserByUsername (iu_username data) ;;
         match existing with
         | Some _ => ret (Json 409 (message "Username already taken"), sess)
         | None =>
             user <- createUser data ;;
             ret (Json 201 (safeUser user), Some (user_id user))
         end
     end)
    (fun error =>
       match error with
       | ConstraintViolation c =>
           if includes "email" c
           then ret (Json 409 (message "Email already in use"), sess)
           else ret (Json 500 (message "Failed to register"), sess)
       | _ => ret (Json 500 (message "Failed to register"), sess)
       end).

(** POST /api/auth/login *)
Definition postLogin (sess : option Z) (body : JSValue) : M (Response * option Z) :=
  tryCatch
    (match loginSchema_safeParse body with
     | None => ret (Json 400 (message "Invalid input"), sess)
     | Some (name, pw) =>
         found <- getUserByUsername name ;;
         match found with
         | None => ret (Json 401 (message "Invalid credentials"), sess)
         | Some user =>
             valid <- verifyPassword pw (password user) ;;
             if valid : bool
             then ret (Json 200 (safeUser user), Some (user_id user))
             else ret (Json 401 (message "Invalid credentials"), sess)
         end
     end)
    (fun _ => ret (Json 500 (message "Failed to login"), sess)).

(** POST /api/auth/logout *)
Definition postLogout (sess : option Z) : M (Response * option Z) :=
  ret (Json 200 (message "Logged out"), None).

(** GET /api/auth/me *)
Definition getMe (sess : option Z) : M Response :=
  match sess with
  | Some userId =>
      if userId =? 0 then ret (Json 401 (message "Not authenticated"))
      else
        found <- getUserById userId ;;
        match found with
        | None => ret (Json 401 (message "User not found"))
        | Some user => ret (Json 200 (safeUser user))
        end
  | None => ret (Json 401 (message "Not authenticated"))
  end.

(** DELETE /api/entries/:id, with [id] what [parseInt(req.params.id)]
    gives: a whole number, or [NaN] for a text that does not start with
    one. *)
Definition deleteEntryRoute (sess : option Z) (id : JSNum) : M Response :=
  requireAuth sess (fun userId =>
    tryCatch
      (deleted <- deleteEntry id userId ;;
       if deleted : bool
       then ret (Json 200 (message "Deleted"))
       else ret (Json 404 (message "Entry not found")))
      (fun _ => ret (Json 500 (message "Failed to delete entry")))).

(** *** POST /api/score/daily *)

(** [user?.field] inside a template literal. *)
Definition userField (f : User -> string) (user : option User) : string :=
  match user with
  | Some u => f u
  | None => "undefined"
  end.

Definition entryLine (e : ProductivityEntry) : string :=
  "- " ++ title e ++ " (" ++ category e ++ ", " ++ pretty (duration e) ++ "min, "
  ++ (if completed e then "completed" else "incomplete") ++ ")"
  ++ match notes e with
     | Some n => if strTruthy n then " Notes: " ++ n else EmptyString
     | None => EmptyString
     end.

Definition scorePrompt (user : option User) (date : Z)
    (entries : list ProductivityEntry) : string :=
  "You are a productivity analyst. Rate this person's daily productivity on a scale of 0-100 and provide a brief insight."
  ++ nl ++ nl ++ "User Profile:" ++ nl
  ++ "- Name: " ++ userField fullName user ++ nl
  ++ "- Occupation: " ++ userField occupation user ++ nl
  ++ "- Goals: " ++ userField goals user ++ nl ++ nl
  ++ "Today's Activities (" ++ formatISODate date ++ "):" ++ nl
  ++ join nl (entryLine <$> entries) ++ nl ++ nl
  ++ "Respond in this exact JSON format:" ++ nl
  ++ "{" ++ dq ++ "score" ++ dq ++ ": <number 0-100>, " ++ dq ++ "insight" ++ dq
  ++ ": " ++ dq ++ "<2-3 sentence insight about their productivity>" ++ dq ++ "}".

Definition defaultContent : string :=
  "{" ++ dq ++ "score" ++ dq ++ ": 50, " ++ dq ++ "insight" ++ dq ++ ": "
  ++ dq ++ "Keep going!" ++ dq ++ "}".

Definition noActivities : string :=
  "No activities logged today. Start tracking to get your productivity score!".

(** [openai.chat.completions.create] without streaming. *)
Definition openai_create (messages : list ChatTurn) (maxTokens : Z) : M (option string) :=
  logCall {| call_messages := messages; call_stream := false;
             call_max_completion_tokens := maxTokens |} ;;;
  match generate messages with
  | Some c => ret c
  | None => throw UpstreamError
  end.

(** The text handed to [JSON.parse]: the match of [/\{[\s\S]*\}/] if there
    is one, else the whole content. *)
Definition jsonCandidate (content : string) : string :=
  match jsonMatch content with
  | Some m => m
  | None => content
  end.

(** [try { parsed = JSON.parse(...) } catch { parsed = { score: 50, insight: content } }] *)
Definition parseResponse (content : string) : JSValue :=
  match JSON_parse (jsonCandidate content) with
  | Some parsed => parsed
  | None => JSObject [("score", JSInt 50); ("insight", JSString content)]%string
  end.

(** [Number(v)] *)
Definition ToNumber (v : JSValue) : JSNum :=
  match v with
  | JSUndefined => NaN
  | JSNull => Fin 0
  | JSBool b => Fin (if b then 1 else 0)
  | JSNumber n => n
  | JSString s => StringToNumber s
  | JSArray _ | JSObject _ => StringToNumber (ObjectToString v)
  end.

(** [Math.min(100, Math.max(0, Number(parsed.score) || 50))] *)
Definition clampScore (v : JSValue) : JSNum :=
  Math_min (Fin 100) (Math_max (Fin 0) (num_or (ToNumber v) (Fin 50))).

Definition getPropM (v : JSValue) (k : string) : M JSValue :=
  match getProp v k with
  | Some x => ret x
  | None => throw TypeError
  end.

(** The [real] columns hold finite numbers. *)
Definition finite (n : JSNum) : M Q :=
  match n with
  | Fin q => ret q
  | _ => throw TypeError
  end.

(** A value bound to a [text] column. *)
Definition toText (v : JSValue) : string :=
  match v with
  | JSString s => s
  | _ => pgText v
  end.

(** [weekScores.reduce((sum, s) => sum + s.score, 0) / weekScores.length] *)
Definition average (weekScores : list DailyScore) : Q :=
  double (fold_left (fun sum s => double (sum + score s)) weekScores 0
          / inject_Z (Z.of_nat (length weekScores)))%Q.

(** [Math.round(avg * 10) / 10]; [Math.round] is exact. *)
Definition roundOneDecimal (avg : Q) : Q :=
  double (inject_Z (Math_round (double (avg * 10))) / 10)%Q.

(** Lines 260-265: recompute the aggregate of the week of [date]. *)
Definition refreshWeeklyScore (userId date : Z) : M unit :=
  now <- getClock ;;
  let wb := getWeekBounds tz now (Some date) in
  weekScores <- getDailyScores userId (weekStart wb) (weekEnd wb) ;;
  if (0 <? length weekScores)%nat then
    saveWeeklyScore userId (weekStart wb) (weekEnd wb)
      (roundOneDecimal (average weekScores)) (Z.of_nat (length weekScores)) ;;;
    ret tt
  else ret tt.

(** [bodyDate] is [req.body.date] when that is the text YYYY-MM-DD of a
    calendar day, the form the client sends; absent or empty it falls back
    to today's UTC date.  Other values of [req.body.date] are outside this
    definition. *)
Definition postScoreDaily (sess : option Z) (bodyDate : option Z) : M Response :=
  requireAuth sess (fun userId =>
    tryCatch
      (now <- getClock ;;
       let date := match bodyDate with
                   | Some d => d
                   | None => JSDate.toISODate now
                   end in
       entries <- getEntriesByDate userId date ;;
       if (length entries =? 0)%nat then
         ret (Json 200 (JSObject [("score", JSInt 0);
                                  ("insight", JSString noActivities)]%string))
       else
         user <- getUserById userId ;;
         let prompt := scorePrompt user date entries in
         response <- openai_create
                       [{| turn_role := "user"; turn_content := JSString prompt |}] 256 ;;
         let content := match response with
                        | Some c => if strTruthy c then c else defaultContent
                        | None => defaultContent
                        end in
         let parsed := parseResponse content in
         scoreV <- getPropM parsed "score" ;;
         sc <- finite (clampScore scoreV) ;;
         insightV <- getPropM parsed "insight" ;;
         let insight := js_or insightV (JSString "Keep pushing your productivity!") in
         saveDailyScore userId date sc (toText insight) ;;;
         refreshWeeklyScore userId date ;;;
         ret (Json 200 (JSObject [("score", JSNumber (Fin sc)); ("insight", insight);
                                  ("date", JSString (formatISODate date))]%string)))
      (fun _ => ret (Json 500 (message "Failed to generate score")))).

(** *** POST /api/chat *)

Definition entrySummaryLine (e : ProductivityEntry) : string :=
  formatISODate (entry_date e) ++ ": " ++ title e ++ " (" ++ category e ++ ", "
  ++ pretty (duration e) ++ "min, " ++ (if completed e then "done" else "pending")
  ++ ")".

Definition entriesSummary (recentEntries : list ProductivityEntry) : string :=
  if (0 <? length recentEntries)%nat
  then join nl (entrySummaryLine <$> slice_first 20 recentEntries)
  else "No recent activities logged.".

Definition scoreSummaryItem (s : DailyScore) : string :=
  formatISODate (ds_date s) ++ ": Score " ++ NumberToString (score s) ++ "/100".

Definition scoresSummary (recentScores : list DailyScore) : string :=
  if (0 <? length recentScores)%nat
  then join ", " (scoreSummaryItem <$> recentScores)
  else "No scores yet.".

Definition systemPrompt (user : option User) (entries scores : string) : string :=
  "You are an expert productivity coach. You help users maximize their productivity with actionable, personalized advice."
  ++ nl ++ nl ++ "User Profile:" ++ nl
  ++ "- Name: " ++ userField fullName user ++ nl
  ++ "- Occupation: " ++ userField occupation user ++ nl
  ++ "- Goals: " ++ userField goals user ++ nl ++ nl
  ++ "Recent Activities This Week:" ++ nl ++ entries ++ nl ++ nl
  ++ "Recent Scores: " ++ scores ++ nl ++ nl
  ++ "Guidelines:" ++ nl
  ++ "- Be encouraging but honest" ++ nl
  ++ "- Give specific, actionable advice" ++ nl
  ++ "- Reference their actual activities and scores when relevant" ++ nl
  ++ "- Keep responses concise (2-4 sentences unless they ask for detailed plans)" ++ nl
  ++ "- Use their name occasionally for a personal touch".

Definition historyTurn (m : ChatMessage) : ChatTurn :=
  {| turn_role := role m; turn_content := JSString (content m) |}.

(** The [messages] array of the chat request. *)
Definition chatContext (user : option User) (recentEntries : list ProductivityEntry)
    (recentScores : list DailyScore) (chatHistory : list ChatMessage)
    (msg : JSValue) : list ChatTurn :=
  [{| turn_role := "system";
      turn_content := JSString (systemPrompt user (entriesSummary recentEntries)
                                             (scoresSummary recentScores)) |}]
  ++ (historyTurn <$> slice_last 20 chatHistory)
  ++ [{| turn_role := "user"; turn_content := msg |}].

Definition chatFailed : SSEvent := EvError "Failed to get response".

(** [body] is [req.body].  The headers are flushed before the generation
    request is made, so a failure of the service is reported on the event
    stream. *)
Definition postChat (sess : option Z) (body : JSValue) : M Response :=
  requireAuth sess (fun userId =>
    tryCatch
      (msg <- getPropM body "message" ;;
       if negb (ToBoolean msg) then ret (Json 400 (message "Message is required"))
       else
         user <- getUserById userId ;;
         chatHistory <- getChatMessages userId ;;
         saveChatMessage userId "user" (toText msg) ;;;
         now <- getClock ;;
         let wb := getWeekBounds tz now None in
         recentEntries <- getEntriesByDateRange userId (weekStart wb) (weekEnd wb) ;;
         recentScores <- getDailyScores userId (weekStart wb) (weekEnd wb) ;;
         let messages := chatContext user recentEntries recentScores chatHistory msg in
         logCall {| call_messages := messages; call_stream := true;
                    call_max_completion_tokens := 1024 |} ;;;
         match generateStream messages with
         | None => ret (EventStream [chatFailed])
         | Some (chunks, finished) =>
             let pieces := List.filter strTruthy chunks in
             let fullResponse := String.concat EmptyString pieces in
             if finished : bool then
               saveChatMessage userId "assistant" fullResponse ;;;
               ret (EventStream ((EvContent <$> pieces) ++ [EvDone]))
             else ret (EventStream ((EvContent <$> pieces) ++ [chatFailed]))
         end)
      (fun _ => ret (Json 500 (message "Failed to chat")))).

(** ** Calendar lemmas *)

Lemma monthOfDay_range (dwy leap : Z) : 0 <= JSDate.monthOfDay dwy leap <= 11.
Proof.
  unfold JSDate.monthOfDay.
  repeat match goal with |- context [if ?c then _ else _] => destruct c end; lia.
Qed.

Lemma MakeDay_in_month (y m dt : Z) :
  0 <= m <= 11 ->
  JSDate.MakeDay y m dt
  = JSDate.DayFromYear y
    + JSDate.monthStart m (if JSDate.isLeapYear y then 1 else 0) + dt - 1.
Proof.
  intros Hm. unfold JSDate.MakeDay.
  rewrite (Z.div_small m 12), (Z.mod_small m 12) by lia.
  rewrite Z.add_0_r. reflexivity.
Qed.

(** Setting the day of the month moves the day number by the difference to
    the current day of the month, across month and year ends. *)
Lemma MakeDay_shift (t dt : Z) :
  JSDate.MakeDay (JSDate.YearFromTime t) (JSDate.MonthFromTime t) dt
  = JSDate.Day t - JSDate.DateFromTime t + dt.
Proof.
  rewrite MakeDay_in_month by apply monthOfDay_range.
  unfold JSDate.DateFromTime, JSDate.DayWithinYear, JSDate.InLeapYear. lia.
Qed.

Lemma MakeDay_of_fields (t : Z) :
  JSDate.MakeDay (JSDate.YearFromTime t) (JSDate.MonthFromTime t)
                 (JSDate.DateFromTime t) = JSDate.Day t.
Proof. rewrite MakeDay_shift. lia. Qed.

Lemma Day_MakeDate (day time : Z) :
  0 <= time < JSDate.msPerDay -> JSDate.Day (JSDate.MakeDate day time) = day.
Proof.
  intros Ht. unfold JSDate.Day, JSDate.MakeDate, JSDate.msPerDay in *.
  rewrite Z.add_comm, Z.div_add by lia. rewrite Z.div_small by lia. lia.
Qed.

Lemma TimeWithinDay_range (t : Z) :
  0 <= JSDate.TimeWithinDay t < JSDate.msPerDay.
Proof. unfold JSDate.TimeWithinDay, JSDate.msPerDay. apply Z.mod_pos_bound. lia. Qed.

Lemma Day_shift_days (day t : Z) :
  JSDate.Day (day * JSDate.msPerDay + t) = day + JSDate.Day t.
Proof.
  unfold JSDate.Day, JSDate.msPerDay.
  rewrite Z.add_comm, Z.div_add by lia. lia.
Qed.

(** The local day on which the week of local day [l] starts. *)
Definition localMonday (l : Z) : Z :=
  let w := (l + 4) mod 7 in l - w + (if w =? 0 then -6 else 1).

Lemma localMonday_weekday (l : Z) : weekdayOf (localMonday l) = 1.
Proof.
  unfold weekdayOf, localMonday.
  destruct (Z.eqb_spec ((l + 4) mod 7) 0) as [E|E].
  - rewrite E. replace (l - 0 + -6 + 4) with ((l + 4) + (-1) * 7 + 1) by lia.
    rewrite <- Z.add_assoc, (Z.add_comm (-1 * 7) 1), Z.add_assoc, Z.mod_add by lia.
    rewrite <- Z.add_mod_idemp_l, E by lia. reflexivity.
  - pose proof (Z.mod_pos_bound (l + 4) 7 ltac:(lia)) as Hb.
    pose proof (Z.div_mod (l + 4) 7 ltac:(lia)) as Hd.
    replace (l - (l + 4) mod 7 + 1 + 4) with (1 + (l + 4) / 7 * 7) by lia.
    rewrite Z.mod_add by lia. reflexivity.
Qed.

Lemma localMonday_range (l : Z) : localMonday l <= l <= localMonday l + 6.
Proof.
  unfold localMonday.
  pose proof (Z.mod_pos_bound (l + 4) 7 ltac:(lia)) as Hb.
  destruct (Z.eqb_spec ((l + 4) mod 7) 0); lia.
Qed.

(** What [getWeekBounds] computes in a zone with offset [off]: the Monday of
    the reference instant's local week, taken at local midnight and then
    printed as a UTC date. *)
Lemma getWeekBounds_eq (off now : Z) (dateStr : option Z) :
  let d := match dateStr with
           | Some s => JSDate.parseISODate s
           | None => now
           end in
  let m := localMonday (JSDate.Day (d + off)) in
  getWeekBounds off now dateStr
  = {| weekStart := m + JSDate.Day (- off);
       weekEnd := m + 6 + JSDate.Day (- off) |}.
Proof.
  intros d m. unfold getWeekBounds. fold d.
  set (day := JSDate.getDay off d).
  set (mon1 := JSDate.setDate off d _).
  assert (Hloc : JSDate.LocalTime off mon1
                 = JSDate.MakeDate m (JSDate.TimeWithinDay (d + off))).
  { subst mon1. unfold JSDate.setDate, JSDate.LocalTime, JSDate.UTC.
    rewrite MakeDay_shift. unfold JSDate.getDate, JSDate.LocalTime.
    replace (JSDate.Day (d + off) - JSDate.DateFromTime (d + off)
             + (JSDate.DateFromTime (d + off) - day + (if day =? 0 then -6 else 1)))
      with m; [lia|].
    subst m day. unfold localMonday, JSDate.getDay, JSDate.WeekDay, JSDate.LocalTime.
    lia. }
  set (mon := JSDate.setHours off mon1 0 0 0 0).
  assert (Hmon : mon = m * JSDate.msPerDay + (- off)).
  { subst mon. unfold JSDate.setHours. rewrite Hloc.
    rewrite Day_MakeDate by apply TimeWithinDay_range.
    unfold JSDate.UTC, JSDate.MakeDate, JSDate.MakeTime. lia. }
  assert (Hsun : JSDate.setDate off mon (JSDate.getDate off mon + 6)
                 = (m + 6) * JSDate.msPerDay + (- off)).
  { unfold JSDate.setDate, JSDate.getDate, JSDate.LocalTime, JSDate.UTC.
    rewrite MakeDay_shift.
    replace (mon + off) with (JSDate.MakeDate m 0)
      by (rewrite Hmon; unfold JSDate.MakeDate; lia).
    rewrite Day_MakeDate by (unfold JSDate.msPerDay; lia).
    replace (JSDate.TimeWithinDay (JSDate.MakeDate m 0)) with 0.
    - unfold JSDate.MakeDate. lia.
    - unfold JSDate.TimeWithinDay, JSDate.MakeDate.
      rewrite Z.add_0_r, Z.mod_mul by (unfold JSDate.msPerDay; lia).
      reflexivity. }
  rewrite Hsun, Hmon. unfold JSDate.toISODate.
  rewrite !Day_shift_days. reflexivity.
Qed.

(** [YearFromDay] is the year the day falls in. *)
Lemma YearFromDay_spec (day : Z) :
  JSDate.DayFromYear (JSDate.YearFromDay day) <= day
  < JSDate.DayFromYear (JSDate.YearFromDay day + 1).
Proof.
  unfold JSDate.YearFromDay.
  set (y0 := 1970 + 400 * day / 146097).
  assert (H0 : 146097 * (y0 - 1970) <= 400 * day < 146097 * (y0 - 1970) + 146097).
  { subst y0. pose proof (Z.div_mod (400 * day) 146097 ltac:(lia)).
    pose proof (Z.mod_pos_bound (400 * day) 146097 ltac:(lia)). lia. }
  clearbody y0. unfold JSDate.DayFromYear.
  repeat match goal with
         | |- context [if ?a <? ?b then _ else _] => destruct (Z.ltb_spec a b)
         | |- context [if ?a <=? ?b then _ else _] => destruct (Z.leb_spec a b)
         end; Z.div_mod_to_equations; lia.
Qed.

Lemma Day_parseISODate (date : Z) : JSDate.Day (JSDate.parseISODate date) = date.
Proof. apply Day_MakeDate. unfold JSDate.msPerDay. lia. Qed.

(** Printing a calendar date and reading it back gives the same day. *)
Lemma isoDate_dateFields (date : Z) :
  let '(y, m, d) := dateFields date in isoDate y m d = date.
Proof.
  unfold dateFields, isoDate.
  replace (JSDate.MonthFromTime (JSDate.parseISODate date) + 1 - 1)
    with (JSDate.MonthFromTime (JSDate.parseISODate date)) by lia.
  rewrite MakeDay_of_fields. apply Day_parseISODate.
Qed.

(** On a server whose local time is UTC the bounds are the Monday to Sunday
    week of the reference date (the current UTC date by default). *)
Lemma getWeekBounds_utc (now : Z) (dateStr : option Z) :
  let ref := match dateStr with
             | Some d => d
             | None => JSDate.Day now
             end in
  let wb := getWeekBounds 0 now dateStr in
  weekdayOf (weekStart wb) = 1
  /\ weekEnd wb = weekStart wb + 6
  /\ weekStart wb <= ref <= weekEnd wb
  /\ (weekdayOf ref = 0 -> weekStart wb = ref - 6).
Proof.
  intros ref wb. subst wb. rewrite getWeekBounds_eq. cbv zeta.
  cbn [weekStart weekEnd].
  replace (JSDate.Day (- 0)) with 0 by reflexivity.
  rewrite !Z.add_0_r.
  assert (Href : JSDate.Day match dateStr with
                            | Some s => JSDate.parseISODate s
                            | None => now
                            end = ref).
  { subst ref. destruct dateStr; [apply Day_parseISODate | reflexivity]. }
  rewrite Href.
  pose proof (localMonday_range ref). pose proof (localMonday_weekday ref).
  repeat split; try lia.
  unfold weekdayOf, localMonday. intros ->. cbn. lia.
Qed.

(** ** Running the storage functions *)

(** [tauto] on the propositions of the context only: the platform's
    functions are not premises. *)
Ltac tauto_props :=
  repeat match goal with
         | f : ?T |- _ =>
             lazymatch type of T with
             | Prop => fail
             | _ => lazymatch T with _ -> _ => clear f end
             end
         end;
  tauto.

Lemma Table_eta {R} (t : Table R) : {| rows := rows t; nextId := nextId t |} = t.
Proof. destruct t; reflexivity. Qed.

Lemma World_eta (w : World) : {| db := db w; clock := clock w; aiLog := aiLog w |} = w.
Proof. destruct w; reflexivity. Qed.

Lemma Store_eta (st : Store) :
  {| users := users st; productivityEntries := productivityEntries st;
     dailyScores := dailyScores st; weeklyScores := weeklyScores st;
     chatMessages := chatMessages st |} = st.
Proof. destruct st; reflexivity. Qed.

Lemma filter_all {A} (P : A -> Prop) `{!forall x, Decision (P x)} (l : list A) :
  (forall x, x ∈ l -> P x) -> filter P l = l.
Proof.
  induction l as [|a l IH]; intros Hall; [reflexivity|].
  rewrite filter_cons, decide_True by (apply Hall; left).
  f_equal. apply IH. intros x Hx. apply Hall. right. exact Hx.
Qed.

Lemma filter_none {A} (P : A -> Prop) `{!forall x, Decision (P x)} (l : list A) :
  (forall x, x ∈ l -> ~ P x) -> filter P l = [].
Proof.
  induction l as [|a l IH]; intros Hnone; [reflexivity|].
  rewrite filter_cons, decide_False by (apply Hnone; left).
  apply IH. intros x Hx. apply Hnone. right. exact Hx.
Qed.

Lemma length_pos_iff {A} (l : list A) : (0 <? length l)%nat = true <-> l <> [].
Proof. destruct l; cbn; split; intros; congruence. Qed.

Lemma length_pos_false {A} (l : list A) : (0 <? length l)%nat = false <-> l = [].
Proof. destruct l; cbn; split; intros; congruence. Qed.

Lemma filter_nonempty {A} (P : A -> Prop) `{!forall x, Decision (P x)} (l : list A) :
  filter P l <> [] <-> exists x, x ∈ l /\ P x.
Proof.
  split.
  - intros Hne. destruct (filter P l) as [|x r] eqn:E; [congruence|].
    exists x. assert (Hx : x ∈ filter P l) by (rewrite E; left).
    apply list_elem_of_filter in Hx. tauto_props.
  - intros (x & Hx & HP) E.
    assert (Hin : x ∈ filter P l) by (apply list_elem_of_filter; tauto_props).
    rewrite E in Hin. inversion Hin.
Qed.

(** [deleteEntry] removes the entries with the given key that the user
    owns, and reports whether there was one. *)
Lemma deleteEntry_run (id : JSNum) (key userId : Z) (w : World) :
  int4 id = Some key ->
  let P := fun e => entry_id e = key /\ entry_userId e = userId in
  deleteEntry id userId w
  = (inr (0 <? length (filter P (rows (productivityEntries (db w)))))%nat,
     {| db := with_productivityEntries
                {| rows := filter (fun e => ~ P e) (rows (productivityEntries (db w)));
                   nextId := nextId (productivityEntries (db w)) |} (db w);
        clock := clock w; aiLog := aiLog w |}).
Proof. intros Hid. unfold deleteEntry. rewrite Hid. reflexivity. Qed.

(** A number the column cannot hold fails the query before anything is
    touched. *)
Lemma deleteEntry_refused (id : JSNum) (userId : Z) (w : World) :
  int4 id = None -> deleteEntry id userId w = (inl QueryError, w).
Proof. intros Hid. unfold deleteEntry. rewrite Hid. reflexivity. Qed.


Lemma int4_range (n : JSNum) (z : Z) :
  int4 n = Some z -> -2147483648 <= z <= 2147483647.
Proof.
  unfold int4. destruct n as [q| | |]; try discriminate.
  destruct (Qeq_bool _ _); [|discriminate].
  destruct (Z.leb_spec (-2147483648) (Qfloor q)); [|discriminate].
  destruct (Z.leb_spec (Qfloor q) 2147483647); [|discriminate].
  cbn. intros [= <-]. lia.
Qed.

Lemma deleteEntry_absent (id : JSNum) (key userId : Z) (w : World) :
  int4 id = Some key ->
  (forall e, e ∈ rows (productivityEntries (db w)) ->
             ~ (entry_id e = key /\ entry_userId e = userId)) ->
  deleteEntry id userId w = (inr false, w).
Proof.
  intros Hid Hnone. rewrite (deleteEntry_run id key) by exact Hid. cbv zeta.
  rewrite filter_none by exact Hnone. rewrite filter_all by exact Hnone.
  cbn [length Nat.ltb Nat.leb]. f_equal.
  rewrite Table_eta. unfold with_productivityEntries.
  rewrite Store_eta. apply World_eta.
Qed.

(** The row updates of the two upserts. *)
Definition setDaily (sc : Q) (insight : string) (r : DailyScore) : DailyScore :=
  {| ds_id := ds_id r; ds_userId := ds_userId r; ds_date := ds_date r;
     score := sc; aiInsight := Some insight; ds_createdAt := ds_createdAt r |}.

Definition setWeekly (avg : Q) (total : Z) (r : WeeklyScore) : WeeklyScore :=
  {| ws_id := ws_id r; ws_userId := ws_userId r; ws_weekStart := ws_weekStart r;
     ws_weekEnd := ws_weekEnd r; avgScore := avg; totalEntries := total;
     ws_createdAt := ws_createdAt r |}.

Definition dailyKey (userId date : Z) (r : DailyScore) : Prop :=
  ds_userId r = userId /\ ds_date r = date.

Definition weeklyKey (userId wkStart : Z) (r : WeeklyScore) : Prop :=
  ws_userId r = userId /\ ws_weekStart r = wkStart.

#[global] Instance dailyKey_dec u d r : Decision (dailyKey u d r).
Proof. unfold dailyKey. apply _. Defined.

#[global] Instance weeklyKey_dec u d r : Decision (weeklyKey u d r).
Proof. unfold weeklyKey. apply _. Defined.

Lemma saveDailyScore_existing (userId date : Z) (sc : Q) (insight : string) (w : World) :
  let t := dailyScores (db w) in
  filter (dailyKey userId date) (rows t) <> [] ->
  saveDailyScore userId date sc insight w
  = (inr (head (setDaily sc insight <$> filter (dailyKey userId date) (rows t))),
     {| db := with_dailyScores
                {| rows := (fun r => if decide (dailyKey userId date r)
                                     then setDaily sc insight r else r) <$> rows t;
                   nextId := nextId t |} (db w);
        clock := clock w; aiLog := aiLog w |}).
Proof.
  intros t Hex. apply length_pos_iff in Hex.
  unfold saveDailyScore, selectDailyScore, writeDailyScore, updateDailyScore,
    insertDailyScore, bind, getDb, getClock, ret, db_select.
  match goal with
  | |- context [(0 <? length ?l)%nat] =>
      replace (0 <? length l)%nat with true by (symmetry; exact Hex)
  end.
  reflexivity.
Qed.

Lemma saveDailyScore_fresh (userId date : Z) (sc : Q) (insight : string) (w : World) :
  let t := dailyScores (db w) in
  let created := {| ds_id := nextId t; ds_userId := userId; ds_date := date;
                    score := sc; aiInsight := Some insight;
                    ds_createdAt := clock w |} in
  filter (dailyKey userId date) (rows t) = [] ->
  saveDailyScore userId date sc insight w
  = (inr (Some created),
     {| db := with_dailyScores
                {| rows := rows t ++ [created]; nextId := nextId t + 1 |} (db w);
        clock := clock w; aiLog := aiLog w |}).
Proof.
  intros t created Hnone. apply length_pos_false in Hnone.
  unfold saveDailyScore, selectDailyScore, writeDailyScore, updateDailyScore,
    insertDailyScore, bind, getDb, getClock, ret, db_select.
  match goal with
  | |- context [(0 <? length ?l)%nat] =>
      replace (0 <? length l)%nat with false by (symmetry; exact Hnone)
  end.
  reflexivity.
Qed.

Lemma saveWeeklyScore_existing (userId wkStart wkEnd : Z) (avg : Q) (total : Z)
    (w : World) :
  let t := weeklyScores (db w) in
  filter (weeklyKey userId wkStart) (rows t) <> [] ->
  saveWeeklyScore userId wkStart wkEnd avg total w
  = (inr (head (setWeekly avg total <$> filter (weeklyKey userId wkStart) (rows t))),
     {| db := with_weeklyScores
                {| rows := (fun r => if decide (weeklyKey userId wkStart r)
                                     then setWeekly avg total r else r) <$> rows t;
                   nextId := nextId t |} (db w);
        clock := clock w; aiLog := aiLog w |}).
Proof.
  intros t Hex. apply length_pos_iff in Hex.
  unfold saveWeeklyScore, selectWeeklyScore, writeWeeklyScore, updateWeeklyScore,
    insertWeeklyScore, bind, getDb, getClock, ret, db_select.
  match goal with
  | |- context [(0 <? length ?l)%nat] =>
      replace (0 <? length l)%nat with true by (symmetry; exact Hex)
  end.
  reflexivity.
Qed.

Lemma saveWeeklyScore_fresh (userId wkStart wkEnd : Z) (avg : Q) (total : Z)
    (w : World) :
  let t := weeklyScores (db w) in
  let created := {| ws_id := nextId t; ws_userId := userId; ws_weekStart := wkStart;
                    ws_weekEnd := wkEnd; avgScore := avg; totalEntries := total;
                    ws_createdAt := clock w |} in
  filter (weeklyKey userId wkStart) (rows t) = [] ->
  saveWeeklyScore userId wkStart wkEnd avg total w
  = (inr (Some created),
     {| db := with_weeklyScores
                {| rows := rows t ++ [created]; nextId := nextId t + 1 |} (db w);
        clock := clock w; aiLog := aiLog w |}).
Proof.
  intros t created Hnone. apply length_pos_false in Hnone.
  unfold saveWeeklyScore, selectWeeklyScore, writeWeeklyScore, updateWeeklyScore,
    insertWeeklyScore, bind, getDb, getClock, ret, db_select.
  match goal with
  | |- context [(0 <? length ?l)%nat] =>
      replace (0 <? length l)%nat with false by (symmetry; exact Hnone)
  end.
  reflexivity.
Qed.

(** ** One score row per key: a call that runs alone *)

Definition dailyKeyOf (r : DailyScore) : Z * Z := (ds_userId r, ds_date r).
Definition weeklyKeyOf (r : WeeklyScore) : Z * Z := (ws_userId r, ws_weekStart r).

(** At most one daily score per (user, date) and at most one weekly score
    per (user, week start). *)
Definition scoreKeysUnique (st : Store) : Prop :=
  NoDup (dailyKeyOf <$> rows (dailyScores st))
  /\ NoDup (weeklyKeyOf <$> rows (weeklyScores st)).

(** An action, run with no step of another request in between, keeps a
    property of the database, whether it returns or throws. *)
Definition preserves {A} (I : Store -> Prop) (m : M A) : Prop :=
  forall w, I (db w) -> I (db (snd (m w))).

Lemma dailyKeys_update (userId date : Z) (sc : Q) (insight : string)
    (l : list DailyScore) :
  dailyKeyOf <$> ((fun r => if decide (dailyKey userId date r)
                            then setDaily sc insight r else r) <$> l)
  = dailyKeyOf <$> l.
Proof.
  rewrite <- list_fmap_compose. apply list_fmap_ext. intros i r _. cbn.
  destruct (decide (dailyKey userId date r)); reflexivity.
Qed.

Lemma weeklyKeys_update (userId wkStart : Z) (avg : Q) (total : Z)
    (l : list WeeklyScore) :
  weeklyKeyOf <$> ((fun r => if decide (weeklyKey userId wkStart r)
                             then setWeekly avg total r else r) <$> l)
  = weeklyKeyOf <$> l.
Proof.
  rewrite <- list_fmap_compose. apply list_fmap_ext. intros i r _. cbn.
  destruct (decide (weeklyKey userId wkStart r)); reflexivity.
Qed.

Lemma NoDup_snoc_fresh {A} (l : list A) (x : A) :
  NoDup l -> x ∉ l -> NoDup (l ++ [x]).
Proof.
  intros Hl Hx. apply NoDup_app. split; [exact Hl|]. split.
  - intros y Hy Hin. apply list_elem_of_singleton in Hin. subst. contradiction.
  - apply NoDup_singleton.
Qed.

Lemma saveDailyScore_unique (userId date : Z) (sc : Q) (insight : string) :
  preserves scoreKeysUnique (saveDailyScore userId date sc insight).
Proof.
  intros w [Hd Hw].
  destruct (decide (filter (dailyKey userId date) (rows (dailyScores (db w))) = []))
    as [E|E].
  - rewrite saveDailyScore_fresh by exact E. unfold scoreKeysUnique.
    cbn [snd db with_dailyScores with_weeklyScores dailyScores weeklyScores rows]. split; [|exact Hw].
    rewrite fmap_app. apply NoDup_snoc_fresh; [exact Hd|]. cbn.
    intros Hin. apply list_elem_of_fmap in Hin as (r & Hk & Hr).
    assert (Hf : r ∈ filter (dailyKey userId date) (rows (dailyScores (db w)))).
    { apply list_elem_of_filter. split; [|exact Hr].
      unfold dailyKeyOf in Hk. cbn in Hk. injection Hk as -> ->. split; reflexivity. }
    rewrite E in Hf. inversion Hf.
  - rewrite saveDailyScore_existing by exact E. unfold scoreKeysUnique.
    cbn [snd db with_dailyScores with_weeklyScores dailyScores weeklyScores rows]. split; [|exact Hw].
    rewrite dailyKeys_update. exact Hd.
Qed.

Lemma saveWeeklyScore_unique (userId wkStart wkEnd : Z) (avg : Q) (total : Z) :
  preserves scoreKeysUnique (saveWeeklyScore userId wkStart wkEnd avg total).
Proof.
  intros w [Hd Hw].
  destruct (decide (filter (weeklyKey userId wkStart) (rows (weeklyScores (db w))) = []))
    as [E|E].
  - rewrite saveWeeklyScore_fresh by exact E. unfold scoreKeysUnique.
    cbn [snd db with_dailyScores with_weeklyScores dailyScores weeklyScores rows]. split; [exact Hd|].
    rewrite fmap_app. apply NoDup_snoc_fresh; [exact Hw|]. cbn.
    intros Hin. apply list_elem_of_fmap in Hin as (r & Hk & Hr).
    assert (Hf : r ∈ filter (weeklyKey userId wkStart) (rows (weeklyScores (db w)))).
    { apply list_elem_of_filter. split; [|exact Hr].
      unfold weeklyKeyOf in Hk. cbn in Hk. injection Hk as -> ->. split; reflexivity. }
    rewrite E in Hf. inversion Hf.
  - rewrite saveWeeklyScore_existing by exact E. unfold scoreKeysUnique.
    cbn [snd db with_dailyScores with_weeklyScores dailyScores weeklyScores rows]. split; [exact Hd|].
    rewrite weeklyKeys_update. exact Hw.
Qed.

(** ** What the upserts leave behind *)

Lemma saveDailyScore_post (userId date : Z) (sc : Q) (insight : string) (w : World) :
  let w' := snd (saveDailyScore userId date sc insight w) in
  (exists r, fst (saveDailyScore userId date sc insight w) = inr r)
  /\ clock w' = clock w /\ aiLog w' = aiLog w
  /\ weeklyScores (db w') = weeklyScores (db w)
  /\ (exists r, r ∈ rows (dailyScores (db w')) /\ dailyKey userId date r)
  /\ (forall r, r ∈ rows (dailyScores (db w')) -> dailyKey userId date r ->
                score r = sc /\ aiInsight r = Some insight).
Proof.
  destruct (decide (filter (dailyKey userId date) (rows (dailyScores (db w))) = []))
    as [E|E]; cbv zeta.
  - rewrite saveDailyScore_fresh by exact E.
    cbn [fst snd db clock aiLog with_dailyScores dailyScores weeklyScores rows].
    split; [eauto|]. do 3 (split; [reflexivity|]). split.
    + eexists. split; [apply elem_of_app; right; left|]. split; reflexivity.
    + intros r Hr Hk. apply elem_of_app in Hr as [Hr|Hr].
      * exfalso. assert (Hf : r ∈ filter (dailyKey userId date)
                                     (rows (dailyScores (db w))))
          by (apply list_elem_of_filter; tauto_props).
        rewrite E in Hf. inversion Hf.
      * apply list_elem_of_singleton in Hr as ->. split; reflexivity.
  - rewrite saveDailyScore_existing by exact E.
    cbn [fst snd db clock aiLog with_dailyScores dailyScores weeklyScores rows].
    split; [eauto|]. do 3 (split; [reflexivity|]). split.
    + apply filter_nonempty in E as (r & Hr & Hk).
      exists (setDaily sc insight r). split; [|exact Hk].
      apply list_elem_of_fmap. exists r. rewrite decide_True by exact Hk. auto.
    + intros r Hr Hk. apply list_elem_of_fmap in Hr as (r0 & -> & _).
      destruct (decide (dailyKey userId date r0)); [split; reflexivity|contradiction].
Qed.

Lemma saveWeeklyScore_post (userId wkStart wkEnd : Z) (avg : Q) (total : Z)
    (w : World) :
  let w' := snd (saveWeeklyScore userId wkStart wkEnd avg total w) in
  (exists r, fst (saveWeeklyScore userId wkStart wkEnd avg total w) = inr r)
  /\ dailyScores (db w') = dailyScores (db w)
  /\ (exists r, r ∈ rows (weeklyScores (db w')) /\ weeklyKey userId wkStart r)
  /\ (forall r, r ∈ rows (weeklyScores (db w')) -> weeklyKey userId wkStart r ->
                avgScore r = avg /\ totalEntries r = total).
Proof.
  destruct (decide (filter (weeklyKey userId wkStart) (rows (weeklyScores (db w))) = []))
    as [E|E]; cbv zeta.
  - rewrite saveWeeklyScore_fresh by exact E.
    cbn [fst snd db with_weeklyScores dailyScores weeklyScores rows].
    split; [eauto|]. split; [reflexivity|]. split.
    + eexists. split; [apply elem_of_app; right; left|]. split; reflexivity.
    + intros r Hr Hk. apply elem_of_app in Hr as [Hr|Hr].
      * exfalso. assert (Hf : r ∈ filter (weeklyKey userId wkStart)
                                     (rows (weeklyScores (db w))))
          by (apply list_elem_of_filter; tauto_props).
        rewrite E in Hf. inversion Hf.
      * apply list_elem_of_singleton in Hr as ->. split; reflexivity.
  - rewrite saveWeeklyScore_existing by exact E.
    cbn [fst snd db with_weeklyScores dailyScores weeklyScores rows].
    split; [eauto|]. split; [reflexivity|]. split.
    + apply filter_nonempty in E as (r & Hr & Hk).
      exists (setWeekly avg total r). split; [|exact Hk].
      apply list_elem_of_fmap. exists r. rewrite decide_True by exact Hk. auto.
    + intros r Hr Hk. apply list_elem_of_fmap in Hr as (r0 & -> & _).
      destruct (decide (weeklyKey userId wkStart r0)); [split; reflexivity|contradiction].
Qed.

(** ** Deleting an entry *)

(** C7 (as amended). Deleting an entry succeeds exactly when an entry with
    the given identifier exists and is owned by the requesting user: the
    route then answers "Deleted" and removes precisely the matching row.
    Otherwise the world (all tables included) is left as it was, and the
    route answers 404 "Entry not found" when the identifier is a whole
    number in the range of the identifier column, and 500 "Failed to delete
    entry" when it is not: the query then fails. *)
Theorem deleteEntry_owner_only (userId : Z) (id : JSNum) (w w' : World)
    (res : Exn + Response) :
  userId <> 0 ->
  deleteEntryRoute (Some userId) id w = (res, w') ->
  let owned := fun e => int4 id = Some (entry_id e) /\ entry_userId e = userId in
  let entries := rows (productivityEntries (db w)) in
  (res = inr (Json 200 (message "Deleted")) <-> exists e, e ∈ entries /\ owned e)
  /\ ((exists e, e ∈ entries /\ owned e) ->
      fst (deleteEntry id userId w) = inr true
      /\ db w' = with_productivityEntries
                   {| rows := filter (fun e => ~ owned e) entries;
                      nextId := nextId (productivityEntries (db w)) |} (db w))
  /\ (~ (exists e, e ∈ entries /\ owned e) ->
      w' = w
      /\ match int4 id with
         | Some _ =>
             fst (deleteEntry id userId w) = inr false
             /\ res = inr (Json 404 (message "Entry not found"))
         | None =>
             fst (deleteEntry id userId w) = inl QueryError
             /\ res = inr (Json 500 (message "Failed to delete entry"))
         end).
Proof.
  intros Hauth Hrun owned entries.
  unfold deleteEntryRoute, requireAuth in Hrun.
  destruct (Z.eqb_spec userId 0) as [|_]; [contradiction|].
  unfold tryCatch, bind in Hrun.
  destruct (int4 id) as [key|] eqn:Hid.
  2:{ rewrite deleteEntry_refused in Hrun |- * by exact Hid. cbn in Hrun.
      injection Hrun as <- <-.
      assert (Hnone : ~ exists e, e ∈ entries /\ owned e)
        by (intros (e & _ & [=] & _)).
      split; [split; [discriminate | contradiction]|].
      split; [contradiction|]. intros _. auto. }
  set (P := fun e => entry_id e = key /\ entry_userId e = userId).
  assert (HP : forall e, owned e <-> P e).
  { intros e. unfold owned, P. split; intros [H1 H2]; split; congruence. }
  assert (Hkeep : filter (fun e => ~ owned e) entries = filter (fun e => ~ P e) entries).
  { apply list_filter_iff. intros e. rewrite HP. reflexivity. }
  assert (Hex_iff : (exists e, e ∈ entries /\ owned e) <-> exists e, e ∈ entries /\ P e).
  { split; intros (e & He & Ho); exists e; (split; [exact He|]); apply HP; exact Ho. }
  rewrite (deleteEntry_run id key) in Hrun |- * by exact Hid.
  cbv zeta in Hrun |- *. fold P entries in Hrun |- *.
  destruct (decide (filter P entries = [])) as [E|E].
  - assert (Hnone : ~ exists e, e ∈ entries /\ P e).
    { intros Hex. apply (filter_nonempty P) in Hex. contradiction. }
    assert (Hall : forall e, e ∈ entries -> ~ P e) by (intros e He Ho; eauto).
    rewrite E in Hrun |- *. cbn in Hrun |- *.
    rewrite (filter_all (fun e => ~ P e)) in Hrun by exact Hall.
    subst entries. rewrite Table_eta in Hrun.
    unfold with_productivityEntries in Hrun. rewrite Store_eta, World_eta in Hrun.
    injection Hrun as <- <-.
    split; [split; [discriminate | rewrite Hex_iff; contradiction]|].
    split; [rewrite Hex_iff; contradiction|]. intros _. auto.
  - assert (Hex : exists e, e ∈ entries /\ P e) by (apply (filter_nonempty P); exact E).
    apply length_pos_iff in E as Hlen. rewrite Hlen in Hrun |- *. cbn in Hrun |- *.
    injection Hrun as <- <-.
    split; [split; [intros _; apply Hex_iff; exact Hex | reflexivity]|].
    split; [|rewrite Hex_iff; contradiction]. intros _.
    rewrite Hkeep. split; reflexivity.
Qed.

(** ** Upserts *)

Lemma update_rows_lookup {R} (P : R -> Prop) `{!forall r, Decision (P r)}
    (f : R -> R) (l : list R) (i : nat) (r : R) :
  l !! i = Some r ->
  ((fun x => if decide (P x) then f x else x) <$> l) !! i
  = Some (if decide (P r) then f r else r).
Proof. intros Hi. rewrite list_lookup_fmap, Hi. reflexivity. Qed.

(** C9. When a weekly score is saved for a (user, week start) that already
    has a row, the table keeps its length and every row keeps its
    identifier, owner, week start, week end and creation time: the week end
    passed to the call is not written.  The rows of that key get the new
    average and count, and all other rows are untouched. *)
Theorem saveWeeklyScore_keeps_weekEnd (userId wkStart wkEnd : Z) (avg : Q)
    (total : Z) (w : World) :
  (exists r, r ∈ rows (weeklyScores (db w))
             /\ ws_userId r = userId /\ ws_weekStart r = wkStart) ->
  let before := rows (weeklyScores (db w)) in
  let after :=
    rows (weeklyScores (db (snd (saveWeeklyScore userId wkStart wkEnd avg total w)))) in
  length after = length before
  /\ forall (i : nat) (r : WeeklyScore), before !! i = Some r ->
       exists r', after !! i = Some r'
         /\ ws_id r' = ws_id r /\ ws_userId r' = ws_userId r
         /\ ws_weekStart r' = ws_weekStart r /\ ws_weekEnd r' = ws_weekEnd r
         /\ ws_createdAt r' = ws_createdAt r
         /\ (ws_userId r = userId /\ ws_weekStart r = wkStart ->
             avgScore r' = avg /\ totalEntries r' = total)
         /\ (~ (ws_userId r = userId /\ ws_weekStart r = wkStart) -> r' = r).
Proof.
  intros Hex before after.
  assert (E : filter (weeklyKey userId wkStart) before <> [])
    by (apply filter_nonempty; exact Hex).
  subst after. rewrite saveWeeklyScore_existing by exact E.
  cbn [snd db with_weeklyScores weeklyScores rows]. fold before.
  split; [apply length_fmap|].
  intros i r Hi. eexists. split; [apply update_rows_lookup; exact Hi|].
  destruct (decide (weeklyKey userId wkStart r)) as [Hk|Hk]; cbn.
  - repeat split; tauto_props.
  - repeat split; try reflexivity; intros; contradiction.
Qed.

(** When the key already has a row, a save rewrites the rows of that key
    in place and inserts nothing: the table keeps its length and every
    other row. *)
Lemma upsert_in_place :
  (forall userId date sc insight w,
     let before := rows (dailyScores (db w)) in
     let after := rows (dailyScores (db (snd (saveDailyScore userId date sc insight w)))) in
     (exists r, r ∈ before /\ ds_userId r = userId /\ ds_date r = date) ->
     length after = length before
     /\ forall i r, before !! i = Some r ->
          after !! i = Some (if decide (ds_userId r = userId /\ ds_date r = date)
                             then {| ds_id := ds_id r; ds_userId := userId;
                                     ds_date := date; score := sc;
                                     aiInsight := Some insight;
                                     ds_createdAt := ds_createdAt r |}
                             else r))
  /\ (forall userId wkStart wkEnd avg total w,
        let before := rows (weeklyScores (db w)) in
        let after :=
          rows (weeklyScores
                  (db (snd (saveWeeklyScore userId wkStart wkEnd avg total w)))) in
        (exists r, r ∈ before /\ ws_userId r = userId /\ ws_weekStart r = wkStart) ->
        length after = length before
        /\ forall i r, before !! i = Some r ->
             after !! i = Some (if decide (ws_userId r = userId /\ ws_weekStart r = wkStart)
                                then {| ws_id := ws_id r; ws_userId := userId;
                                        ws_weekStart := wkStart;
                                        ws_weekEnd := ws_weekEnd r; avgScore := avg;
                                        totalEntries := total;
                                        ws_createdAt := ws_createdAt r |}
                                else r)).
Proof.
  split.
  - intros userId date sc insight w before after Hex.
    assert (E : filter (dailyKey userId date) before <> [])
      by (apply filter_nonempty; exact Hex).
    subst after. rewrite saveDailyScore_existing by exact E.
    cbn [snd db with_dailyScores dailyScores rows]. fold before.
    split; [apply length_fmap|].
    intros i r Hi. rewrite (update_rows_lookup _ _ _ _ _ Hi).
    destruct (decide (dailyKey userId date r)) as [[<- <-]|Hk].
    + rewrite decide_True by tauto_props. reflexivity.
    + rewrite decide_False by exact Hk. reflexivity.
  - intros userId wkStart wkEnd avg total w before after Hex.
    assert (E : filter (weeklyKey userId wkStart) before <> [])
      by (apply filter_nonempty; exact Hex).
    subst after. rewrite saveWeeklyScore_existing by exact E.
    cbn [snd db with_weeklyScores weeklyScores rows]. fold before.
    split; [apply length_fmap|].
    intros i r Hi. rewrite (update_rows_lookup _ _ _ _ _ Hi).
    destruct (decide (weeklyKey userId wkStart r)) as [[<- <-]|Hk].
    + rewrite decide_True by tauto_props. reflexivity.
    + rewrite decide_False by exact Hk. reflexivity.
Qed.

(** *** Two calls at once *)

(** Two calls of [saveDailyScore] for one key, in flight together: the
    select of the second is answered before the write of the first is
    made, as happens when two scoring requests of a user for one date
    arrive together.  Each call goes on from what its own select saw. *)
Definition saveDailyScoreTwice (userId date : Z) (sc1 : Q) (insight1 : string)
    (sc2 : Q) (insight2 : string) : M unit :=
  seenByFirst <- selectDailyScore userId date ;;
  seenBySecond <- selectDailyScore userId date ;;
  writeDailyScore seenByFirst userId date sc1 insight1 ;;;
  writeDailyScore seenBySecond userId date sc2 insight2 ;;;
  ret tt.

Definition saveWeeklyScoreTwice (userId wkStart wkEnd : Z) (avg1 : Q) (total1 : Z)
    (avg2 : Q) (total2 : Z) : M unit :=
  seenByFirst <- selectWeeklyScore userId wkStart ;;
  seenBySecond <- selectWeeklyScore userId wkStart ;;
  writeWeeklyScore seenByFirst userId wkStart wkEnd avg1 total1 ;;;
  writeWeeklyScore seenBySecond userId wkStart wkEnd avg2 total2 ;;;
  ret tt.

Lemma NoDup_snoc_twice {A} (l : list A) (x : A) : ~ NoDup (l ++ [x; x]).
Proof.
  intros Hnd. apply NoDup_app in Hnd as (_ & _ & Hxx).
  apply NoDup_cons in Hxx as [Hx _]. apply Hx. left.
Qed.

(** C3. The store does not maintain one row per key.  When a (user, date)
    has no daily score yet and two saves for it are in flight together,
    each finds no row and each inserts one: the table ends with two rows of
    that key, with different identifiers, the first save's score in one and
    the second's in the other.  The same holds of two saves of a weekly
    score for a (user, week start) without a row.  Neither table has a
    unique index that would refuse the second insert. *)
Theorem concurrent_saves_insert_twice (userId date wkStart wkEnd : Z)
    (sc1 sc2 avg1 avg2 : Q) (insight1 insight2 : string) (total1 total2 : Z)
    (w : World) :
  (forall r, r ∈ rows (dailyScores (db w)) -> ~ dailyKey userId date r) ->
  (forall r, r ∈ rows (weeklyScores (db w)) -> ~ weeklyKey userId wkStart r) ->
  let wd := snd (saveDailyScoreTwice userId date sc1 insight1 sc2 insight2 w) in
  let ww := snd (saveWeeklyScoreTwice userId wkStart wkEnd avg1 total1 avg2 total2 w) in
  (exists r1 r2,
     rows (dailyScores (db wd)) = rows (dailyScores (db w)) ++ [r1; r2]
     /\ dailyKey userId date r1 /\ dailyKey userId date r2
     /\ ds_id r1 <> ds_id r2 /\ score r1 = sc1 /\ score r2 = sc2)
  /\ ~ NoDup (dailyKeyOf <$> rows (dailyScores (db wd)))
  /\ (exists r1 r2,
        rows (weeklyScores (db ww)) = rows (weeklyScores (db w)) ++ [r1; r2]
        /\ weeklyKey userId wkStart r1 /\ weeklyKey userId wkStart r2
        /\ ws_id r1 <> ws_id r2 /\ avgScore r1 = avg1 /\ avgScore r2 = avg2)
  /\ ~ NoDup (weeklyKeyOf <$> rows (weeklyScores (db ww))).
Proof.
  intros Hd Hw wd ww.
  assert (Ed : selectDailyScore userId date w = (inr [], w)).
  { change (selectDailyScore userId date w)
      with (@inr Exn _ (filter (dailyKey userId date) (rows (dailyScores (db w)))), w).
    rewrite filter_none by exact Hd. reflexivity. }
  assert (Ew : selectWeeklyScore userId wkStart w = (inr [], w)).
  { change (selectWeeklyScore userId wkStart w)
      with (@inr Exn _ (filter (weeklyKey userId wkStart) (rows (weeklyScores (db w)))), w).
    rewrite filter_none by exact Hw. reflexivity. }
  assert (Hrd : rows (dailyScores (db wd))
                = rows (dailyScores (db w))
                  ++ [ {| ds_id := nextId (dailyScores (db w)); ds_userId := userId;
                          ds_date := date; score := sc1; aiInsight := Some insight1;
                          ds_createdAt := clock w |};
                       {| ds_id := nextId (dailyScores (db w)) + 1; ds_userId := userId;
                          ds_date := date; score := sc2; aiInsight := Some insight2;
                          ds_createdAt := clock w |} ]).
  { subst wd. unfold saveDailyScoreTwice, bind. rewrite Ed. cbv beta iota. rewrite Ed.
    cbv [writeDailyScore length Nat.ltb Nat.leb insertDailyScore bind getDb getClock
         putDb ret db_insert].
    cbn [snd db clock with_dailyScores dailyScores rows nextId].
    rewrite <- app_assoc. reflexivity. }
  assert (Hrw : rows (weeklyScores (db ww))
                = rows (weeklyScores (db w))
                  ++ [ {| ws_id := nextId (weeklyScores (db w)); ws_userId := userId;
                          ws_weekStart := wkStart; ws_weekEnd := wkEnd;
                          avgScore := avg1; totalEntries := total1;
                          ws_createdAt := clock w |};
                       {| ws_id := nextId (weeklyScores (db w)) + 1; ws_userId := userId;
                          ws_weekStart := wkStart; ws_weekEnd := wkEnd;
                          avgScore := avg2; totalEntries := total2;
                          ws_createdAt := clock w |} ]).
  { subst ww. unfold saveWeeklyScoreTwice, bind. rewrite Ew. cbv beta iota. rewrite Ew.
    cbv [writeWeeklyScore length Nat.ltb Nat.leb insertWeeklyScore bind getDb getClock
         putDb ret db_insert].
    cbn [snd db clock with_weeklyScores weeklyScores rows nextId].
    rewrite <- app_assoc. reflexivity. }
  split; [|split; [|split]].
  - eexists _, _. split; [exact Hrd|]. cbn.
    repeat split; try reflexivity. lia.
  - rewrite Hrd, fmap_app. apply NoDup_snoc_twice.
  - eexists _, _. split; [exact Hrw|]. cbn.
    repeat split; try reflexivity. lia.
  - rewrite Hrw, fmap_app. apply NoDup_snoc_twice.
Qed.

(** ** Scoring a day without entries *)

Lemma merge_sort_nil_iff {A} (R : relation A) `{!forall x y, Decision (R x y)}
    (l : list A) : merge_sort R l = [] <-> l = [].
Proof.
  split.
  - intros E. apply Permutation_nil_r. rewrite <- E.
    symmetry. apply merge_sort_Permutation.
  - intros ->. reflexivity.
Qed.

(** C6. For an authenticated user and a date with no logged entry of that
    user, the daily-scoring request answers score 0 with the fixed
    prompt-to-log message and leaves the world exactly as it was: no call
    to the generation service is logged and no table changes. *)
Theorem score_without_entries (userId : Z) (bodyDate : option Z) (w : World) :
  userId <> 0 ->
  let date := match bodyDate with
              | Some d => d
              | None => JSDate.toISODate (clock w)
              end in
  (forall e, e ∈ rows (productivityEntries (db w)) ->
             ~ (entry_userId e = userId /\ entry_date e = date)) ->
  postScoreDaily (Some userId) bodyDate w
  = (inr (Json 200
            (JSObject
               [("score"%string, JSNumber (Fin 0));
                ("insight"%string,
                 JSString "No activities logged today. Start tracking to get your productivity score!")])),
     w)
  /\ aiLog (snd (postScoreDaily (Some userId) bodyDate w)) = aiLog w
  /\ db (snd (postScoreDaily (Some userId) bodyDate w)) = db w.
Proof.
  intros Hauth date Hnone.
  assert (E : postScoreDaily (Some userId) bodyDate w
              = (inr (Json 200 (JSObject [("score"%string, JSInt 0);
                                          ("insight"%string, JSString noActivities)])), w)).
  { unfold postScoreDaily, requireAuth.
    destruct (Z.eqb_spec userId 0) as [|_]; [contradiction|].
    subst date.
    cbv [tryCatch bind getClock getEntriesByDate getDb ret db_select].
    rewrite (filter_none _ _ Hnone). reflexivity. }
  rewrite E. repeat split.
Qed.

(** ** Authentication responses *)

(** A user record without its password hash. *)
Definition publicUser (u : User) : JSValue :=
  JSObject
    [("id", JSInt (user_id u)); ("username", JSString (username u));
     ("email", JSString (email u)); ("fullName", JSString (fullName u));
     ("occupation", JSString (occupation u)); ("goals", JSString (goals u));
     ("createdAt", JSString (toISOString (user_createdAt u)))]%string.

Lemma safeUser_public (u : User) : safeUser u = publicUser u.
Proof. reflexivity. Qed.

Lemma head_filter_elem {A} (P : A -> Prop) `{!forall x, Decision (P x)}
    (l : list A) (x : A) :
  head (filter P l) = Some x -> x ∈ l /\ P x.
Proof.
  intros Hh. assert (Hin : x ∈ filter P l).
  { destruct (filter P l); [discriminate|]. injection Hh as ->. left. }
  apply list_elem_of_filter in Hin. tauto_props.
Qed.

(** What login answers, in full. *)
Lemma postLogin_eq (sess : option Z) (body : JSValue) (w : World) :
  postLogin sess body w
  = (inr match loginSchema_safeParse body with
         | None => (Json 400 (message "Invalid input"), sess)
         | Some (name, pw) =>
             match head (filter (fun u => username u = name) (rows (users (db w)))) with
             | None => (Json 401 (message "Invalid credentials"), sess)
             | Some user =>
                 if bcrypt_compare pw (password user)
                 then (Json 200 (publicUser user), Some (user_id user))
                 else (Json 401 (message "Invalid credentials"), sess)
             end
         end, w).
Proof.
  unfold postLogin, tryCatch.
  destruct (loginSchema_safeParse body) as [[name pw]|]; [|reflexivity].
  cbv [bind getUserByUsername getDb ret db_select verifyPassword].
  destruct (head _) as [user|]; [|reflexivity].
  destruct (bcrypt_compare pw (password user)); reflexivity.
Qed.

(** What the session check answers, in full. *)
Lemma getMe_eq (sess : option Z) (w : World) :
  getMe sess w
  = (inr match sess with
         | None => Json 401 (message "Not authenticated")
         | Some userId =>
             if (userId =? 0)%Z then Json 401 (message "Not authenticated")
             else match head (filter (fun u => user_id u = userId)
                                     (rows (users (db w)))) with
                  | None => Json 401 (message "User not found")
                  | Some user => Json 200 (publicUser user)
                  end
         end, w).
Proof.
  unfold getMe. destruct sess as [userId|]; [|reflexivity].
  destruct (userId =? 0); [reflexivity|].
  cbv [bind getUserById getDb ret db_select].
  destruct (head _) as [user|]; reflexivity.
Qed.

Lemma postLogin_spec (sess : option Z) (body : JSValue) (w : World) :
  exists resp sess',
    postLogin sess body w = (inr (resp, sess'), w)
    /\ forall b, resp = Json 200 b ->
         exists u, u ∈ rows (users (db w))
                   /\ sess' = Some (user_id u) /\ b = publicUser u.
Proof.
  rewrite postLogin_eq.
  destruct (loginSchema_safeParse body) as [[name pw]|].
  2:{ eexists _, _. split; [reflexivity|]. intros b [=]. }
  destruct (head _) as [user|] eqn:Hu.
  2:{ eexists _, _. split; [reflexivity|]. intros b [=]. }
  apply head_filter_elem in Hu as [Hin _].
  destruct (bcrypt_compare pw (password user)).
  - eexists _, _. split; [reflexivity|]. intros b [= <-]. exists user. auto.
  - eexists _, _. split; [reflexivity|]. intros b [=].
Qed.

Lemma getMe_spec (sess : option Z) (w : World) :
  exists resp,
    getMe sess w = (inr resp, w)
    /\ forall b, resp = Json 200 b ->
         exists u, u ∈ rows (users (db w))
                   /\ sess = Some (user_id u) /\ b = publicUser u.
Proof.
  rewrite getMe_eq. destruct sess as [userId|].
  2:{ eexists. split; [reflexivity|]. intros b [=]. }
  destruct (Z.eqb_spec userId 0).
  { eexists. split; [reflexivity|]. intros b [=]. }
  destruct (head _) as [user|] eqn:Hu.
  2:{ eexists. split; [reflexivity|]. intros b [=]. }
  apply head_filter_elem in Hu as [Hin <-].
  eexists. split; [reflexivity|]. intros b [= <-]. exists user. auto.
Qed.

(** ** The chat context *)

#[global] Instance col_le_total {R} (col : R -> Z) : Total (col_le col).
Proof. intros x y. unfold col_le. lia. Qed.

#[global] Instance col_le_trans {R} (col : R -> Z) : Transitive (col_le col).
Proof. intros x y z. unfold col_le. lia. Qed.

#[global] Instance col_ge_total {R} (col : R -> Z) : Total (col_ge col).
Proof. intros x y. unfold col_ge. lia. Qed.

#[global] Instance col_ge_trans {R} (col : R -> Z) : Transitive (col_ge col).
Proof. intros x y z. unfold col_ge. lia. Qed.






(** ** The weekly aggregate *)

Definition inWeek (userId : Z) (wb : WeekBounds) (r : DailyScore) : Prop :=
  ds_userId r = userId /\ weekStart wb <= ds_date r /\ ds_date r <= weekEnd wb.

#[global] Instance inWeek_dec userId wb r : Decision (inWeek userId wb r).
Proof. unfold inWeek. apply _. Defined.

Lemma refreshWeeklyScore_post (userId date : Z) (w : World) :
  let wb := getWeekBounds tz (clock w) (Some date) in
  let inWindow := filter (inWeek userId wb) (rows (dailyScores (db w))) in
  let w' := snd (refreshWeeklyScore userId date w) in
  fst (refreshWeeklyScore userId date w) = inr tt
  /\ dailyScores (db w') = dailyScores (db w)
  /\ (inWindow <> [] ->
      (exists r, r ∈ rows (weeklyScores (db w')) /\ weeklyKey userId (weekStart wb) r)
      /\ forall r, r ∈ rows (weeklyScores (db w')) ->
                   weeklyKey userId (weekStart wb) r ->
                   avgScore r = roundOneDecimal (average (orderByDesc ds_date inWindow))
                   /\ totalEntries r = Z.of_nat (length inWindow)).
Proof.
  intros wb inWindow.
  unfold refreshWeeklyScore.
  cbv [bind getClock getDailyScores getDb ret db_select].
  fold wb.
  change (filter _ (rows (dailyScores (db w)))) with inWindow.
  set (weekScores := orderByDesc ds_date inWindow).
  assert (Hlen : length weekScores = length inWindow)
    by (apply Permutation_length, merge_sort_Permutation).
  destruct (0 <? length weekScores)%nat eqn:Hpos.
  - pose proof (saveWeeklyScore_post userId (weekStart wb) (weekEnd wb)
                  (roundOneDecimal (average weekScores))
                  (Z.of_nat (length weekScores)) w) as Hpost.
    cbv zeta in Hpost.
    destruct (saveWeeklyScore _ _ _ _ _ w) as [[e|r] w2].
    + destruct Hpost as [[? [=]] _].
    + cbn [fst snd] in *. destruct Hpost as (_ & Hd & Hex & Hall).
      split; [reflexivity|]. split; [exact Hd|]. intros _.
      split; [exact Hex|]. rewrite <- Hlen. exact Hall.
  - cbn [fst snd]. split; [reflexivity|]. split; [reflexivity|].
    intros Hne. apply length_pos_false in Hpos.
    apply merge_sort_nil_iff in Hpos. contradiction.
Qed.

(** Closes a case in which the request was answered otherwise. *)
Ltac other_answer := let H := fresh in intros H; solve [inversion H].

(** The request answered with a score only after saving it and refreshing
    the week. *)
Lemma postScoreDaily_scored (userId : Z) (bodyDate : option Z) (w w' : World)
    (s i d : JSValue) :
  let date := match bodyDate with
              | Some x => x
              | None => JSDate.toISODate (clock w)
              end in
  postScoreDaily (Some userId) bodyDate w
  = (inr (Json 200 (JSObject [("score", s); ("insight", i); ("date", d)]%string)), w') ->
  exists (sc : Q) (text : string) (w1 : World),
    s = JSNumber (Fin sc) /\ db w1 = db w /\ clock w1 = clock w
    /\ w' = snd (refreshWeeklyScore userId date
                   (snd (saveDailyScore userId date sc text w1))).
Proof.
  intros date. unfold postScoreDaily, requireAuth.
  destruct (userId =? 0); [other_answer|].
  cbv [tryCatch bind getClock getEntriesByDate getDb ret db_select getUserById
       openai_create logCall getPropM finite throw].
  fold date.
  destruct (length _ =? 0)%nat; [other_answer|].
  destruct (generate _) as [response|]; [|other_answer].
  set (parsed := parseResponse _).
  destruct (getProp parsed "score") as [scoreV|]; [|other_answer].
  destruct (clampScore scoreV) as [sc| | |]; try other_answer.
  destruct (getProp parsed "insight") as [insightV|]; [|other_answer].
  match goal with
  | |- context [saveDailyScore userId date sc ?text ?w1] =>
      pose proof (saveDailyScore_post userId date sc text w1) as Hsave;
      cbv zeta in Hsave;
      destruct (saveDailyScore userId date sc text w1) as [[e|r] w2] eqn:Esave
  end.
  { destruct Hsave as [[? [=]] _]. }
  pose proof (refreshWeeklyScore_post userId date w2) as Hrefresh.
  cbv zeta in Hrefresh.
  destruct (refreshWeeklyScore userId date w2) as [[e|[]] w3] eqn:Erefresh.
  { destruct Hrefresh as [[=] _]. }
  intros [= <- <- <- <-].
  eexists sc, _, _. split; [reflexivity|].
  split; [|split]; [| |rewrite Esave; cbn [snd]; rewrite Erefresh; reflexivity];
    reflexivity.
Qed.

(** ** Clamping the score *)

Lemma Qle_bool_false (p q : Q) : Qle_bool p q = false <-> (q < p)%Q.
Proof.
  rewrite <- not_true_iff_false, Qle_bool_iff. split.
  - apply Qnot_le_lt.
  - apply Qlt_not_le.
Qed.

(** Whatever the response holds, the score computed from it is a finite
    number between 0 and 100. *)
Lemma clampScore_finite (v : JSValue) :
  exists q, clampScore v = Fin q /\ (0 <= q <= 100)%Q.
Proof.
  unfold clampScore, num_or.
  destruct (ToNumber v) as [q| | |]; cbn [numTruthy].
  - destruct (Qeq_bool q 0) eqn:E0; cbn [negb Math_max].
    + exists 50%Q. split; [reflexivity|]. split; discriminate.
    + destruct (Qle_bool 0 q) eqn:E1; cbn [Math_min].
      * apply Qle_bool_iff in E1.
        destruct (Qle_bool 100 q) eqn:E2.
        -- exists 100%Q. split; [reflexivity|]. split; discriminate.
        -- apply Qle_bool_false in E2. exists q. split; [reflexivity|].
           split; [exact E1 | apply Qlt_le_weak, E2].
      * exists 0%Q. split; [reflexivity|]. split; discriminate.
  - exists 50%Q. split; [reflexivity|]. split; discriminate.
  - exists 100%Q. split; [reflexivity|]. split; discriminate.
  - exists 0%Q. split; [reflexivity|]. split; discriminate.
Qed.

(** C4. A parsed numeric score below 0 is persisted as 0, one above 100 as
    100, and one above 0 and at most 100 with its own value; a missing
    score or one whose conversion to a number gives NaN becomes 50.  A parsed score of
    exactly 0, which lies in the range, is not kept: it is falsy, so the
    default replaces it and 50 is persisted. *)
Theorem clampScore_cases :
  clampScore (JSNumber (Fin 0)) = Fin 50
  /\ (forall q, q == 0 -> clampScore (JSNumber (Fin q)) = Fin 50)%Q
  /\ (forall q, q < 0 -> clampScore (JSNumber (Fin q)) = Fin 0)%Q
  /\ (forall q, 100 < q -> clampScore (JSNumber (Fin q)) = Fin 100)%Q
  /\ (forall q, 0 < q -> q < 100 -> clampScore (JSNumber (Fin q)) = Fin q)%Q
  /\ (forall q, q == 100 -> clampScore (JSNumber (Fin q)) = Fin 100)%Q
  /\ clampScore JSUndefined = Fin 50
  /\ (forall v, ToNumber v = NaN -> clampScore v = Fin 50).
Proof.
  assert (Hnz : forall q, ~ (q == 0)%Q -> Qeq_bool q 0 = false).
  { intros q Hq. apply not_true_iff_false. rewrite Qeq_bool_iff. exact Hq. }
  assert (Hnan : forall v, ToNumber v = NaN -> clampScore v = Fin 50).
  { intros v Hv. unfold clampScore, num_or. rewrite Hv. reflexivity. }
  unfold clampScore, num_or. cbn [ToNumber numTruthy].
  split; [reflexivity|]. split; [|split; [|split; [|split; [|split]]]].
  - intros q Hq. apply Qeq_bool_iff in Hq. rewrite Hq. reflexivity.
  - intros q Hq. rewrite Hnz by lra. cbn [negb Math_max].
    replace (Qle_bool 0 q) with false by (symmetry; apply Qle_bool_false, Hq).
    reflexivity.
  - intros q Hq. rewrite Hnz by lra. cbn [negb Math_max].
    replace (Qle_bool 0 q) with true by (symmetry; apply Qle_bool_iff; lra).
    cbn [Math_min].
    replace (Qle_bool 100 q) with true by (symmetry; apply Qle_bool_iff; lra).
    reflexivity.
  - intros q Hq Hq'. rewrite Hnz by lra. cbn [negb Math_max].
    replace (Qle_bool 0 q) with true by (symmetry; apply Qle_bool_iff; lra).
    cbn [Math_min].
    replace (Qle_bool 100 q) with false by (symmetry; apply Qle_bool_false, Hq').
    reflexivity.
  - intros q Hq. rewrite Hnz by lra. cbn [negb Math_max].
    replace (Qle_bool 0 q) with true by (symmetry; apply Qle_bool_iff; lra).
    cbn [Math_min].
    replace (Qle_bool 100 q) with true by (symmetry; apply Qle_bool_iff; lra).
    reflexivity.
  - split; [reflexivity | exact Hnan].
Qed.

(** ** Reading the generated response *)

Open Scope string_scope.

Fixpoint hasChar (c : ascii) (s : string) : bool :=
  match s with
  | EmptyString => false
  | String x r => Ascii.eqb x c || hasChar c r
  end.

#[local] Arguments String.append !_ _ / : simpl nomatch.

Ltac str_cbn := cbn [String.append fromFirstOpen throughLastClose hasChar].
Tactic Notation "str_cbn" "in" hyp(H) :=
  cbn [String.append fromFirstOpen throughLastClose hasChar] in H.

Lemma fromFirstOpen_app (pre rest : string) :
  hasChar "{" pre = false ->
  fromFirstOpen (pre ++ String "{" rest) = Some (String "{" rest).
Proof.
  induction pre as [|c pre IH]; str_cbn; [reflexivity|].
  intros H. apply orb_false_iff in H as [Hc Hpre].
  rewrite Hc. apply IH, Hpre.
Qed.



Lemma throughLastClose_none (post : string) :
  hasChar "}" post = false -> throughLastClose post = None.
Proof.
  induction post as [|c post IH]; str_cbn; [reflexivity|].
  intros H. apply orb_false_iff in H as [Hc Hpost].
  rewrite (IH Hpost), Hc. reflexivity.
Qed.

Lemma throughLastClose_app (body post : string) :
  hasChar "}" post = false ->
  throughLastClose (body ++ String "}" post) = Some (body ++ "}").
Proof.
  intros Hpost. induction body as [|c body IH]; str_cbn.
  - rewrite (throughLastClose_none post Hpost). reflexivity.
  - rewrite IH. reflexivity.
Qed.



(** The regular expression matches from the first opening brace of the
    text through its last closing brace. *)
Lemma jsonMatch_span (pre mid post : string) :
  hasChar "{" pre = false -> hasChar "}" post = false ->
  jsonMatch (pre ++ "{" ++ mid ++ "}" ++ post) = Some ("{" ++ mid ++ "}").
Proof.
  intros Hpre Hpost. unfold jsonMatch. str_cbn.
  rewrite fromFirstOpen_app by exact Hpre.
  exact (throughLastClose_app (String "{" mid) post Hpost).
Qed.








(** The content the flow works with is never empty. *)
Definition contentOf (response : option string) : string :=
  match response with
  | Some c => if strTruthy c then c else defaultContent
  | None => defaultContent
  end.





(** * The rest of the server

    The leaderboard query, the routes not met so far, and the server as a
    whole: one request after the other, each under a session. *)

(** ** storage: getWeeklyScoreboard *)

Record ScoreboardRow := {
  sb_userId : Z;
  sb_fullName : string;
  sb_occupation : string;
  sb_avgScore : Q;
  sb_totalEntries : Z
}.

(** [orderBy(desc(col))] on a [real] column. *)
Definition qcol_ge {R} (col : R -> Q) (a b : R) : Prop := (col b <= col a)%Q.

#[global] Instance qcol_ge_dec {R} (col : R -> Q) a b : Decision (qcol_ge col a b).
Proof. unfold qcol_ge, Qle. apply _. Defined.

Definition orderByDescQ {R} (col : R -> Q) (l : list R) : list R :=
  merge_sort (qcol_ge col) l.

(** [from(weeklyScores).innerJoin(users, eq(weeklyScores.userId, users.id))] *)
Definition innerJoin (ws : list WeeklyScore) (us : list User)
  : list (WeeklyScore * User) :=
  r ← ws; (fun u => (r, u)) <$> filter (fun u => ws_userId r = user_id u) us.

Definition scoreboardRow (p : WeeklyScore * User) : ScoreboardRow :=
  {| sb_userId := ws_userId (fst p); sb_fullName := fullName (snd p);
     sb_occupation := occupation (snd p); sb_avgScore := avgScore (fst p);
     sb_totalEntries := totalEntries (fst p) |}.

Definition getWeeklyScoreboard (wkStart : Z) : M (list ScoreboardRow) :=
  st <- getDb ;;
  let results :=
    orderByDescQ (fun p => avgScore (fst p))
      (filter (fun p => ws_weekStart (fst p) = wkStart)
              (innerJoin (rows (weeklyScores st)) (rows (users st)))) in
  ret (scoreboardRow <$> results).

(** ** routes: rows as the JSON the responses carry *)

Definition nullable (s : option string) : JSValue :=
  match s with
  | Some x => JSString x
  | None => JSNull
  end.

Definition entryObject (e : ProductivityEntry) : JSValue :=
  JSObject
    [("id", JSInt (entry_id e)); ("userId", JSInt (entry_userId e));
     ("title", JSString (title e)); ("category", JSString (category e));
     ("duration", JSInt (duration e)); ("completed", JSBool (completed e));
     ("notes", nullable (notes e)); ("date", JSString (formatISODate (entry_date e)));
     ("createdAt", JSString (toISOString (entry_createdAt e)))]%string.

Definition dailyScoreObject (s : DailyScore) : JSValue :=
  JSObject
    [("id", JSInt (ds_id s)); ("userId", JSInt (ds_userId s));
     ("date", JSString (formatISODate (ds_date s)));
     ("score", JSNumber (Fin (score s))); ("aiInsight", nullable (aiInsight s));
     ("createdAt", JSString (toISOString (ds_createdAt s)))]%string.

Definition chatMessageObject (m : ChatMessage) : JSValue :=
  JSObject
    [("id", JSInt (msg_id m)); ("userId", JSInt (msg_userId m));
     ("role", JSString (role m)); ("content", JSString (content m));
     ("createdAt", JSString (toISOString (msg_createdAt m)))]%string.

Definition scoreboardObject (r : ScoreboardRow) : JSValue :=
  JSObject
    [("userId", JSInt (sb_userId r)); ("fullName", JSString (sb_fullName r));
     ("occupation", JSString (sb_occupation r));
     ("avgScore", JSNumber (Fin (sb_avgScore r)));
     ("totalEntries", JSInt (sb_totalEntries r))]%string.

(** ** routes: entries, scores, leaderboard, chat history *)

(** [insertProductivityEntrySchema.safeParse(req.body)]: the validated
    values, their date read as a calendar day, or the flattened error. *)
Variable insertProductivityEntrySchema_safeParse
  : JSValue -> JSValue + InsertProductivityEntry.

(** POST /api/entries *)
Definition postEntries (sess : option Z) (body : JSValue) : M Response :=
  requireAuth sess (fun userId =>
    tryCatch
      (match insertProductivityEntrySchema_safeParse body with
       | inl errors =>
           ret (Json 400 (JSObject [("message", JSString "Invalid input");
                                    ("errors", errors)]%string))
       | inr data =>
           entry <- createProductivityEntry userId data ;;
           ret (Json 201 (entryObject entry))
       end)
      (fun _ => ret (Json 500 (message "Failed to create entry")))).

(** [req.query.date || new Date().toISOString().split("T")[0]] *)
Definition dateOrToday (given : option Z) : M Z :=
  now <- getClock ;;
  ret match given with
      | Some d => d
      | None => JSDate.toISODate now
      end.

(** GET /api/entries; [queryDate] is [req.query.date], absent or empty. *)
Definition getEntries (sess : option Z) (queryDate : option Z) : M Response :=
  requireAuth sess (fun userId =>
    tryCatch
      (date <- dateOrToday queryDate ;;
       entries <- getEntriesByDate userId date ;;
       ret (Json 200 (JSArray (entryObject <$> entries))))
      (fun _ => ret (Json 500 (message "Failed to fetch entries")))).

(** GET /api/entries/range *)
Definition getEntriesRange (sess : option Z) (start end_ : option Z) : M Response :=
  requireAuth sess (fun userId =>
    tryCatch
      (match start, end_ with
       | Some s, Some e =>
           entries <- getEntriesByDateRange userId s e ;;
           ret (Json 200 (JSArray (entryObject <$> entries)))
       | _, _ => ret (Json 400 (message "start and end dates required"))
       end)
      (fun _ => ret (Json 500 (message "Failed to fetch entries")))).

(** GET /api/scores/daily *)
Definition getScoresDaily (sess : option Z) : M Response :=
  requireAuth sess (fun userId =>
    tryCatch
      (now <- getClock ;;
       let wb := getWeekBounds tz now None in
       scores <- getDailyScores userId (weekStart wb) (weekEnd wb) ;;
       ret (Json 200 (JSArray (dailyScoreObject <$> scores))))
      (fun _ => ret (Json 500 (message "Failed to fetch scores")))).

(** GET /api/scoreboard *)
Definition getScoreboard (sess : option Z) : M Response :=
  requireAuth sess (fun userId =>
    tryCatch
      (now <- getClock ;;
       let wb := getWeekBounds tz now None in
       scoreboard <- getWeeklyScoreboard (weekStart wb) ;;
       ret (Json 200
              (JSObject [("weekStart", JSString (formatISODate (weekStart wb)));
                         ("scoreboard", JSArray (scoreboardObject <$> scoreboard))]%string)))
      (fun _ => ret (Json 500 (message "Failed to fetch scoreboard")))).

(** GET /api/chat/messages *)
Definition getChatHistory (sess : option Z) : M Response :=
  requireAuth sess (fun userId =>
    tryCatch
      (messages <- getChatMessages userId ;;
       ret (Json 200 (JSArray (chatMessageObject <$> messages))))
      (fun _ => ret (Json 500 (message "Failed to fetch messages")))).

(** DELETE /api/chat/messages *)
Definition deleteChatHistory (sess : option Z) : M Response :=
  requireAuth sess (fun userId =>
    tryCatch
      (clearChatMessages userId ;;;
       ret (Json 200 (message "Chat cleared")))
      (fun _ => ret (Json 500 (message "Failed to clear chat")))).

(** ** The server, request by request *)

Inductive Request :=
| PostRegister (body : JSValue)
| PostLogin (body : JSValue)
| PostLogout
| GetMe
| PostEntries (body : JSValue)
| GetEntries (queryDate : option Z)
| GetEntriesRange (start end_ : option Z)
| DeleteEntry (id : JSNum)
| PostScoreDaily (bodyDate : option Z)
| GetScoresDaily
| GetScoreboard
| GetChatHistory
| DeleteChatHistory
| PostChat (body : JSValue).

(** A route that leaves the session as it is. *)
Definition keepSession (sess : option Z) (m : M Response) : M (Response * option Z) :=
  r <- m ;; ret (r, sess).

(** One request under the session [sess]: the response and the session
    afterwards. *)
Definition handle (sess : option Z) (req : Request) : M (Response * option Z) :=
  match req with
  | PostRegister body => postRegister sess body
  | PostLogin body => postLogin sess body
  | PostLogout => postLogout sess
  | GetMe => keepSession sess (getMe sess)
  | PostEntries body => keepSession sess (postEntries sess body)
  | GetEntries queryDate => keepSession sess (getEntries sess queryDate)
  | GetEntriesRange start end_ => keepSession sess (getEntriesRange sess start end_)
  | DeleteEntry id => keepSession sess (deleteEntryRoute sess id)
  | PostScoreDaily bodyDate => keepSession sess (postScoreDaily sess bodyDate)
  | GetScoresDaily => keepSession sess (getScoresDaily sess)
  | GetScoreboard => keepSession sess (getScoreboard sess)
  | GetChatHistory => keepSession sess (getChatHistory sess)
  | DeleteChatHistory => keepSession sess (deleteChatHistory sess)
  | PostChat body => keepSession sess (postChat sess body)
  end.

(** The routes behind [requireAuth], and GET /api/auth/me with its own
    check. *)
Definition needsSession (req : Request) : bool :=
  match req with
  | PostRegister _ | PostLogin _ | PostLogout => false
  | _ => true
  end.

(** A session names a stored user: [req.session.userId] is only ever set
    to the key of a row that register created or login found, and no route
    deletes a user. *)
Definition knownSession (st : Store) (sess : option Z) : Prop :=
  match sess with
  | Some userId => exists u, u ∈ rows (users st) /\ user_id u = userId
  | None => True
  end.

(** The worlds the HTTP interface can bring about: the server starts on an
    empty database, time passes, and requests are served one after the
    other, each under no session or the session of a stored user. *)
Inductive served : World -> Prop :=
| served_start (t : Z) :
    served {| db := emptyStore; clock := t; aiLog := [] |}
| served_tick (w : World) (t : Z) :
    served w -> clock w <= t ->
    served {| db := db w; clock := t; aiLog := aiLog w |}
| served_request (w : World) (sess : option Z) (req : Request) :
    served w -> knownSession (db w) sess ->
    served (snd (handle sess req w)).

(** ** Sessions and credentials *)

(** X1. Without a session, or under the falsy user id 0, every route behind
    [requireAuth] and the session check answer 401 "Not authenticated" and
    leave the world and the session as they were. *)
Theorem routes_need_session (req : Request) (sess : option Z) (w : World) :
  needsSession req = true ->
  sess = None \/ sess = Some 0 ->
  handle sess req w = (inr (Json 401 (message "Not authenticated"), sess), w).
Proof.
  intros Hreq [-> | ->]; destruct req; try discriminate Hreq; reflexivity.
Qed.

(** X2. A login whose credentials match no stored user is answered 401
    "Invalid credentials", whether the name is unknown or the password is
    wrong; the session and the world stay as they were. *)
Theorem login_failure_is_uniform (sess : option Z) (body : JSValue) (w : World)
    (name pw : string) :
  loginSchema_safeParse body = Some (name, pw) ->
  (forall u, u ∈ rows (users (db w)) -> username u = name ->
             bcrypt_compare pw (password u) = false) ->
  postLogin sess body w
  = (inr (Json 401 (message "Invalid credentials"), sess), w).
Proof.
  intros Hparse Hnone. unfold postLogin, tryCatch. rewrite Hparse.
  cbv [bind getUserByUsername getDb ret db_select verifyPassword].
  destruct (head _) as [user|] eqn:Hu; [|reflexivity].
  apply head_filter_elem in Hu as [Hin Hname].
  rewrite (Hnone user Hin Hname). reflexivity.
Qed.

(** The row registration inserts. *)
Definition newUser (data : InsertUser) (w : World) : User :=
  {| user_id := nextId (users (db w)); username := iu_username data;
     email := iu_email data; password := bcrypt_hash (iu_password data);
     fullName := iu_fullName data; occupation := iu_occupation data;
     goals := iu_goals data; user_createdAt := clock w |}.

Definition withNewUser (data : InsertUser) (w : World) : World :=
  {| db := with_users {| rows := rows (users (db w)) ++ [newUser data w];
                         nextId := nextId (users (db w)) + 1 |} (db w);
     clock := clock w; aiLog := aiLog w |}.

(** The world after an insert into [users] that a unique index refused:
    the rows are as they were, one identifier of the sequence is used up. *)
Definition withRefusedUser (w : World) : World :=
  {| db := with_users {| rows := rows (users (db w));
                         nextId := nextId (users (db w)) + 1 |} (db w);
     clock := clock w; aiLog := aiLog w |}.

Lemma head_None_nil {A} (l : list A) : head l = None -> l = [].
Proof. destruct l; [reflexivity | discriminate]. Qed.

(** The four ways a registration ends. *)
Lemma postRegister_cases (sess : option Z) (body : JSValue) (w : World) :
  match insertUserSchema_safeParse body with
  | None =>
      postRegister sess body w
      = (inr (Json 400 (JSObject [("message", JSString "Invalid input");
                                  ("errors", zodFlatten body)]), sess), w)
  | Some data =>
      if decide (filter (fun u => username u = iu_username data)
                        (rows (users (db w))) <> [])
      then postRegister sess body w
           = (inr (Json 409 (message "Username already taken"), sess), w)
      else if decide (filter (fun u => email u = iu_email data)
                             (rows (users (db w))) <> [])
      then postRegister sess body w
           = (inr (Json 409 (message "Email already in use"), sess),
              withRefusedUser w)
      else postRegister sess body w
           = (inr (Json 201 (safeUser (newUser data w)),
                   Some (user_id (newUser data w))),
              withNewUser data w)
  end.
Proof.
  unfold postRegister, tryCatch.
  destruct (insertUserSchema_safeParse body) as [data|]; [|reflexivity].
  cbv [bind getUserByUsername getDb ret db_select].
  destruct (decide (filter _ _ <> [])) as [Hname|Hname].
  - destruct (filter (fun u => username u = iu_username data) _); [congruence|].
    reflexivity.
  - apply dec_stable in Hname. rewrite Hname. cbn [head].
    cbv [createUser bind getDb getClock db_select]. rewrite Hname.
    rewrite bool_decide_false by congruence.
    destruct (decide (filter _ _ <> [])) as [Hmail|Hmail].
    + rewrite bool_decide_true by exact Hmail. reflexivity.
    + rewrite bool_decide_false by exact Hmail. reflexivity.
Qed.

(** X3. Registration refuses a user name or an e-mail address that a stored
    user already has, with 409 and the matching message, and the session
    is not touched.  A taken user name is found by a query before any
    insert: the world is left as it was.  A taken e-mail address is found
    by the unique index when the insert is made: no row of any table is
    added or changed, but the refused insert has used up one identifier of
    the users' sequence, so that the next user registered gets the
    identifier after it. *)
Theorem register_conflicts (sess : option Z) (body : JSValue) (data : InsertUser)
    (w : World) :
  insertUserSchema_safeParse body = Some data ->
  ((exists u, u ∈ rows (users (db w)) /\ username u = iu_username data) ->
   postRegister sess body w
   = (inr (Json 409 (message "Username already taken"), sess), w))
  /\ ((forall u, u ∈ rows (users (db w)) -> username u <> iu_username data) ->
      (exists u, u ∈ rows (users (db w)) /\ email u = iu_email data) ->
      let w' := snd (postRegister sess body w) in
      fst (postRegister sess body w)
      = inr (Json 409 (message "Email already in use"), sess)
      /\ rows (users (db w')) = rows (users (db w))
      /\ nextId (users (db w')) = nextId (users (db w)) + 1
      /\ productivityEntries (db w') = productivityEntries (db w)
      /\ dailyScores (db w') = dailyScores (db w)
      /\ weeklyScores (db w') = weeklyScores (db w)
      /\ chatMessages (db w') = chatMessages (db w)
      /\ clock w' = clock w /\ aiLog w' = aiLog w).
Proof.
  intros Hparse. pose proof (postRegister_cases sess body w) as Hcases.
  rewrite Hparse in Hcases. split.
  - intros Hname. apply (filter_nonempty (fun u => username u = iu_username data)) in Hname.
    destruct (decide _) as [_|Hno]; [exact Hcases | contradiction].
  - intros Hfree Hmail.
    apply (filter_nonempty (fun u => email u = iu_email data)) in Hmail.
    destruct (decide _) as [Hname|_].
    + apply filter_nonempty in Hname as (u & Hu & Hn). destruct (Hfree u Hu Hn).
    + destruct (decide _) as [_|Hno]; [|contradiction].
      cbv zeta. rewrite Hcases. cbn. repeat split; reflexivity.
Qed.

Lemma stringField_parse (body : JSValue) (data : InsertUser) :
  insertUserSchema_safeParse body = Some data ->
  stringField "username" body = Some (iu_username data)
  /\ stringField "password" body = Some (iu_password data).
Proof.
  unfold insertUserSchema_safeParse. intros H.
  destruct (stringField "username" body) as [u|]; [|discriminate H].
  destruct (stringField "email" body) as [e|]; [|discriminate H].
  destruct (stringField "password" body) as [p|]; [|discriminate H].
  destruct (stringField "fullName" body) as [f|]; [|discriminate H].
  destruct (stringField "occupation" body) as [o|]; [|discriminate H].
  destruct (stringField "goals" body) as [g|]; [|discriminate H].
  cbn in H. injection H as <-. split; reflexivity.
Qed.

(** X4. Registering and then logging in.  After a successful registration, a
    login that sends the same user name and password is answered with the
    very user object the registration returned and opens the same session,
    provided the password check accepts the hash of that password; nothing
    is written by the login.  If the registered user name or password is
    empty, which registration accepts, that login is refused as invalid
    input instead. *)
Theorem register_then_login (sess sess2 sess' : option Z) (body login : JSValue)
    (w w' : World) (user : JSValue) (name pw : string) :
  postRegister sess body w = (inr (Json 201 user, sess'), w') ->
  stringField "username" body = Some name ->
  stringField "password" body = Some pw ->
  stringField "username" login = Some name ->
  stringField "password" login = Some pw ->
  (strTruthy name = true -> strTruthy pw = true ->
   bcrypt_compare pw (bcrypt_hash pw) = true ->
   postLogin sess2 login w' = (inr (Json 200 user, sess'), w'))
  /\ (strTruthy name && strTruthy pw = false ->
      postLogin sess2 login w'
      = (inr (Json 400 (message "Invalid input"), sess2), w')).
Proof.
  intros Hreg Hname Hpw Hlname Hlpw.
  pose proof (postRegister_cases sess body w) as Hcases.
  destruct (insertUserSchema_safeParse body) as [data|] eqn:Hparse.
  2:{ rewrite Hcases in Hreg. discriminate Hreg. }
  destruct (decide _) as [|Hfree]; [rewrite Hcases in Hreg; discriminate Hreg|].
  destruct (decide _) as [|_]; [rewrite Hcases in Hreg; discriminate Hreg|].
  rewrite Hcases in Hreg. injection Hreg as <- <- <-.
  apply stringField_parse in Hparse as [Hn Hp].
  rewrite Hname in Hn. rewrite Hpw in Hp. injection Hn as Hn. injection Hp as Hp.
  apply dec_stable in Hfree.
  split.
  - intros Tn Tp Hcheck.
    unfold postLogin, tryCatch, loginSchema_safeParse.
    rewrite Hlname, Hlpw. cbn [mbind option_bind]. rewrite Tn, Tp. cbn [andb].
    cbv [bind getUserByUsername getDb ret db_select verifyPassword].
    cbn [withNewUser db users with_users rows].
    rewrite filter_app. rewrite Hn, Hfree.
    rewrite filter_cons, decide_True by (cbn; congruence).
    cbn [app head newUser password]. rewrite <- Hp, Hcheck. reflexivity.
  - intros Hempty.
    unfold postLogin, tryCatch, loginSchema_safeParse.
    rewrite Hlname, Hlpw. cbn [mbind option_bind]. rewrite Hempty. reflexivity.
Qed.

(** ** What the authentication routes answer *)

(** C10. The answers of register, login, the session check and logout, in
    full.  A successful one (201 for register, 200 for login and for the
    session check) carries the stored user record with exactly the
    [password] field removed, and the session then names that user: for
    register the record just inserted, for login the stored user of that
    name when the password matches its hash, for the session check the
    stored user the session names.  Every other answer is a fixed message,
    for a malformed registration together with the validation errors of
    the request body.  The user object sent has no [password] field and is
    the same whatever hash the record holds, so that no answer depends on
    a stored hash. *)
Theorem auth_responses_omit_password :
  (forall sess body w,
     postRegister sess body w
     = match insertUserSchema_safeParse body with
       | None =>
           (inr (Json 400 (JSObject [("message", JSString "Invalid input");
                                     ("errors", zodFlatten body)]), sess), w)
       | Some data =>
           if decide (filter (fun u => username u = iu_username data)
                             (rows (users (db w))) <> [])
           then (inr (Json 409 (message "Username already taken"), sess), w)
           else if decide (filter (fun u => email u = iu_email data)
                                  (rows (users (db w))) <> [])
           then (inr (Json 409 (message "Email already in use"), sess),
                 withRefusedUser w)
           else (inr (Json 201 (publicUser (newUser data w)),
                      Some (user_id (newUser data w))),
                 withNewUser data w)
       end)
  /\ (forall sess body w,
        postLogin sess body w
        = (inr match loginSchema_safeParse body with
               | None => (Json 400 (message "Invalid input"), sess)
               | Some (name, pw) =>
                   match head (filter (fun u => username u = name)
                                      (rows (users (db w)))) with
                   | None => (Json 401 (message "Invalid credentials"), sess)
                   | Some user =>
                       if bcrypt_compare pw (password user)
                       then (Json 200 (publicUser user), Some (user_id user))
                       else (Json 401 (message "Invalid credentials"), sess)
                   end
               end, w))
  /\ (forall sess w,
        getMe sess w
        = (inr match sess with
               | None => Json 401 (message "Not authenticated")
               | Some userId =>
                   if (userId =? 0)%Z then Json 401 (message "Not authenticated")
                   else match head (filter (fun u => user_id u = userId)
                                           (rows (users (db w)))) with
                        | None => Json 401 (message "User not found")
                        | Some user => Json 200 (publicUser user)
                        end
               end, w))
  /\ (forall sess w,
        postLogout sess w = (inr (Json 200 (message "Logged out"), None), w))
  /\ (forall u,
        exists before after,
          userObject u = (before ++ ("password", JSString (password u)) :: after)%list
          /\ publicUser u = JSObject (before ++ after)%list
          /\ assoc "password" (before ++ after)%list = None)
  /\ (forall u u',
        user_id u = user_id u' -> username u = username u' -> email u = email u' ->
        fullName u = fullName u' -> occupation u = occupation u' ->
        goals u = goals u' -> user_createdAt u = user_createdAt u' ->
        publicUser u = publicUser u').
Proof.
  split; [|split; [|split; [|split; [|split]]]].
  - intros sess body w. pose proof (postRegister_cases sess body w) as H.
    destruct (insertUserSchema_safeParse body) as [data|]; [|exact H].
    repeat destruct (decide _); exact H.
  - exact postLogin_eq.
  - exact getMe_eq.
  - reflexivity.
  - intros u.
    exists [("id", JSInt (user_id u)); ("username", JSString (username u));
            ("email", JSString (email u))],
           [("fullName", JSString (fullName u)); ("occupation", JSString (occupation u));
            ("goals", JSString (goals u));
            ("createdAt", JSString (toISOString (user_createdAt u)))].
    repeat split.
  - intros u u' Hid Hname Hmail Hfull Hocc Hgoals Hcreated. unfold publicUser.
    rewrite Hid, Hname, Hmail, Hfull, Hocc, Hgoals, Hcreated. reflexivity.
Qed.

(** ** The chat exchange *)

(** The rows a chat request appends. *)
Definition userTurn (userId : Z) (msg : JSValue) (w : World) : ChatMessage :=
  {| msg_id := nextId (chatMessages (db w)); msg_userId := userId; role := "user";
     content := toText msg; msg_createdAt := clock w |}.

Definition assistantTurn (userId : Z) (reply : string) (w : World) : ChatMessage :=
  {| msg_id := nextId (chatMessages (db w)) + 1; msg_userId := userId;
     role := "assistant"; content := reply; msg_createdAt := clock w |}.

(** The tables a chat request does not write. *)
Definition sameButChat (st st' : Store) : Prop :=
  users st' = users st /\ productivityEntries st' = productivityEntries st
  /\ dailyScores st' = dailyScores st /\ weeklyScores st' = weeklyScores st.

(** A chat request without message text ([message] missing, empty or
    otherwise falsy) is answered 400 "Message is required" before anything
    is stored or asked of the generation service. *)
Theorem chat_requires_message (userId : Z) (body msg : JSValue) (w : World) :
  userId <> 0 ->
  getProp body "message" = Some msg ->
  ToBoolean msg = false ->
  postChat (Some userId) body w = (inr (Json 400 (message "Message is required")), w).
Proof.
  intros Hauth Hmsg Hfalsy. unfold postChat, requireAuth.
  destruct (Z.eqb_spec userId 0) as [|_]; [contradiction|].
  cbv [tryCatch bind getPropM]. rewrite Hmsg. cbv [ret]. rewrite Hfalsy. reflexivity.
Qed.

(** X5. What a chat request with a message leaves behind.  The user's message
    is stored before the generation service is asked, and exactly one
    streaming request is made.  If the stream runs to its end, the events
    sent are its non-empty fragments in order followed by the end marker,
    and one assistant message is stored whose text is the concatenation of
    those fragments.  If the service fails, at once or in mid-stream, the
    fragments received so far are followed by one error event, the user's
    message stays stored and no assistant message is.  No other table is
    written. *)
Theorem chat_exchange (userId : Z) (body msg : JSValue) (w : World) :
  userId <> 0 ->
  getProp body "message" = Some msg ->
  ToBoolean msg = true ->
  let run := postChat (Some userId) body w in
  let before := rows (chatMessages (db w)) in
  let question := userTurn userId msg w in
  exists request : list ChatTurn,
    aiLog (snd run)
    = (aiLog w ++ [{| call_messages := request; call_stream := true;
                      call_max_completion_tokens := 1024 |}])%list
    /\ sameButChat (db w) (db (snd run))
    /\ match generateStream request with
       | Some (chunks, true) =>
           let pieces := List.filter strTruthy chunks in
           fst run = inr (EventStream ((EvContent <$> pieces) ++ [EvDone])%list)
           /\ rows (chatMessages (db (snd run)))
              = (before ++ [question;
                            assistantTurn userId (String.concat EmptyString pieces) w])%list
       | Some (chunks, false) =>
           fst run = inr (EventStream ((EvContent <$> List.filter strTruthy chunks)
                                       ++ [chatFailed])%list)
           /\ rows (chatMessages (db (snd run))) = (before ++ [question])%list
       | None =>
           fst run = inr (EventStream [chatFailed])
           /\ rows (chatMessages (db (snd run))) = (before ++ [question])%list
       end.
Proof.
  intros Hauth Hmsg Htruthy run before question. subst run.
  unfold postChat, requireAuth.
  destruct (Z.eqb_spec userId 0) as [|_]; [contradiction|].
  cbv [tryCatch bind getPropM]. rewrite Hmsg. cbv [ret]. rewrite Htruthy.
  cbv [negb getUserById getChatMessages saveChatMessage getEntriesByDateRange
       getDailyScores getClock getDb putDb logCall bind ret db_select db_insert].
  cbn [db clock aiLog with_chatMessages users productivityEntries dailyScores
       weeklyScores chatMessages rows nextId].
  match goal with
  | |- context [generateStream ?r] => exists r
  end.
  destruct (generateStream _) as [[chunks [|]]|];
    cbn [fst snd db aiLog with_chatMessages users productivityEntries dailyScores
         weeklyScores chatMessages rows nextId];
    (split; [reflexivity|]); (split; [repeat split|]);
    (split; [reflexivity|]).
  - rewrite <- app_assoc. reflexivity.
  - reflexivity.
  - reflexivity.
Qed.

Lemma filter_filter_none {A} (P Q : A -> Prop) `{!forall x, Decision (P x)}
    `{!forall x, Decision (Q x)} (l : list A) :
  (forall x, P x -> Q x -> False) -> filter P (filter Q l) = [].
Proof.
  intros Hno. apply filter_none. intros x Hx HP.
  apply list_elem_of_filter in Hx as [HQ _]. exact (Hno x HP HQ).
Qed.

Lemma filter_filter_all {A} (P Q : A -> Prop) `{!forall x, Decision (P x)}
    `{!forall x, Decision (Q x)} (l : list A) :
  (forall x, P x -> Q x) -> filter P (filter Q l) = filter P l.
Proof.
  intros Himp. induction l as [|a l IH]; [reflexivity|].
  rewrite (filter_cons Q). destruct (decide (Q a)) as [HQ|HQ].
  - rewrite !filter_cons. destruct (decide (P a)); [f_equal|]; exact IH.
  - rewrite (filter_cons P), decide_False by (intros HP; exact (HQ (Himp a HP))).
    exact IH.
Qed.

(** X6. Clearing the chat.  DELETE /api/chat/messages removes every message of
    the requesting user: the history read back is empty.  The history any
    other user reads is what it was, and no other table and no generation
    request is involved. *)
Theorem clear_chat_history (userId : Z) (w : World) :
  userId <> 0 ->
  let w' := snd (deleteChatHistory (Some userId) w) in
  fst (deleteChatHistory (Some userId) w) = inr (Json 200 (message "Chat cleared"))
  /\ getChatHistory (Some userId) w' = (inr (Json 200 (JSArray [])), w')
  /\ (forall other, other <> userId ->
        fst (getChatHistory (Some other) w') = fst (getChatHistory (Some other) w))
  /\ sameButChat (db w) (db w') /\ aiLog w' = aiLog w /\ clock w' = clock w.
Proof.
  intros Hauth w'. subst w'.
  unfold deleteChatHistory, getChatHistory, requireAuth.
  destruct (Z.eqb_spec userId 0) as [|_]; [contradiction|].
  cbv [tryCatch bind clearChatMessages getChatMessages getDb putDb ret db_delete
       db_select].
  cbn [fst snd db clock aiLog with_chatMessages users productivityEntries
       dailyScores weeklyScores chatMessages rows nextId].
  split; [reflexivity|]. split; [|split; [|repeat split]].
  - rewrite filter_filter_none by (intros x HP HQ; exact (HQ HP)). reflexivity.
  - intros other Hother. destruct (Z.eqb_spec other 0) as [|_]; [reflexivity|].
    cbn [fst snd db chatMessages with_chatMessages rows].
    rewrite filter_filter_all; [reflexivity|].
    intros x Hx Hu. apply Hother. rewrite <- Hx. exact Hu.
Qed.

(** ** What the upserts leave alone *)

Lemma saveDailyScore_frame (userId date : Z) (sc : Q) (insight : string) (w : World) :
  let w' := snd (saveDailyScore userId date sc insight w) in
  users (db w') = users (db w)
  /\ productivityEntries (db w') = productivityEntries (db w)
  /\ weeklyScores (db w') = weeklyScores (db w)
  /\ chatMessages (db w') = chatMessages (db w)
  /\ clock w' = clock w /\ aiLog w' = aiLog w.
Proof.
  destruct (decide (filter (dailyKey userId date) (rows (dailyScores (db w))) = []))
    as [E|E]; cbv zeta.
  - rewrite saveDailyScore_fresh by exact E. repeat split.
  - rewrite saveDailyScore_existing by exact E. repeat split.
Qed.

Lemma saveWeeklyScore_frame (userId wkStart wkEnd : Z) (avg : Q) (total : Z)
    (w : World) :
  let w' := snd (saveWeeklyScore userId wkStart wkEnd avg total w) in
  users (db w') = users (db w)
  /\ productivityEntries (db w') = productivityEntries (db w)
  /\ dailyScores (db w') = dailyScores (db w)
  /\ chatMessages (db w') = chatMessages (db w)
  /\ clock w' = clock w /\ aiLog w' = aiLog w.
Proof.
  destruct (decide (filter (weeklyKey userId wkStart) (rows (weeklyScores (db w))) = []))
    as [E|E]; cbv zeta.
  - rewrite saveWeeklyScore_fresh by exact E. repeat split.
  - rewrite saveWeeklyScore_existing by exact E. repeat split.
Qed.

Lemma refreshWeeklyScore_frame (userId date : Z) (w : World) :
  let w' := snd (refreshWeeklyScore userId date w) in
  users (db w') = users (db w)
  /\ productivityEntries (db w') = productivityEntries (db w)
  /\ dailyScores (db w') = dailyScores (db w)
  /\ chatMessages (db w') = chatMessages (db w)
  /\ clock w' = clock w /\ aiLog w' = aiLog w.
Proof.
  unfold refreshWeeklyScore. cbv [bind getClock getDailyScores getDb ret].
  match goal with
  | |- context [(0 <? length ?l)%nat] => destruct (0 <? length l)%nat
  end; [|repeat split].
  match goal with
  | |- context [saveWeeklyScore ?u ?s ?e ?a ?n w] =>
      pose proof (saveWeeklyScore_frame u s e a n w) as H; cbv zeta in H;
      destruct (saveWeeklyScore u s e a n w) as [[x|r] w2]; exact H
  end.
Qed.

(** ** Scoring requests that fail *)

(** X8. Two ways the generation step fails the request.  If the service does
    not answer, or if the text it answers parses to [null], so that reading
    its score raises a TypeError, the request is answered 500 "Failed to
    generate score": the one generation request is on record, no daily or
    weekly score is written, and no retry is made. *)
Theorem scoring_fails_without_usable_answer (userId : Z) (bodyDate : option Z)
    (w : World) :
  let date := match bodyDate with
              | Some d => d
              | None => JSDate.toISODate (clock w)
              end in
  let entries :=
    orderByDesc entry_createdAt
      (filter (fun e => entry_userId e = userId /\ entry_date e = date)
              (rows (productivityEntries (db w)))) in
  let user := head (filter (fun u => user_id u = userId) (rows (users (db w)))) in
  let messages :=
    [{| turn_role := "user";
        turn_content := JSString (scorePrompt user date entries) |}] in
  let w1 := {| db := db w; clock := clock w;
               aiLog := (aiLog w ++ [{| call_messages := messages; call_stream := false;
                                        call_max_completion_tokens := 256 |}])%list |} in
  userId <> 0 ->
  (exists e, e ∈ rows (productivityEntries (db w))
             /\ entry_userId e = userId /\ entry_date e = date) ->
  (generate messages = None
   \/ exists response,
        generate messages = Some response
        /\ JSON_parse (jsonCandidate (contentOf response)) = Some JSNull) ->
  postScoreDaily (Some userId) bodyDate w
  = (inr (Json 500 (message "Failed to generate score")), w1).
Proof.
  intros date entries user messages w1 Hauth Hex Hfail.
  assert (Hne : (length entries =? 0)%nat = false).
  { apply Nat.eqb_neq. intros Hlen. apply length_zero_iff_nil in Hlen.
    apply merge_sort_nil_iff in Hlen. revert Hlen. apply filter_nonempty. exact Hex. }
  unfold postScoreDaily, requireAuth.
  destruct (Z.eqb_spec userId 0) as [|_]; [contradiction|].
  cbv [tryCatch bind getClock getEntriesByDate getDb ret db_select getUserById
       openai_create logCall getPropM finite throw].
  match goal with
  | |- context [(length ?l =? 0)%nat] => change l with entries
  end.
  rewrite Hne.
  match goal with
  | |- context [generate ?m] => change m with messages
  end.
  destruct Hfail as [Hgen | (response & Hgen & Hnull)]; rewrite Hgen; [reflexivity|].
  match goal with
  | |- context [parseResponse ?c] =>
      change c with (contentOf response);
      replace (parseResponse (contentOf response)) with JSNull
        by (unfold parseResponse; rewrite Hnull; reflexivity)
  end.
  reflexivity.
Qed.

(** ** What a request can write

    A request that is served without a step of another request in between
    changes the world by a few steps of seven kinds (besides putting a
    generation request on record): a user is added, an insert of a user is
    refused, or, under the session of the request, an entry is added, an
    entry is deleted, a day is scored and its week refreshed, a chat message
    is added, a chat history is cleared. *)

Definition knownUser (st : Store) (userId : Z) : Prop :=
  exists u, u ∈ rows (users st) /\ user_id u = userId.

Definition scoreDay (userId date : Z) (sc : Q) (insight : string) : M unit :=
  saveDailyScore userId date sc insight ;;;
  refreshWeeklyScore userId date.

Inductive writes (actor : option Z) (w : World) : World -> Prop :=
| writes_log (c : AICall) :
    writes actor w (snd (logCall c w))
| writes_user (data : InsertUser) :
    filter (fun u => username u = iu_username data) (rows (users (db w))) = [] ->
    filter (fun u => email u = iu_email data) (rows (users (db w))) = [] ->
    writes actor w (withNewUser data w)
| writes_refused :
    writes actor w (withRefusedUser w)
| writes_entry (userId : Z) (data : InsertProductivityEntry) :
    actor = Some userId ->
    writes actor w (snd (createProductivityEntry userId data w))
| writes_delete (id : JSNum) (userId : Z) :
    actor = Some userId ->
    writes actor w (snd (deleteEntry id userId w))
| writes_score (userId date : Z) (sc : Q) (insight : string) :
    actor = Some userId -> (0 <= sc <= 100)%Q ->
    writes actor w (snd (scoreDay userId date sc insight w))
| writes_message (userId : Z) (r c : string) :
    actor = Some userId ->
    writes actor w (snd (saveChatMessage userId r c w))
| writes_clear (userId : Z) :
    actor = Some userId ->
    writes actor w (snd (clearChatMessages userId w)).

Inductive writesMany (actor : option Z) : World -> World -> Prop :=
| writes_nil (w : World) : writesMany actor w w
| writes_cons (w w1 w2 : World) :
    writes actor w w1 -> writesMany actor w1 w2 -> writesMany actor w w2.

Lemma writes_one (actor : option Z) (w w' : World) :
  writes actor w w' -> writesMany actor w w'.
Proof. intros H. eapply writes_cons; [exact H | apply writes_nil]. Qed.

Lemma requireAuth_cases (sess : option Z) (next : Z -> M Response) (w : World) :
  requireAuth sess next w = (inr (Json 401 (message "Not authenticated")), w)
  \/ exists userId, sess = Some userId /\ userId <> 0
                    /\ requireAuth sess next w = next userId w.
Proof.
  unfold requireAuth. destruct sess as [userId|]; [|left; reflexivity].
  destruct (Z.eqb_spec userId 0) as [|Hne]; [left; reflexivity|].
  right. exists userId. auto.
Qed.

Lemma keepSession_snd (sess : option Z) (m : M Response) (w : World) :
  (exists r, fst (m w) = inr r) ->
  snd (keepSession sess m w) = snd (m w).
Proof.
  intros [r Hr]. unfold keepSession, bind.
  destruct (m w) as [[e|r'] w']; [discriminate Hr | reflexivity].
Qed.

(** The effect of a scoring request on the world. *)
Lemma postScoreDaily_effect (sess bodyDate : option Z) (w : World) :
  (exists r, fst (postScoreDaily sess bodyDate w) = inr r)
  /\ (snd (postScoreDaily sess bodyDate w) = w
      \/ (exists c, snd (postScoreDaily sess bodyDate w) = snd (logCall c w))
      \/ exists userId date sc insight c,
           sess = Some userId /\ userId <> 0 /\ (0 <= sc <= 100)%Q
           /\ date = match bodyDate with
                     | Some d => d
                     | None => JSDate.toISODate (clock w)
                     end
           /\ snd (postScoreDaily sess bodyDate w)
              = snd (scoreDay userId date sc insight (snd (logCall c w)))).
Proof.
  unfold postScoreDaily, requireAuth.
  destruct sess as [userId|]; [|split; [eauto|]; left; reflexivity].
  destruct (Z.eqb_spec userId 0) as [|Hauth]; [split; [eauto|]; left; reflexivity|].
  cbv [tryCatch bind getClock getEntriesByDate getDb ret db_select getUserById
       openai_create logCall getPropM finite throw].
  set (date := match bodyDate with
               | Some d => d
               | None => JSDate.toISODate (clock w)
               end).
  destruct (length _ =? 0)%nat; [split; [eauto|]; left; reflexivity|].
  destruct (generate _) as [response|].
  2:{ split; [eauto|]. right. left. eexists. reflexivity. }
  set (parsed := parseResponse _).
  destruct (getProp parsed "score") as [scoreV|].
  2:{ split; [eauto|]. right. left. eexists. reflexivity. }
  pose proof (clampScore_finite scoreV) as (sc & Hsc & Hrange). rewrite Hsc.
  destruct (getProp parsed "insight") as [insightV|].
  2:{ split; [eauto|]. right. left. eexists. reflexivity. }
  match goal with
  | |- context [saveDailyScore userId date sc ?text ?w1] =>
      pose proof (saveDailyScore_post userId date sc text w1) as Hsave;
      cbv zeta in Hsave;
      assert (Hday : snd (scoreDay userId date sc text w1)
                     = snd (refreshWeeklyScore userId date
                              (snd (saveDailyScore userId date sc text w1))));
      [ unfold scoreDay, bind;
        destruct (saveDailyScore userId date sc text w1) as [[e|r] w2];
        [ destruct Hsave as [[? [=]] _] | reflexivity ]
      | destruct (saveDailyScore userId date sc text w1) as [[e|r] w2] eqn:Esave ]
  end.
  { destruct Hsave as [[? [=]] _]. }
  cbn [snd] in Hday.
  pose proof (refreshWeeklyScore_post userId date w2) as Hrefresh.
  cbv zeta in Hrefresh.
  destruct (refreshWeeklyScore userId date w2) as [[e|[]] w3] eqn:Erefresh.
  { destruct Hrefresh as [[=] _]. }
  cbn [fst snd] in *. split; [eauto|]. right. right.
  eexists userId, date, sc, _, _. split; [reflexivity|]. split; [exact Hauth|].
  split; [exact Hrange|]. split; [reflexivity|].
  symmetry. exact Hday.
Qed.

(** The effect of a chat request on the world. *)
Lemma postChat_effect (sess : option Z) (body : JSValue) (w : World) :
  (exists r, fst (postChat sess body w) = inr r)
  /\ (snd (postChat sess body w) = w
      \/ exists userId text c,
           sess = Some userId /\ userId <> 0
           /\ let w1 := snd (logCall c (snd (saveChatMessage userId "user" text w))) in
              snd (postChat sess body w) = w1
              \/ exists reply,
                   snd (postChat sess body w)
                   = snd (saveChatMessage userId "assistant" reply w1)).
Proof.
  unfold postChat, requireAuth.
  destruct sess as [userId|]; [|split; [eauto|]; left; reflexivity].
  destruct (Z.eqb_spec userId 0) as [|Hauth]; [split; [eauto|]; left; reflexivity|].
  cbv [tryCatch bind getPropM].
  destruct (getProp body "message") as [msg|]; [|split; [eauto|]; left; reflexivity].
  cbv [ret]. destruct (ToBoolean msg); cbn [negb]; [|split; [eauto|]; left; reflexivity].
  cbv [getUserById getChatMessages saveChatMessage getEntriesByDateRange
       getDailyScores getClock getDb putDb logCall bind ret db_select db_insert].
  cbn [db clock aiLog with_chatMessages users productivityEntries dailyScores
       weeklyScores chatMessages rows nextId].
  destruct (generateStream _) as [[chunks [|]]|]; cbn [fst snd];
    (split; [eauto|]); right; eexists userId, (toText msg), _;
    (split; [reflexivity|]); (split; [exact Hauth|]); cbv zeta.
  - right. eexists. reflexivity.
  - left. reflexivity.
  - left. reflexivity.
Qed.

(** Every request is answered, and what it does to the world is a
    sequence of writes. *)
Lemma handle_writes (sess : option Z) (req : Request) (w : World) :
  (exists r, fst (handle sess req w) = inr r)
  /\ writesMany sess w (snd (handle sess req w)).
Proof.
  destruct req; cbn [handle].
  - pose proof (postRegister_cases sess body w) as Hcases.
    destruct (insertUserSchema_safeParse body) as [data|].
    2:{ rewrite Hcases. split; [eauto|apply writes_nil]. }
    destruct (decide _) as [|Hname]; [rewrite Hcases; split; [eauto|apply writes_nil]|].
    destruct (decide _) as [|Hmail];
      [rewrite Hcases; split; [eauto|apply writes_one, writes_refused]|].
    rewrite Hcases. split; [eauto|]. apply writes_one, writes_user.
    + apply dec_stable in Hname. exact Hname.
    + apply dec_stable in Hmail. exact Hmail.
  - destruct (postLogin_spec sess body w) as (r & s & E & _). rewrite E.
    split; [eauto|apply writes_nil].
  - split; [eexists; reflexivity|apply writes_nil].
  - destruct (getMe_spec sess w) as (r & E & _).
    unfold keepSession, bind. rewrite E. split; [eauto|apply writes_nil].
  - unfold keepSession, bind, postEntries, requireAuth.
    destruct sess as [userId|]; [|split; [eauto|apply writes_nil]].
    destruct (Z.eqb_spec userId 0) as [|_]; [split; [eauto|apply writes_nil]|].
    unfold tryCatch.
    destruct (insertProductivityEntrySchema_safeParse body) as [errors|data];
      [split; [eauto|apply writes_nil]|].
    split; [eexists; reflexivity|].
    apply writes_one. exact (writes_entry _ w userId data eq_refl).
  - unfold keepSession, bind, getEntries, requireAuth.
    destruct sess as [userId|]; [|split; [eauto|apply writes_nil]].
    destruct (Z.eqb_spec userId 0) as [|_]; split; eauto using writes_nil.
  - unfold keepSession, bind, getEntriesRange, requireAuth.
    destruct sess as [userId|]; [|split; [eauto|apply writes_nil]].
    destruct (Z.eqb_spec userId 0) as [|_]; [split; [eauto|apply writes_nil]|].
    destruct start, end_; split; eauto using writes_nil.
  - unfold keepSession, bind, deleteEntryRoute, requireAuth.
    destruct sess as [userId|]; [|split; [eauto|apply writes_nil]].
    destruct (Z.eqb_spec userId 0) as [|_]; [split; [eauto|apply writes_nil]|].
    unfold tryCatch, bind.
    pose proof (writes_delete (Some userId) w id userId eq_refl) as Hdel.
    destruct (int4 id) as [key|] eqn:Hid.
    + rewrite (deleteEntry_run id key) in * by exact Hid.
      cbv zeta in *. cbn [snd] in Hdel.
      destruct (0 <? length _)%nat; split; eauto using writes_one.
    + rewrite deleteEntry_refused in * by exact Hid.
      split; [eexists; reflexivity | apply writes_nil].
  - destruct (postScoreDaily_effect sess bodyDate w) as [[r Hr] Heff].
    rewrite keepSession_snd by eauto. split.
    { unfold keepSession, bind.
      destruct (postScoreDaily sess bodyDate w) as [[e|r'] w']; [discriminate Hr|eauto]. }
    destruct Heff as [-> | [[c ->] | (userId & date & sc & insight & c & Hs & _ & Hsc & _ & ->)]].
    + apply writes_nil.
    + apply writes_one, writes_log.
    + eapply writes_cons; [apply (writes_log sess w c)|].
      apply writes_one, writes_score; [exact Hs | exact Hsc].
  - unfold keepSession, bind, getScoresDaily, requireAuth.
    destruct sess as [userId|]; [|split; [eauto|apply writes_nil]].
    destruct (Z.eqb_spec userId 0) as [|_]; split; eauto using writes_nil.
  - unfold keepSession, bind, getScoreboard, requireAuth.
    destruct sess as [userId|]; [|split; [eauto|apply writes_nil]].
    destruct (Z.eqb_spec userId 0) as [|_]; split; eauto using writes_nil.
  - unfold keepSession, bind, getChatHistory, requireAuth.
    destruct sess as [userId|]; [|split; [eauto|apply writes_nil]].
    destruct (Z.eqb_spec userId 0) as [|_]; split; eauto using writes_nil.
  - unfold keepSession, bind, deleteChatHistory, requireAuth.
    destruct sess as [userId|]; [|split; [eauto|apply writes_nil]].
    destruct (Z.eqb_spec userId 0) as [|_]; [split; [eauto|apply writes_nil]|].
    split; [eexists; reflexivity|].
    apply writes_one. exact (writes_clear _ w userId eq_refl).
  - destruct (postChat_effect sess body w) as [[r Hr] Heff].
    rewrite keepSession_snd by eauto. split.
    { unfold keepSession, bind.
      destruct (postChat sess body w) as [[e|r'] w']; [discriminate Hr|eauto]. }
    destruct Heff as [-> | (userId & text & c & Hs & _ & Heff)]; [apply writes_nil|].
    cbv zeta in Heff.
    eapply writes_cons; [exact (writes_message sess w userId "user" text Hs)|].
    eapply writes_cons; [apply writes_log|].
    destruct Heff as [-> | [reply ->]]; [apply writes_nil|].
    apply writes_one, writes_message. exact Hs.
Qed.

(** ** Invariants of the served worlds *)

(** *** The steps, spelled out *)

Lemma createProductivityEntry_run (userId : Z) (data : InsertProductivityEntry)
    (w : World) :
  let t := productivityEntries (db w) in
  let entry := {| entry_id := nextId t; entry_userId := userId; title := ie_title data;
                  category := ie_category data; duration := ie_duration data;
                  completed := ie_completed data; notes := ie_notes data;
                  entry_date := ie_date data; entry_createdAt := clock w |} in
  createProductivityEntry userId data w
  = (inr entry,
     {| db := with_productivityEntries
                {| rows := (rows t ++ [entry])%list; nextId := nextId t + 1 |} (db w);
        clock := clock w; aiLog := aiLog w |}).
Proof. reflexivity. Qed.

Lemma saveChatMessage_run (userId : Z) (r c : string) (w : World) :
  let t := chatMessages (db w) in
  let msg := {| msg_id := nextId t; msg_userId := userId; role := r; content := c;
                msg_createdAt := clock w |} in
  saveChatMessage userId r c w
  = (inr msg,
     {| db := with_chatMessages
                {| rows := (rows t ++ [msg])%list; nextId := nextId t + 1 |} (db w);
        clock := clock w; aiLog := aiLog w |}).
Proof. reflexivity. Qed.

Lemma clearChatMessages_run (userId : Z) (w : World) :
  let t := chatMessages (db w) in
  clearChatMessages userId w
  = (inr tt,
     {| db := with_chatMessages
                {| rows := filter (fun m => ~ msg_userId m = userId) (rows t);
                   nextId := nextId t |} (db w);
        clock := clock w; aiLog := aiLog w |}).
Proof. reflexivity. Qed.

Lemma deleteEntry_cases (id : JSNum) (userId : Z) (w : World) :
  (int4 id = None /\ snd (deleteEntry id userId w) = w)
  \/ exists key,
       int4 id = Some key
       /\ snd (deleteEntry id userId w)
          = {| db := with_productivityEntries
                       {| rows := filter (fun e => ~ (entry_id e = key
                                                      /\ entry_userId e = userId))
                                         (rows (productivityEntries (db w)));
                          nextId := nextId (productivityEntries (db w)) |} (db w);
               clock := clock w; aiLog := aiLog w |}.
Proof.
  destruct (int4 id) as [key|] eqn:Hid.
  - right. exists key. split; [reflexivity|].
    rewrite (deleteEntry_run id key) by exact Hid. reflexivity.
  - left. split; [reflexivity|]. rewrite deleteEntry_refused by exact Hid. reflexivity.
Qed.

(** The row a fresh daily score becomes, and a fresh weekly score. *)
Definition newDaily (userId date : Z) (sc : Q) (insight : string) (w : World)
  : DailyScore :=
  {| ds_id := nextId (dailyScores (db w)); ds_userId := userId; ds_date := date;
     score := sc; aiInsight := Some insight; ds_createdAt := clock w |}.

Definition newWeekly (userId wkStart wkEnd : Z) (avg : Q) (total : Z) (w : World)
  : WeeklyScore :=
  {| ws_id := nextId (weeklyScores (db w)); ws_userId := userId;
     ws_weekStart := wkStart; ws_weekEnd := wkEnd; avgScore := avg;
     totalEntries := total; ws_createdAt := clock w |}.

(** The daily scores after an upsert: the rows of the key rewritten, or one
    row appended. *)
Lemma saveDailyScore_rows (userId date : Z) (sc : Q) (insight : string) (w : World) :
  let before := rows (dailyScores (db w)) in
  let after := dailyScores (db (snd (saveDailyScore userId date sc insight w))) in
  (filter (dailyKey userId date) before <> []
   /\ rows after = (fun r => if decide (dailyKey userId date r)
                             then setDaily sc insight r else r) <$> before
   /\ nextId after = nextId (dailyScores (db w)))
  \/ (filter (dailyKey userId date) before = []
      /\ rows after = (before ++ [newDaily userId date sc insight w])%list
      /\ nextId after = nextId (dailyScores (db w)) + 1).
Proof.
  cbv zeta.
  destruct (decide (filter (dailyKey userId date) (rows (dailyScores (db w))) = []))
    as [E|E].
  - right. rewrite saveDailyScore_fresh by exact E. auto.
  - left. rewrite saveDailyScore_existing by exact E. auto.
Qed.

Lemma saveWeeklyScore_rows (userId wkStart wkEnd : Z) (avg : Q) (total : Z)
    (w : World) :
  let before := rows (weeklyScores (db w)) in
  let after :=
    weeklyScores (db (snd (saveWeeklyScore userId wkStart wkEnd avg total w))) in
  (filter (weeklyKey userId wkStart) before <> []
   /\ rows after = (fun r => if decide (weeklyKey userId wkStart r)
                             then setWeekly avg total r else r) <$> before
   /\ nextId after = nextId (weeklyScores (db w)))
  \/ (filter (weeklyKey userId wkStart) before = []
      /\ rows after
         = (before ++ [newWeekly userId wkStart wkEnd avg total w])%list
      /\ nextId after = nextId (weeklyScores (db w)) + 1).
Proof.
  cbv zeta.
  destruct (decide (filter (weeklyKey userId wkStart) (rows (weeklyScores (db w))) = []))
    as [E|E].
  - right. rewrite saveWeeklyScore_fresh by exact E. auto.
  - left. rewrite saveWeeklyScore_existing by exact E. auto.
Qed.

(** Scoring a day: the upsert of the daily score, then, if the computed
    week holds a score of the user, the upsert of its aggregate. *)
Lemma scoreDay_run (userId date : Z) (sc : Q) (insight : string) (w : World) :
  let w2 := snd (saveDailyScore userId date sc insight w) in
  let wb := getWeekBounds tz (clock w) (Some date) in
  let inWindow := filter (inWeek userId wb) (rows (dailyScores (db w2))) in
  snd (scoreDay userId date sc insight w)
  = if decide (inWindow = []) then w2
    else snd (saveWeeklyScore userId (weekStart wb) (weekEnd wb)
                (roundOneDecimal (average (orderByDesc ds_date inWindow)))
                (Z.of_nat (length inWindow)) w2).
Proof.
  intros w2 wb inWindow.
  pose proof (saveDailyScore_post userId date sc insight w) as Hsave.
  pose proof (saveDailyScore_frame userId date sc insight w) as Hframe.
  cbv zeta in Hsave, Hframe. fold w2 in Hframe.
  destruct Hframe as (_ & _ & _ & _ & Hclock & _).
  unfold scoreDay, bind. subst w2.
  destruct (saveDailyScore userId date sc insight w) as [[e|r] w2].
  { destruct Hsave as [[? [=]] _]. }
  cbn [snd] in *. clear Hsave.
  unfold refreshWeeklyScore. cbv [bind getClock getDailyScores getDb ret db_select].
  rewrite Hclock. fold wb. change (filter _ (rows (dailyScores (db w2)))) with inWindow.
  destruct (decide (inWindow = [])) as [E|E].
  - rewrite E. reflexivity.
  - assert (Hlen : length (orderByDesc ds_date inWindow) = length inWindow)
      by (apply Permutation_length, merge_sort_Permutation).
    rewrite Hlen.
    replace (0 <? length inWindow)%nat with true
      by (symmetry; apply length_pos_iff; exact E).
    destruct (saveWeeklyScore _ _ _ _ _ w2) as [[e|r'] w3]; reflexivity.
Qed.

(** *** Keys *)

(** The keys of a table are distinct and below the next value of its
    sequence. *)
Definition keysOk {R} (key : R -> Z) (t : Table R) : Prop :=
  NoDup (key <$> rows t) /\ forall r, r ∈ rows t -> key r < nextId t.

Lemma NoDup_fmap_filter {A B} (f : A -> B) (P : A -> Prop)
    `{!forall x, Decision (P x)} (l : list A) :
  NoDup (f <$> l) -> NoDup (f <$> filter P l).
Proof.
  induction l as [|a l IH]; [intros; constructor|].
  rewrite fmap_cons, NoDup_cons. intros [Ha Hl].
  rewrite filter_cons. destruct (decide (P a)); [|exact (IH Hl)].
  rewrite fmap_cons. apply NoDup_cons. split; [|exact (IH Hl)].
  intros Hin. apply Ha. apply list_elem_of_fmap in Hin as (x & -> & Hx).
  apply list_elem_of_fmap. exists x. split; [reflexivity|].
  apply list_elem_of_filter in Hx. apply Hx.
Qed.

Lemma keysOk_append {R} (key : R -> Z) (t : Table R) (r : R) :
  keysOk key t -> key r = nextId t ->
  keysOk key {| rows := (rows t ++ [r])%list; nextId := nextId t + 1 |}.
Proof.
  intros [Hnd Hlt] Hr. split; cbn [rows nextId].
  - rewrite fmap_app. apply NoDup_snoc_fresh; [exact Hnd|]. cbn.
    intros Hin. apply list_elem_of_fmap in Hin as (x & Hx & Hin).
    specialize (Hlt x Hin). lia.
  - intros x Hx. apply elem_of_app in Hx as [Hx|Hx].
    + specialize (Hlt x Hx). lia.
    + apply list_elem_of_singleton in Hx as ->. lia.
Qed.

Lemma keysOk_skip {R} (key : R -> Z) (t : Table R) :
  keysOk key t -> keysOk key {| rows := rows t; nextId := nextId t + 1 |}.
Proof.
  intros [Hnd Hlt]. split; cbn [rows nextId]; [exact Hnd|].
  intros x Hx. specialize (Hlt x Hx). lia.
Qed.

Lemma keysOk_update {R} (key : R -> Z) (t : Table R) (g : R -> R) :
  keysOk key t -> (forall r, key (g r) = key r) ->
  keysOk key {| rows := g <$> rows t; nextId := nextId t |}.
Proof.
  intros [Hnd Hlt] Hg. split; cbn [rows nextId].
  - rewrite <- list_fmap_compose.
    rewrite (list_fmap_ext (key ∘ g) key (rows t)) by (intros i x _; apply Hg).
    exact Hnd.
  - intros x Hx. apply list_elem_of_fmap in Hx as (y & -> & Hy).
    rewrite Hg. exact (Hlt y Hy).
Qed.

Lemma keysOk_filter {R} (key : R -> Z) (t : Table R) (P : R -> Prop)
    `{!forall x, Decision (P x)} :
  keysOk key t -> keysOk key {| rows := filter P (rows t); nextId := nextId t |}.
Proof.
  intros [Hnd Hlt]. split; cbn [rows nextId].
  - apply NoDup_fmap_filter. exact Hnd.
  - intros x Hx. apply list_elem_of_filter in Hx as [_ Hx]. exact (Hlt x Hx).
Qed.

(** Every table has distinct primary keys, all below the next value of its
    sequence; user names and e-mail addresses are distinct. *)
Definition primaryKeys (st : Store) : Prop :=
  keysOk user_id (users st)
  /\ keysOk entry_id (productivityEntries st)
  /\ keysOk ds_id (dailyScores st)
  /\ keysOk ws_id (weeklyScores st)
  /\ keysOk msg_id (chatMessages st)
  /\ NoDup (username <$> rows (users st))
  /\ NoDup (email <$> rows (users st)).

Lemma NoDup_snoc_filter {A B} `{EqDecision B} (f : A -> B) (l : list A) (a : A) :
  NoDup (f <$> l) -> filter (fun x => f x = f a) l = [] ->
  NoDup (f <$> (l ++ [a])%list).
Proof.
  intros Hnd Hnone. rewrite fmap_app. apply NoDup_snoc_fresh; [exact Hnd|]. cbn.
  intros Hin. apply list_elem_of_fmap in Hin as (x & Hx & Hin).
  assert (Hf : x ∈ filter (fun x => f x = f a) l)
    by (apply list_elem_of_filter; split; [symmetry; exact Hx | exact Hin]).
  rewrite Hnone in Hf. inversion Hf.
Qed.

Lemma table_eq {R} (t t' : Table R) :
  rows t' = rows t -> nextId t' = nextId t -> t' = t.
Proof. destruct t, t'; cbn; intros -> ->; reflexivity. Qed.

Lemma keysOk_rows {R} (key : R -> Z) (t' : Table R) (l : list R) (n : Z) :
  rows t' = l -> nextId t' = n ->
  keysOk key {| rows := l; nextId := n |} -> keysOk key t'.
Proof. intros Hr Hn H. destruct t'; cbn in *; subst. exact H. Qed.

Lemma saveDailyScore_keys (userId date : Z) (sc : Q) (insight : string) (w : World) :
  keysOk ds_id (dailyScores (db w)) ->
  keysOk ds_id (dailyScores (db (snd (saveDailyScore userId date sc insight w)))).
Proof.
  intros Hk.
  destruct (saveDailyScore_rows userId date sc insight w)
    as [(_ & Hr & Hn) | (_ & Hr & Hn)]; cbv zeta in *.
  - apply (keysOk_rows _ _ _ _ Hr Hn).
    apply (keysOk_update ds_id (dailyScores (db w))); [exact Hk|].
    intros r. destruct (decide _); reflexivity.
  - apply (keysOk_rows _ _ _ _ Hr Hn).
    apply (keysOk_append ds_id (dailyScores (db w))); [exact Hk | reflexivity].
Qed.

Lemma saveWeeklyScore_keys (userId wkStart wkEnd : Z) (avg : Q) (total : Z)
    (w : World) :
  keysOk ws_id (weeklyScores (db w)) ->
  keysOk ws_id
    (weeklyScores (db (snd (saveWeeklyScore userId wkStart wkEnd avg total w)))).
Proof.
  intros Hk.
  destruct (saveWeeklyScore_rows userId wkStart wkEnd avg total w)
    as [(_ & Hr & Hn) | (_ & Hr & Hn)]; cbv zeta in *.
  - apply (keysOk_rows _ _ _ _ Hr Hn).
    apply (keysOk_update ws_id (weeklyScores (db w))); [exact Hk|].
    intros r. destruct (decide _); reflexivity.
  - apply (keysOk_rows _ _ _ _ Hr Hn).
    apply (keysOk_append ws_id (weeklyScores (db w))); [exact Hk | reflexivity].
Qed.

Lemma writes_primaryKeys (actor : option Z) (w w' : World) :
  writes actor w w' -> primaryKeys (db w) -> primaryKeys (db w').
Proof.
  intros Hstep Hinv. pose proof Hinv as (Hu & He & Hd & Hw & Hm & Hn & Hmail).
  destruct Hstep as [c|data Hname Hfree| |userId data _|id userId _
                    |userId date sc insight _ _|userId r c _|userId _].
  - exact Hinv.
  - unfold primaryKeys, withNewUser.
    cbn [db users productivityEntries dailyScores weeklyScores chatMessages
         with_users rows].
    split; [apply keysOk_append; [exact Hu | reflexivity]|].
    do 4 (split; [assumption|]). split.
    + apply (NoDup_snoc_filter username); [exact Hn | exact Hname].
    + apply (NoDup_snoc_filter email); [exact Hmail | exact Hfree].
  - unfold primaryKeys, withRefusedUser.
    cbn [db users productivityEntries dailyScores weeklyScores chatMessages
         with_users rows].
    split; [apply keysOk_skip; exact Hu|].
    do 5 (split; [assumption|]). assumption.
  - rewrite createProductivityEntry_run. cbv zeta. unfold primaryKeys.
    cbn [snd db users productivityEntries dailyScores weeklyScores chatMessages
         with_productivityEntries rows].
    split; [assumption|]. split; [apply keysOk_append; [exact He | reflexivity]|].
    do 4 (split; [assumption|]). assumption.
  - destruct (deleteEntry_cases id userId w) as [[_ ->]|(key & _ & ->)]; [exact Hinv|].
    unfold primaryKeys.
    cbn [snd db users productivityEntries dailyScores weeklyScores chatMessages
         with_productivityEntries rows].
    split; [assumption|]. split; [apply keysOk_filter; exact He|].
    do 4 (split; [assumption|]). assumption.
  - rewrite scoreDay_run. cbv zeta.
    pose proof (saveDailyScore_frame userId date sc insight w) as Hf. cbv zeta in Hf.
    pose proof (saveDailyScore_keys userId date sc insight w Hd) as Hd2.
    set (w2 := snd (saveDailyScore userId date sc insight w)) in *.
    destruct Hf as (Fu & Fe & Fw & Fm & _ & _).
    assert (H2 : primaryKeys (db w2)).
    { unfold primaryKeys. rewrite Fu, Fe, Fw, Fm.
      do 6 (split; [assumption|]). assumption. }
    destruct (decide _) as [_|_]; [exact H2|].
    match goal with
    | |- primaryKeys (db (snd (saveWeeklyScore ?u ?s ?e ?a ?n w2))) =>
        pose proof (saveWeeklyScore_frame u s e a n w2) as Hf2; cbv zeta in Hf2;
        pose proof (saveWeeklyScore_keys u s e a n w2) as Hk2;
        set (w3 := snd (saveWeeklyScore u s e a n w2)) in *
    end.
    destruct H2 as (Hu2 & He2 & Hd3 & Hw2 & Hm2 & Hn2 & Hmail2).
    destruct Hf2 as (Gu & Ge & Gd & Gm & _ & _).
    unfold primaryKeys. rewrite Gu, Ge, Gd, Gm.
    do 3 (split; [assumption|]). split; [exact (Hk2 Hw2)|].
    do 2 (split; [assumption|]). assumption.
  - rewrite saveChatMessage_run. cbv zeta. unfold primaryKeys.
    cbn [snd db users productivityEntries dailyScores weeklyScores chatMessages
         with_chatMessages rows].
    do 4 (split; [assumption|]).
    split; [apply keysOk_append; [exact Hm | reflexivity]|].
    split; assumption.
  - rewrite clearChatMessages_run. cbv zeta. unfold primaryKeys.
    cbn [snd db users productivityEntries dailyScores weeklyScores chatMessages
         with_chatMessages rows].
    do 4 (split; [assumption|]).
    split; [apply keysOk_filter; exact Hm|].
    split; assumption.
Qed.

(** *** Owners *)

(** Every entry, score and chat message belongs to a stored user. *)
Definition ownersKnown (st : Store) : Prop :=
  (forall e, e ∈ rows (productivityEntries st) -> knownUser st (entry_userId e))
  /\ (forall r, r ∈ rows (dailyScores st) -> knownUser st (ds_userId r))
  /\ (forall r, r ∈ rows (weeklyScores st) -> knownUser st (ws_userId r))
  /\ (forall m, m ∈ rows (chatMessages st) -> knownUser st (msg_userId m)).

Lemma knownUser_users (st st' : Store) (userId : Z) :
  users st' = users st -> knownUser st userId -> knownUser st' userId.
Proof. unfold knownUser. intros ->. auto. Qed.

Lemma ownersKnown_users (st st' : Store) :
  users st' = users st ->
  productivityEntries st' = productivityEntries st ->
  dailyScores st' = dailyScores st ->
  weeklyScores st' = weeklyScores st ->
  chatMessages st' = chatMessages st ->
  ownersKnown st -> ownersKnown st'.
Proof.
  intros Hu He Hd Hw Hm (Oe & Od & Ow & Om). unfold ownersKnown.
  rewrite He, Hd, Hw, Hm.
  repeat split; intros x Hx; apply (knownUser_users st); auto.
Qed.

Lemma saveDailyScore_owners (userId date : Z) (sc : Q) (insight : string) (w : World) :
  knownUser (db w) userId ->
  (forall r, r ∈ rows (dailyScores (db w)) -> knownUser (db w) (ds_userId r)) ->
  forall r, r ∈ rows (dailyScores (db (snd (saveDailyScore userId date sc insight w)))) ->
            knownUser (db w) (ds_userId r).
Proof.
  intros Hk Hall r.
  destruct (saveDailyScore_rows userId date sc insight w)
    as [(_ & Hr & _) | (_ & Hr & _)]; cbv zeta in Hr; rewrite Hr; intros Hin.
  - apply list_elem_of_fmap in Hin as (r0 & -> & Hin).
    destruct (decide _); apply (Hall r0 Hin).
  - apply elem_of_app in Hin as [Hin|Hin]; [exact (Hall r Hin)|].
    apply list_elem_of_singleton in Hin as ->. exact Hk.
Qed.

Lemma saveWeeklyScore_owners (userId wkStart wkEnd : Z) (avg : Q) (total : Z)
    (w : World) :
  knownUser (db w) userId ->
  (forall r, r ∈ rows (weeklyScores (db w)) -> knownUser (db w) (ws_userId r)) ->
  forall r,
    r ∈ rows (weeklyScores (db (snd (saveWeeklyScore userId wkStart wkEnd avg total w)))) ->
    knownUser (db w) (ws_userId r).
Proof.
  intros Hk Hall r.
  destruct (saveWeeklyScore_rows userId wkStart wkEnd avg total w)
    as [(_ & Hr & _) | (_ & Hr & _)]; cbv zeta in Hr; rewrite Hr; intros Hin.
  - apply list_elem_of_fmap in Hin as (r0 & -> & Hin).
    destruct (decide _); apply (Hall r0 Hin).
  - apply elem_of_app in Hin as [Hin|Hin]; [exact (Hall r Hin)|].
    apply list_elem_of_singleton in Hin as ->. exact Hk.
Qed.

Lemma writes_ownersKnown (actor : option Z) (w w' : World) :
  writes actor w w' -> knownSession (db w) actor ->
  ownersKnown (db w) -> ownersKnown (db w').
Proof.
  intros Hstep Hknown Hinv. pose proof Hinv as (Oe & Od & Ow & Om).
  assert (Huser : forall userId, actor = Some userId -> knownUser (db w) userId).
  { intros userId ->. exact Hknown. }
  destruct Hstep as [c|data Hname Hfree| |userId data Hk|id userId _
                    |userId date sc insight Hk _|userId r c Hk|userId _];
    try apply Huser in Hk.
  - exact Hinv.
  - assert (Hmono : forall u, knownUser (db w) u -> knownUser (db (withNewUser data w)) u).
    { intros u (x & Hx & Hid). exists x. split; [|exact Hid].
      cbn. apply elem_of_app. left. exact Hx. }
    unfold ownersKnown.
    cbn [withNewUser db productivityEntries dailyScores weeklyScores chatMessages
         with_users].
    repeat split; intros x Hx; apply Hmono; auto.
  - assert (Hmono : forall u, knownUser (db w) u -> knownUser (db (withRefusedUser w)) u)
      by (intros u (x & Hx & Hid); exists x; split; [exact Hx | exact Hid]).
    unfold ownersKnown.
    cbn [withRefusedUser db productivityEntries dailyScores weeklyScores chatMessages
         with_users].
    repeat split; intros x Hx; apply Hmono; auto.
  - rewrite createProductivityEntry_run. cbv zeta. unfold ownersKnown.
    cbn [snd db users productivityEntries dailyScores weeklyScores chatMessages
         with_productivityEntries rows].
    split; [|split; [|split]]; try (intros x Hx; apply (knownUser_users (db w)); auto; fail).
    intros e He. apply (knownUser_users (db w)); [reflexivity|].
    apply elem_of_app in He as [He|He]; [exact (Oe e He)|].
    apply list_elem_of_singleton in He as ->. exact Hk.
  - destruct (deleteEntry_cases id userId w) as [[_ ->]|(key & _ & ->)]; [exact Hinv|].
    unfold ownersKnown.
    cbn [snd db users productivityEntries dailyScores weeklyScores chatMessages
         with_productivityEntries rows].
    split; [|split; [|split]]; try (intros x Hx; apply (knownUser_users (db w)); auto; fail).
    intros e He. apply (knownUser_users (db w)); [reflexivity|].
    apply list_elem_of_filter in He as [_ He]. exact (Oe e He).
  - rewrite scoreDay_run. cbv zeta.
    pose proof (saveDailyScore_frame userId date sc insight w) as Hf. cbv zeta in Hf.
    pose proof (saveDailyScore_owners userId date sc insight w Hk Od) as Hd2.
    set (w2 := snd (saveDailyScore userId date sc insight w)) in *.
    destruct Hf as (Fu & Fe & Fw & Fm & _ & _).
    assert (K2 : forall u, knownUser (db w) u -> knownUser (db w2) u)
      by (intros u; apply knownUser_users; exact Fu).
    assert (H2 : ownersKnown (db w2)).
    { unfold ownersKnown. rewrite Fe, Fw, Fm.
      repeat split; intros x Hx; apply K2; auto. }
    destruct (decide _) as [_|_]; [exact H2|].
    match goal with
    | |- ownersKnown (db (snd (saveWeeklyScore ?u ?s ?e ?a ?n w2))) =>
        pose proof (saveWeeklyScore_frame u s e a n w2) as Hf2; cbv zeta in Hf2;
        pose proof (saveWeeklyScore_owners u s e a n w2) as Hk2;
        set (w3 := snd (saveWeeklyScore u s e a n w2)) in *
    end.
    destruct H2 as (Oe2 & Od2 & Ow2 & Om2).
    destruct Hf2 as (Gu & Ge & Gd & Gm & _ & _).
    assert (K3 : forall u, knownUser (db w2) u -> knownUser (db w3) u)
      by (intros u; apply knownUser_users; exact Gu).
    unfold ownersKnown. rewrite Ge, Gd, Gm.
    repeat split; intros x Hx; apply K3; auto.
  - rewrite saveChatMessage_run. cbv zeta. unfold ownersKnown.
    cbn [snd db users productivityEntries dailyScores weeklyScores chatMessages
         with_chatMessages rows].
    split; [|split; [|split]]; try (intros x Hx; apply (knownUser_users (db w)); auto; fail).
    intros m Hin. apply (knownUser_users (db w)); [reflexivity|].
    apply elem_of_app in Hin as [Hin|Hin]; [exact (Om m Hin)|].
    apply list_elem_of_singleton in Hin as ->. exact Hk.
  - rewrite clearChatMessages_run. cbv zeta. unfold ownersKnown.
    cbn [snd db users productivityEntries dailyScores weeklyScores chatMessages
         with_chatMessages rows].
    split; [|split; [|split]]; try (intros x Hx; apply (knownUser_users (db w)); auto; fail).
    intros m Hin. apply (knownUser_users (db w)); [reflexivity|].
    apply list_elem_of_filter in Hin as [_ Hin]. exact (Om m Hin).
Qed.

(** *** Induction over the served worlds *)

(** A session that names a stored user keeps doing so. *)
Lemma writes_known (actor sess : option Z) (w w' : World) :
  writes actor w w' -> knownSession (db w) sess -> knownSession (db w') sess.
Proof.
  intros Hstep. destruct sess as [userId|]; [|auto]. cbn [knownSession].
  assert (Hsame : users (db w') = users (db w) ->
                  (exists u, u ∈ rows (users (db w)) /\ user_id u = userId) ->
                  exists u, u ∈ rows (users (db w')) /\ user_id u = userId)
    by (intros ->; auto).
  destruct Hstep as [c|data Hname Hfree| |u data _|id u _
                    |u date sc insight _ _|u r c _|u _];
    try (apply Hsame; reflexivity).
  - intros (x & Hx & Hid). exists x. split; [|exact Hid].
    cbn. apply elem_of_app. left. exact Hx.
  - intros (x & Hx & Hid). exists x. split; [exact Hx | exact Hid].
  - apply Hsame.
    destruct (deleteEntry_cases id u w) as [[_ ->]|(key & _ & ->)]; reflexivity.
  - apply Hsame. rewrite scoreDay_run. cbv zeta.
    pose proof (saveDailyScore_frame u date sc insight w) as Hf. cbv zeta in Hf.
    destruct Hf as (Fu & _). destruct (decide _); [exact Fu|].
    match goal with
    | |- users (db (snd (saveWeeklyScore ?a ?b ?c ?d ?e ?x))) = _ =>
        pose proof (saveWeeklyScore_frame a b c d e x) as Hf2; cbv zeta in Hf2;
        destruct Hf2 as (Gu & _); rewrite Gu; exact Fu
    end.
Qed.

Lemma writesMany_invariant (I : World -> Prop) (actor : option Z) :
  (forall w w', writes actor w w' -> knownSession (db w) actor -> I w -> I w') ->
  forall w w', writesMany actor w w' -> knownSession (db w) actor -> I w -> I w'.
Proof.
  intros Hstep w w' Hmany. induction Hmany as [w|w w1 w2 H1 _ IH]; [auto|].
  intros Hknown Hw. apply IH.
  - exact (writes_known actor actor w w1 H1 Hknown).
  - exact (Hstep w w1 H1 Hknown Hw).
Qed.

Lemma served_invariant (I : World -> Prop) :
  (forall t, I {| db := emptyStore; clock := t; aiLog := [] |}) ->
  (forall w t, I w -> clock w <= t -> I {| db := db w; clock := t; aiLog := aiLog w |}) ->
  (forall actor w w', writes actor w w' -> knownSession (db w) actor -> I w -> I w') ->
  forall w, served w -> I w.
Proof.
  intros Hstart Htick Hstep w Hserved.
  induction Hserved as [t|w t _ IH Ht|w sess req _ IH Hknown].
  - apply Hstart.
  - apply Htick; assumption.
  - destruct (handle_writes sess req w) as [_ Hmany].
    exact (writesMany_invariant I sess (Hstep sess) _ _ Hmany Hknown IH).
Qed.

Lemma emptyStore_primaryKeys : primaryKeys emptyStore.
Proof.
  unfold primaryKeys, keysOk, emptyStore, emptyTable. cbn.
  repeat split; try constructor; intros r Hr; inversion Hr.
Qed.

Lemma emptyStore_ownersKnown : ownersKnown emptyStore.
Proof. repeat split; intros r Hr; inversion Hr. Qed.

Lemma served_primaryKeys (w : World) : served w -> primaryKeys (db w).
Proof.
  apply (served_invariant (fun w => primaryKeys (db w))).
  - intros t. apply emptyStore_primaryKeys.
  - auto.
  - intros actor w0 w' Hstep _. exact (writes_primaryKeys actor w0 w' Hstep).
Qed.

Lemma served_ownersKnown (w : World) : served w -> ownersKnown (db w).
Proof.
  apply (served_invariant (fun w => ownersKnown (db w))).
  - intros t. apply emptyStore_ownersKnown.
  - auto.
  - apply writes_ownersKnown.
Qed.

(** ** Scores stay in range *)

(** The computed week always spans seven days, whatever the zone. *)
Lemma getWeekBounds_span (off now : Z) (dateStr : option Z) :
  weekEnd (getWeekBounds off now dateStr) = weekStart (getWeekBounds off now dateStr) + 6.
Proof.
  pose proof (getWeekBounds_eq off now dateStr) as H. cbv zeta in H.
  rewrite H. cbn [weekStart weekEnd]. lia.
Qed.






(** ** What a save leaves alone *)

Lemma filter_fmap_outside {A} (P K : A -> Prop) `{!forall x, Decision (P x)}
    `{!forall x, Decision (K x)} (f : A -> A) (l : list A) :
  (forall x, K x -> ~ P x /\ ~ P (f x)) ->
  filter P ((fun x => if decide (K x) then f x else x) <$> l) = filter P l.
Proof.
  intros Hout. induction l as [|a l IH]; [reflexivity|].
  rewrite fmap_cons, !filter_cons, IH.
  destruct (decide (K a)) as [Hk|Hk]; [|reflexivity].
  destruct (Hout a Hk) as [H1 H2].
  rewrite !decide_False by assumption. reflexivity.
Qed.

Lemma filter_snoc_outside {A} (P : A -> Prop) `{!forall x, Decision (P x)}
    (l : list A) (a : A) :
  ~ P a -> filter P (l ++ [a])%list = filter P l.
Proof.
  intros Ha. rewrite filter_app, filter_cons, decide_False by exact Ha.
  apply app_nil_r.
Qed.

(** Saving a daily score changes no rows but those of its key. *)
Lemma saveDailyScore_other_weeks (userId date : Z) (sc : Q) (insight : string)
    (w : World) (P : DailyScore -> Prop) `{!forall x, Decision (P x)} :
  (forall r, P r -> ~ (ds_userId r = userId /\ ds_date r = date)) ->
  (forall r, P (setDaily sc insight r) -> P r) ->
  filter P (rows (dailyScores (db (snd (saveDailyScore userId date sc insight w)))))
  = filter P (rows (dailyScores (db w))).
Proof.
  intros Hout Hset.
  destruct (saveDailyScore_rows userId date sc insight w)
    as [(_ & Hr & _) | (_ & Hr & _)]; cbv zeta in Hr; rewrite Hr.
  - apply filter_fmap_outside. intros r Hk. split.
    + intros HP. exact (Hout r HP Hk).
    + intros HP. exact (Hout r (Hset r HP) Hk).
  - apply filter_snoc_outside. intros HP. apply (Hout _ HP). split; reflexivity.
Qed.

(** ** The leaderboard *)

#[global] Instance qcol_ge_total {R} (col : R -> Q) : Total (qcol_ge col).
Proof.
  intros x y. unfold qcol_ge.
  destruct (Qlt_le_dec (col x) (col y)) as [H|H]; [right|left]; auto.
  apply Qlt_le_weak, H.
Qed.

#[global] Instance qcol_ge_trans {R} (col : R -> Q) : Transitive (qcol_ge col).
Proof. intros x y z. unfold qcol_ge. intros H1 H2. exact (Qle_trans _ _ _ H2 H1). Qed.


Lemma NoDup_fmap_inj {A B} (f : A -> B) (l : list A) (x y : A) :
  NoDup (f <$> l) -> x ∈ l -> y ∈ l -> f x = f y -> x = y.
Proof.
  induction l as [|a l IH]; [intros _ Hx; inversion Hx|].
  rewrite fmap_cons, NoDup_cons. intros [Ha Hl] Hx Hy Hf.
  apply elem_of_cons in Hx as [->|Hx]; apply elem_of_cons in Hy as [->|Hy].
  - reflexivity.
  - exfalso. apply Ha. apply list_elem_of_fmap. exists y. auto.
  - exfalso. apply Ha. apply list_elem_of_fmap. exists x. auto.
  - exact (IH Hl Hx Hy Hf).
Qed.


(** ** Entries *)

(** X10. Listing entries.  For a signed-in user, GET /api/entries/range
    answers with exactly the user's entries dated from [start] to [end]
    inclusive, most recently created first, and so with none when [end]
    precedes [start]; without [start] or without [end] it answers 400.  GET
    /api/entries for a date answers as the range route does for that date
    as both bounds, and without a date it takes today's UTC date.  Neither
    route changes the world. *)
Theorem entry_listings (userId : Z) (w : World) :
  userId <> 0 ->
  (forall start end_,
     exists listed,
       getEntriesRange (Some userId) (Some start) (Some end_) w
       = (inr (Json 200 (JSArray (entryObject <$> listed))), w)
       /\ listed ≡ₚ filter (fun e => entry_userId e = userId
                                     /\ start <= entry_date e /\ entry_date e <= end_)
                           (rows (productivityEntries (db w)))
       /\ StronglySorted (fun a b => entry_createdAt b <= entry_createdAt a) listed
       /\ (end_ < start -> listed = []))
  /\ (forall start end_,
        start = None \/ end_ = None ->
        getEntriesRange (Some userId) start end_ w
        = (inr (Json 400 (message "start and end dates required")), w))
  /\ (forall date,
        getEntries (Some userId) (Some date) w
        = getEntriesRange (Some userId) (Some date) (Some date) w)
  /\ getEntries (Some userId) None w
     = getEntries (Some userId) (Some (JSDate.toISODate (clock w))) w.
Proof.
  intros Hauth. unfold getEntriesRange, getEntries, requireAuth.
  destruct (Z.eqb_spec userId 0) as [|_]; [contradiction|].
  split; [|split; [|split]].
  - intros start end_.
    cbv [tryCatch bind getEntriesByDateRange getDb ret db_select].
    eexists. split; [reflexivity|]. split; [apply merge_sort_Permutation|].
    split; [apply (StronglySorted_merge_sort (col_ge entry_createdAt))|].
    intros Hempty. rewrite filter_none; [reflexivity|].
    intros e _ (_ & Hlo & Hhi). lia.
  - intros start end_ [-> | ->]; [|destruct start]; reflexivity.
  - intros date.
    cbv [tryCatch bind dateOrToday getClock getEntriesByDate getEntriesByDateRange
         getDb ret db_select].
    do 6 f_equal. apply list_filter_iff. intros e. lia.
  - reflexivity.
Qed.




(** ** Requests write only the requester's rows *)

(** The entries, daily scores, weekly scores and chat messages of a user. *)
Definition rowsOf (userId : Z) (st : Store)
  : list ProductivityEntry * list DailyScore * list WeeklyScore * list ChatMessage :=
  (filter (fun e => entry_userId e = userId) (rows (productivityEntries st)),
   filter (fun r => ds_userId r = userId) (rows (dailyScores st)),
   filter (fun r => ws_userId r = userId) (rows (weeklyScores st)),
   filter (fun m => msg_userId m = userId) (rows (chatMessages st))).

Lemma saveWeeklyScore_others (userId wkStart wkEnd : Z) (avg : Q) (total : Z)
    (w : World) (P : WeeklyScore -> Prop) `{!forall x, Decision (P x)} :
  (forall r, P r -> ~ (ws_userId r = userId /\ ws_weekStart r = wkStart)) ->
  (forall r, P (setWeekly avg total r) -> P r) ->
  filter P (rows (weeklyScores
                    (db (snd (saveWeeklyScore userId wkStart wkEnd avg total w)))))
  = filter P (rows (weeklyScores (db w))).
Proof.
  intros Hout Hset.
  destruct (saveWeeklyScore_rows userId wkStart wkEnd avg total w)
    as [(_ & Hr & _) | (_ & Hr & _)]; cbv zeta in Hr; rewrite Hr.
  - apply filter_fmap_outside. intros r Hk. split.
    + intros HP. exact (Hout r HP Hk).
    + intros HP. exact (Hout r (Hset r HP) Hk).
  - apply filter_snoc_outside. intros HP. apply (Hout _ HP). split; reflexivity.
Qed.

Lemma rowsOf_eq (v : Z) (st st' : Store) :
  filter (fun e => entry_userId e = v) (rows (productivityEntries st'))
  = filter (fun e => entry_userId e = v) (rows (productivityEntries st)) ->
  filter (fun r => ds_userId r = v) (rows (dailyScores st'))
  = filter (fun r => ds_userId r = v) (rows (dailyScores st)) ->
  filter (fun r => ws_userId r = v) (rows (weeklyScores st'))
  = filter (fun r => ws_userId r = v) (rows (weeklyScores st)) ->
  filter (fun m => msg_userId m = v) (rows (chatMessages st'))
  = filter (fun m => msg_userId m = v) (rows (chatMessages st)) ->
  rowsOf v st' = rowsOf v st.
Proof. unfold rowsOf. intros -> -> -> ->. reflexivity. Qed.

Lemma writes_rowsOf (actor : option Z) (w w' : World) (v : Z) :
  writes actor w w' -> actor <> Some v ->
  rowsOf v (db w') = rowsOf v (db w)
  /\ exists new, rows (users (db w')) = (rows (users (db w)) ++ new)%list.
Proof.
  intros Hstep Hother.
  assert (Hne : forall u, actor = Some u -> u <> v) by (intros u -> ->; congruence).
  destruct Hstep as [c|data Hname Hfree| |u data Hu|id u Hu
                    |u date sc insight Hu _|u r c Hu|u Hu];
    try apply Hne in Hu.
  - split; [reflexivity|]. exists []. symmetry. apply app_nil_r.
  - split; [reflexivity|]. eexists. reflexivity.
  - split; [reflexivity|]. exists []. symmetry. apply app_nil_r.
  - rewrite createProductivityEntry_run. cbv zeta. cbn [snd db].
    split; [|exists []; symmetry; apply app_nil_r].
    apply rowsOf_eq; try reflexivity.
    cbn [productivityEntries with_productivityEntries rows].
    apply filter_snoc_outside. exact Hu.
  - destruct (deleteEntry_cases id u w) as [[_ ->]|(key & _ & ->)];
      [split; [reflexivity|]; exists []; symmetry; apply app_nil_r|].
    cbn [snd db].
    split; [|exists []; symmetry; apply app_nil_r].
    apply rowsOf_eq; try reflexivity.
    cbn [productivityEntries with_productivityEntries rows].
    apply filter_filter_all. intros e He [_ Hown]. apply Hu. congruence.
  - rewrite scoreDay_run. cbv zeta.
    pose proof (saveDailyScore_frame u date sc insight w) as Hf. cbv zeta in Hf.
    pose proof (saveDailyScore_other_weeks u date sc insight w
                  (fun r => ds_userId r = v)) as Hd.
    set (w2 := snd (saveDailyScore u date sc insight w)) in *.
    destruct Hf as (Fu & Fe & Fw & Fm & _ & _).
    assert (H2 : rowsOf v (db w2) = rowsOf v (db w)).
    { apply rowsOf_eq; [rewrite Fe; reflexivity| |rewrite Fw; reflexivity
                       |rewrite Fm; reflexivity].
      apply Hd; [|auto]. intros r Hr [Hr' _]. apply Hu. congruence. }
    destruct (decide _) as [_|_].
    { split; [exact H2|]. exists []. rewrite Fu. symmetry. apply app_nil_r. }
    match goal with
    | |- context [saveWeeklyScore ?a ?b ?c ?d ?e w2] =>
        pose proof (saveWeeklyScore_frame a b c d e w2) as Hf2; cbv zeta in Hf2;
        pose proof (saveWeeklyScore_others a b c d e w2 (fun r => ws_userId r = v)) as Hw;
        set (w3 := snd (saveWeeklyScore a b c d e w2)) in *
    end.
    destruct Hf2 as (Gu & Ge & Gd & Gm & _ & _).
    split; [|exists []; rewrite Gu, Fu; symmetry; apply app_nil_r].
    rewrite <- H2. apply rowsOf_eq; [rewrite Ge; reflexivity|rewrite Gd; reflexivity|
                                     |rewrite Gm; reflexivity].
    apply Hw; [|auto]. intros r Hr [Hr' _]. apply Hu. congruence.
  - rewrite saveChatMessage_run. cbv zeta. cbn [snd db].
    split; [|exists []; symmetry; apply app_nil_r].
    apply rowsOf_eq; try reflexivity.
    cbn [chatMessages with_chatMessages rows].
    apply filter_snoc_outside. exact Hu.
  - rewrite clearChatMessages_run. cbv zeta. cbn [snd db].
    split; [|exists []; symmetry; apply app_nil_r].
    apply rowsOf_eq; try reflexivity.
    cbn [chatMessages with_chatMessages rows].
    apply filter_filter_all. intros m Hm Hown. apply Hu. congruence.
Qed.

(** X12. No request writes another user's data.  Whatever the request and
    the state of the server, the entries, daily scores, weekly scores and
    chat messages of every user other than the one the session names are,
    row for row, what they were before the request; and the stored users
    are kept as they are, rows only being added after them. *)
Theorem requests_write_own_rows_only (sess : option Z) (req : Request) (w : World)
    (other : Z) :
  sess <> Some other ->
  let w' := snd (handle sess req w) in
  rowsOf other (db w') = rowsOf other (db w)
  /\ exists new, rows (users (db w')) = (rows (users (db w)) ++ new)%list.
Proof.
  intros Hother w'. subst w'.
  destruct (handle_writes sess req w) as [_ Hmany].
  induction Hmany as [w0|w0 w1 w2 H1 _ IH].
  - split; [reflexivity|]. exists []. symmetry. apply app_nil_r.
  - destruct (writes_rowsOf sess w0 w1 other H1 Hother) as [E1 [n1 U1]].
    destruct IH as [E2 [n2 U2]].
    split; [rewrite E2; exact E1|].
    exists (n1 ++ n2)%list. rewrite U2, U1. symmetry. apply app_assoc.
Qed.

(** ** What holds in every world the HTTP interface can bring about *)


(** X15. Owners and keys.  Whatever requests have been served, every entry,
    daily score, weekly score and chat message belongs to a stored user,
    and no two users share an identifier, a user name or an e-mail
    address; within each table the identifiers are distinct. *)
Theorem served_owners_and_keys (w : World) :
  served w ->
  ((forall e, e ∈ rows (productivityEntries (db w)) ->
              exists u, u ∈ rows (users (db w)) /\ user_id u = entry_userId e)
   /\ (forall r, r ∈ rows (dailyScores (db w)) ->
                 exists u, u ∈ rows (users (db w)) /\ user_id u = ds_userId r)
   /\ (forall r, r ∈ rows (weeklyScores (db w)) ->
                 exists u, u ∈ rows (users (db w)) /\ user_id u = ws_userId r)
   /\ (forall m, m ∈ rows (chatMessages (db w)) ->
                 exists u, u ∈ rows (users (db w)) /\ user_id u = msg_userId m))
  /\ NoDup (user_id <$> rows (users (db w)))
  /\ NoDup (username <$> rows (users (db w)))
  /\ NoDup (email <$> rows (users (db w)))
  /\ NoDup (entry_id <$> rows (productivityEntries (db w)))
  /\ NoDup (ds_id <$> rows (dailyScores (db w)))
  /\ NoDup (ws_id <$> rows (weeklyScores (db w)))
  /\ NoDup (msg_id <$> rows (chatMessages (db w))).
Proof.
  intros Hserved.
  pose proof (served_ownersKnown w Hserved) as Hown.
  pose proof (served_primaryKeys w Hserved)
    as ((Hu & _) & (He & _) & (Hd & _) & (Hw & _) & (Hm & _) & Hn & Hmail).
  split; [exact Hown|]. auto 10.
Qed.

(** ** The upserts as operations *)

Lemma store_eq (st st' : Store) :
  users st' = users st -> productivityEntries st' = productivityEntries st ->
  dailyScores st' = dailyScores st -> weeklyScores st' = weeklyScores st ->
  chatMessages st' = chatMessages st -> st' = st.
Proof. destruct st, st'; cbn; intros -> -> -> -> ->; reflexivity. Qed.

Lemma fmap_update_twice {A} (K : A -> Prop) `{!forall x, Decision (K x)}
    (f g : A -> A) (l : list A) :
  (forall x, K x -> K (f x)) ->
  (fun x => if decide (K x) then g x else x)
    <$> ((fun x => if decide (K x) then f x else x) <$> l)
  = (fun x => if decide (K x) then g (f x) else x) <$> l.
Proof.
  intros Hk. rewrite <- list_fmap_compose. apply list_fmap_ext. intros i x _. cbn.
  destruct (decide (K x)) as [Hx|Hx].
  - rewrite decide_True by exact (Hk x Hx). reflexivity.
  - rewrite decide_False by exact Hx. reflexivity.
Qed.

Lemma fmap_update_none {A} (K : A -> Prop) `{!forall x, Decision (K x)}
    (f : A -> A) (l : list A) :
  filter K l = [] -> (fun x => if decide (K x) then f x else x) <$> l = l.
Proof.
  intros Hnone. rewrite <- (list_fmap_id l) at 2. apply list_fmap_ext.
  intros i x Hx. cbn. destruct (decide (K x)) as [HK|HK]; [|reflexivity].
  exfalso. assert (Hin : x ∈ filter K l).
  { apply list_elem_of_filter. split; [exact HK|]. eapply list_elem_of_lookup_2, Hx. }
  rewrite Hnone in Hin. inversion Hin.
Qed.

Lemma filter_update_key {A} (K : A -> Prop) `{!forall x, Decision (K x)}
    (f : A -> A) (l : list A) :
  (forall x, K x -> K (f x)) -> filter K l <> [] ->
  filter K ((fun x => if decide (K x) then f x else x) <$> l) <> [].
Proof.
  intros Hk Hne. apply filter_nonempty in Hne as (x & Hx & HK).
  apply filter_nonempty. exists (f x). split; [|exact (Hk x HK)].
  apply list_elem_of_fmap. exists x. rewrite decide_True by exact HK. auto.
Qed.

(** The cases of a lemma stated under local definitions. *)
Tactic Notation "cases_of" constr(lem) "as" simple_intropattern(pat) :=
  let H := fresh in pose proof lem as H; cbv zeta in H; destruct H as pat.

(** X16. The last write wins.  Saving a daily score for a (user, date) and
    then saving another for the same key leaves the database exactly as
    saving only the second does: the same rows with the same identifiers,
    in the same order.  In particular saving the same score twice is
    saving it once. *)
Theorem saveDailyScore_last_write_wins (userId date : Z) (s1 s2 : Q)
    (i1 i2 : string) (w : World) :
  db (snd (saveDailyScore userId date s2 i2
             (snd (saveDailyScore userId date s1 i1 w))))
  = db (snd (saveDailyScore userId date s2 i2 w)).
Proof.
  pose proof (saveDailyScore_frame userId date s1 i1 w) as F1.
  pose proof (saveDailyScore_frame userId date s2 i2 w) as F2.
  cbv zeta in F1, F2.
  set (w1 := snd (saveDailyScore userId date s1 i1 w)) in *.
  pose proof (saveDailyScore_frame userId date s2 i2 w1) as F12. cbv zeta in F12.
  destruct F1 as (U1 & E1 & W1 & M1 & C1 & _).
  destruct F2 as (U2 & E2 & W2 & M2 & _ & _).
  destruct F12 as (U3 & E3 & W3 & M3 & _ & _).
  apply store_eq; [congruence..| |congruence|congruence].
  apply table_eq.
  - cases_of (saveDailyScore_rows userId date s1 i1 w)
      as [(Hex & R1 & _) | (Hnone & R1 & _)]; fold w1 in R1.
    + cases_of (saveDailyScore_rows userId date s2 i2 w)
        as [(_ & R2 & _) | (Hnone & _)]; [|contradiction].
      cases_of (saveDailyScore_rows userId date s2 i2 w1)
        as [(_ & R3 & _) | (Hnone & _)].
      * rewrite R3, R1, R2. rewrite fmap_update_twice by auto. reflexivity.
      * exfalso. rewrite R1 in Hnone. revert Hnone.
        apply (filter_update_key (dailyKey userId date)); auto.
    + cases_of (saveDailyScore_rows userId date s2 i2 w)
        as [(Hex & _) | (_ & R2 & _)]; [contradiction|].
      cases_of (saveDailyScore_rows userId date s2 i2 w1)
        as [(_ & R3 & _) | (Hnone' & _)].
      * rewrite R3, R1, R2. rewrite fmap_app.
        rewrite fmap_update_none by exact Hnone. cbn.
        rewrite decide_True by (split; reflexivity). reflexivity.
      * exfalso. rewrite R1 in Hnone'. rewrite filter_app in Hnone'.
        apply app_eq_nil in Hnone' as [_ Hn]. rewrite filter_cons in Hn.
        rewrite decide_True in Hn by (split; reflexivity). discriminate Hn.
  - cases_of (saveDailyScore_rows userId date s1 i1 w)
      as [(Hex & R1 & N1) | (Hnone & R1 & N1)]; fold w1 in R1, N1.
    + cases_of (saveDailyScore_rows userId date s2 i2 w)
        as [(_ & _ & N2) | (Hnone & _)]; [|contradiction].
      cases_of (saveDailyScore_rows userId date s2 i2 w1)
        as [(_ & _ & N3) | (Hnone & _)].
      * congruence.
      * exfalso. rewrite R1 in Hnone. revert Hnone.
        apply (filter_update_key (dailyKey userId date)); auto.
    + cases_of (saveDailyScore_rows userId date s2 i2 w)
        as [(Hex & _) | (_ & _ & N2)]; [contradiction|].
      cases_of (saveDailyScore_rows userId date s2 i2 w1)
        as [(_ & _ & N3) | (Hnone' & _)].
      * congruence.
      * exfalso. rewrite R1 in Hnone'. rewrite filter_app in Hnone'.
        apply app_eq_nil in Hnone' as [_ Hn]. rewrite filter_cons in Hn.
        rewrite decide_True in Hn by (split; reflexivity). discriminate Hn.
Qed.

(** ** The week of a date, by time zone *)

Lemma localMonday_sunday (l : Z) :
  l = localMonday l + 6 <-> weekdayOf l = 0.
Proof.
  unfold localMonday, weekdayOf.
  pose proof (Z.mod_pos_bound (l + 4) 7 ltac:(lia)) as Hb.
  destruct (Z.eqb_spec ((l + 4) mod 7) 0); lia.
Qed.

Lemma weekdayOf_pred (l : Z) : weekdayOf (l - 1) = 0 <-> weekdayOf l = 1.
Proof. unfold weekdayOf. split; intros H; Z.div_mod_to_equations; lia. Qed.

(** X17. Which week [getWeekBounds] returns for a date, by the server's time
    zone (any constant offset of less than a day).  The range always spans
    seven days.  In UTC it is the Monday to Sunday week that holds the
    date.  East of UTC it runs from the Sunday before that week's Monday to
    the Saturday, so it holds the date unless the date is a Sunday.  West
    of UTC it is the Monday to Sunday week of the day before, so it holds
    the date unless the date is a Monday. *)
Theorem getWeekBounds_by_zone (off now date : Z) :
  - JSDate.msPerDay < off < JSDate.msPerDay ->
  let wb := getWeekBounds off now (Some date) in
  weekEnd wb = weekStart wb + 6
  /\ (off = 0 ->
      weekdayOf (weekStart wb) = 1 /\ weekStart wb <= date <= weekEnd wb)
  /\ (0 < off ->
      weekdayOf (weekStart wb) = 0
      /\ (weekStart wb <= date <= weekEnd wb <-> weekdayOf date <> 0))
  /\ (off < 0 ->
      weekdayOf (weekStart wb) = 1
      /\ (weekStart wb <= date <= weekEnd wb <-> weekdayOf date <> 1)).
Proof.
  intros Hoff wb.
  pose proof (getWeekBounds_eq off now (Some date)) as Heq. cbv beta iota zeta in Heq.
  fold wb in Heq.
  assert (Hday : JSDate.Day (JSDate.parseISODate date + off) = date + JSDate.Day off).
  { unfold JSDate.parseISODate, JSDate.MakeDate. rewrite Z.add_0_r.
    apply Day_shift_days. }
  rewrite Hday in Heq.
  split; [rewrite Heq; cbn [weekStart weekEnd]; lia|].
  unfold JSDate.msPerDay in Hoff.
  split; [|split]; intros Hzone.
  - subst off. pose proof (getWeekBounds_utc now (Some date)) as H. cbv zeta in H.
    fold wb in H. destruct H as (H1 & H2 & H3 & _). auto.
  - assert (D1 : JSDate.Day off = 0)
      by (unfold JSDate.Day, JSDate.msPerDay; apply Z.div_small; lia).
    assert (D2 : JSDate.Day (- off) = -1).
    { unfold JSDate.Day, JSDate.msPerDay. symmetry.
      apply (Z.div_unique_pos _ _ _ (86400000 - off)); lia. }
    rewrite D1, D2, Z.add_0_r in Heq. rewrite Heq. cbn [weekStart weekEnd].
    pose proof (localMonday_weekday date) as Hm.
    pose proof (localMonday_range date) as Hr.
    pose proof (localMonday_sunday date) as Hs.
    split.
    + unfold weekdayOf in *.
      replace (localMonday date + -1 + 4) with ((localMonday date + 4) + (-1)) by lia.
      rewrite <- Z.add_mod_idemp_l, Hm by lia. reflexivity.
    + split; [intros Hin Hsun; apply Hs in Hsun; lia|].
      intros Hsun. assert (date <> localMonday date + 6) by (rewrite Hs; exact Hsun).
      lia.
  - assert (D1 : JSDate.Day off = -1).
    { unfold JSDate.Day, JSDate.msPerDay. symmetry.
      apply (Z.div_unique_pos _ _ _ (86400000 + off)); lia. }
    assert (D2 : JSDate.Day (- off) = 0)
      by (unfold JSDate.Day, JSDate.msPerDay; apply Z.div_small; lia).
    rewrite D1, D2, Z.add_0_r in Heq. rewrite Heq. cbn [weekStart weekEnd].
    replace (date + -1) with (date - 1) by lia.
    pose proof (localMonday_weekday (date - 1)) as Hm.
    pose proof (localMonday_range (date - 1)) as Hr.
    pose proof (localMonday_sunday (date - 1)) as Hs.
    pose proof (weekdayOf_pred date) as Hp.
    split; [exact Hm|].
    split.
    + intros Hin Hmon. apply Hp, Hs in Hmon. lia.
    + intros Hmon. assert (date - 1 <> localMonday (date - 1) + 6)
        by (rewrite Hs, Hp; exact Hmon).
      lia.
Qed.

(** ** Sessions over time *)

(** Stored users have positive identifiers and hashed passwords. *)
Definition usersSound (st : Store) : Prop :=
  1 <= nextId (users st)
  /\ forall u, u ∈ rows (users st) ->
       1 <= user_id u /\ exists pw, password u = bcrypt_hash pw.

Lemma writes_usersSound (actor : option Z) (w w' : World) :
  writes actor w w' -> usersSound (db w) -> usersSound (db w').
Proof.
  intros Hstep Hinv.
  assert (Hsame : users (db w') = users (db w) -> usersSound (db w'))
    by (unfold usersSound; intros ->; exact Hinv).
  destruct Hstep as [c|data Hname Hfree| |u data _|id u _
                    |u date sc insight _ _|u r c _|u _];
    try (apply Hsame; reflexivity).
  - destruct Hinv as [Hn Hall]. split; [cbn; lia|].
    intros x Hx. cbn in Hx. apply elem_of_app in Hx as [Hx|Hx]; [exact (Hall x Hx)|].
    apply list_elem_of_singleton in Hx as ->. cbn. split; [exact Hn|eauto].
  - destruct Hinv as [Hn Hall]. split; [cbn; lia | exact Hall].
  - apply Hsame.
    destruct (deleteEntry_cases id u w) as [[_ ->]|(key & _ & ->)]; reflexivity.
  - apply Hsame. rewrite scoreDay_run. cbv zeta.
    pose proof (saveDailyScore_frame u date sc insight w) as Hf. cbv zeta in Hf.
    destruct Hf as (Fu & _). destruct (decide _); [exact Fu|].
    match goal with
    | |- users (db (snd (saveWeeklyScore ?a ?b ?c ?d ?e ?x))) = _ =>
        pose proof (saveWeeklyScore_frame a b c d e x) as Hf2; cbv zeta in Hf2;
        destruct Hf2 as (Gu & _); rewrite Gu; exact Fu
    end.
Qed.

Lemma served_usersSound (w : World) : served w -> usersSound (db w).
Proof.
  apply (served_invariant (fun w => usersSound (db w))).
  - intros t. split; [cbn; lia|]. intros u Hu. inversion Hu.
  - auto.
  - intros actor w0 w' Hstep _. exact (writes_usersSound actor w0 w' Hstep).
Qed.

(** X19. Passwords are stored hashed.  Whatever requests have been served,
    the password column of every stored user holds the bcrypt hash of some
    password, as registration computed it. *)
Theorem stored_passwords_are_hashes (w : World) :
  served w ->
  forall u, u ∈ rows (users (db w)) -> exists pw, password u = bcrypt_hash pw.
Proof.
  intros Hserved u Hu. destruct (served_usersSound w Hserved) as [_ Hall].
  exact (proj2 (Hall u Hu)).
Qed.

(** X20. The session a login opens.  In a world the HTTP interface can
    bring about, the session opened by a successful login names a user
    with a non-zero identifier, and the session check under it answers with
    the same user object as the login did; logging out ends the session,
    under which the check answers 401. *)
Theorem session_check_after_login (sess sess' : option Z) (body user : JSValue)
    (w : World) :
  served w ->
  postLogin sess body w = (inr (Json 200 user, sess'), w) ->
  getMe sess' w = (inr (Json 200 user), w)
  /\ (exists userId, sess' = Some userId /\ userId <> 0)
  /\ postLogout sess' w = (inr (Json 200 (message "Logged out"), None), w)
  /\ getMe None w = (inr (Json 401 (message "Not authenticated")), w).
Proof.
  intros Hserved Hlogin.
  destruct (postLogin_spec sess body w) as (resp & s & E & Hok).
  rewrite E in Hlogin. injection Hlogin as -> ->.
  destruct (Hok user eq_refl) as (u & Hu & -> & ->).
  pose proof (served_primaryKeys w Hserved) as ((Hids & _) & _).
  destruct (served_usersSound w Hserved) as [_ Hall].
  destruct (Hall u Hu) as [Hpos _].
  split; [|split; [|split; reflexivity]].
  - unfold getMe. destruct (Z.eqb_spec (user_id u) 0) as [Hz|_]; [lia|].
    cbv [bind getUserById getDb ret db_select].
    destruct (head _) as [u'|] eqn:Hhead.
    + apply head_filter_elem in Hhead as [Hu' Hid].
      rewrite (NoDup_fmap_inj user_id _ u' u Hids Hu' Hu Hid). reflexivity.
    + apply head_None_nil in Hhead. exfalso. revert Hhead.
      apply filter_nonempty. exists u. auto.
  - exists (user_id u). split; [reflexivity|lia].
Qed.

(** ** The dashboard's week chart

    The dashboard reads GET /api/scores/daily and, for each of its seven
    columns, shows the first of the scores whose date falls on the column's
    day of the week. *)

(** [toLocaleDateString("en-US", { weekday: "short" })] *)
Definition weekdayShort (wd : Z) : string :=
  if (wd =? 0)%Z then "Sun" else if (wd =? 1)%Z then "Mon"
  else if (wd =? 2)%Z then "Tue" else if (wd =? 3)%Z then "Wed"
  else if (wd =? 4)%Z then "Thu" else if (wd =? 5)%Z then "Fri"
  else "Sat".

(** [getDayName]: [new Date(dateStr + "T12:00:00")] is noon of the date
    in the local time of the client, whose zone has offset [ctz];
    [toLocaleDateString] names its day of the week there.  [date] is the
    day that [dateStr], a date column as the server sends it, names. *)
Definition getDayName (ctz : Z) (date : Z) : string :=
  let d := JSDate.UTC ctz (JSDate.MakeDate date (JSDate.MakeTime 12 0 0 0)) in
  weekdayShort (JSDate.WeekDay (JSDate.LocalTime ctz d)).

Definition days : list string := ["Mon"; "Tue"; "Wed"; "Thu"; "Fri"; "Sat"; "Sun"].

(** [weekScores.find((s) => getDayName(s.date) === day)] *)
Definition chartColumn (ctz : Z) (weekScores : list DailyScore) (day : string)
  : option DailyScore :=
  List.find (fun s => String.eqb (getDayName ctz (ds_date s)) day) weekScores.

Lemma getDayName_weekday (ctz date : Z) :
  getDayName ctz date = weekdayShort (weekdayOf date).
Proof.
  unfold getDayName, JSDate.LocalTime, JSDate.UTC, JSDate.WeekDay, weekdayOf.
  replace (JSDate.MakeDate date (JSDate.MakeTime 12 0 0 0) - ctz + ctz)
    with (JSDate.MakeDate date (JSDate.MakeTime 12 0 0 0)) by lia.
  rewrite Day_MakeDate; [reflexivity|].
  unfold JSDate.MakeTime, JSDate.msPerDay. lia.
Qed.

Lemma weekdayShort_inj (a b : Z) :
  0 <= a < 7 -> 0 <= b < 7 -> weekdayShort a = weekdayShort b -> a = b.
Proof.
  intros Ha Hb.
  assert (Ea : a = 0 \/ a = 1 \/ a = 2 \/ a = 3 \/ a = 4 \/ a = 5 \/ a = 6) by lia.
  assert (Eb : b = 0 \/ b = 1 \/ b = 2 \/ b = 3 \/ b = 4 \/ b = 5 \/ b = 6) by lia.
  destruct Ea as [->|[->|[->|[->|[->|[->| ->]]]]]];
    destruct Eb as [->|[->|[->|[->|[->|[->| ->]]]]]];
    cbn; intros H; first [reflexivity | discriminate H].
Qed.

Lemma weekdayShort_days (wd : Z) : 0 <= wd < 7 -> weekdayShort wd ∈ days.
Proof.
  intros H.
  assert (E : wd = 0 \/ wd = 1 \/ wd = 2 \/ wd = 3 \/ wd = 4 \/ wd = 5 \/ wd = 6) by lia.
  unfold days.
  destruct E as [->|[->|[->|[->|[->|[->| ->]]]]]];
    apply list_elem_of_In; cbn; tauto.
Qed.

Lemma same_weekday (a d1 d2 : Z) :
  a <= d1 <= a + 6 -> a <= d2 <= a + 6 -> weekdayOf d1 = weekdayOf d2 -> d1 = d2.
Proof. unfold weekdayOf. intros H1 H2 H. Z.div_mod_to_equations. lia. Qed.

(** X21. The columns of the week chart.  GET /api/scores/daily answers a
    signed-in user with daily scores that are all stored, all the user's
    own, and all dated within the seven days of the week the server
    computes.  Whatever the zone of the client, the day of the week of each
    of them names one of the chart's seven columns, and that column shows
    the first returned score of the same date: the score itself when no
    other returned score has its date. *)
Theorem week_chart_columns (ctz userId : Z) (w : World) :
  userId <> 0 ->
  exists scores,
    getScoresDaily (Some userId) w
    = (inr (Json 200 (JSArray (dailyScoreObject <$> scores))), w)
    /\ forall s, s ∈ scores ->
         s ∈ rows (dailyScores (db w))
         /\ ds_userId s = userId
         /\ (let wb := getWeekBounds tz (clock w) None in
             weekStart wb <= ds_date s <= weekStart wb + 6)
         /\ getDayName ctz (ds_date s) ∈ days
         /\ (exists x, chartColumn ctz scores (getDayName ctz (ds_date s)) = Some x
                       /\ x ∈ scores /\ ds_date x = ds_date s)
         /\ ((forall x, x ∈ scores -> ds_date x = ds_date s -> x = s) ->
             chartColumn ctz scores (getDayName ctz (ds_date s)) = Some s).
Proof.
  intros Hauth.
  unfold getScoresDaily, requireAuth.
  destruct (Z.eqb_spec userId 0) as [|_]; [contradiction|].
  cbv [tryCatch bind getClock getDailyScores getDb ret db_select].
  set (wb := getWeekBounds tz (clock w) None).
  assert (Hspan : weekEnd wb = weekStart wb + 6) by apply getWeekBounds_span.
  set (inWindow := filter _ (rows (dailyScores (db w)))).
  set (scores := orderByDesc ds_date inWindow).
  assert (Hperm : scores ≡ₚ inWindow) by apply merge_sort_Permutation.
  assert (Hin : forall s, s ∈ scores ->
                          s ∈ rows (dailyScores (db w)) /\ ds_userId s = userId
                          /\ weekStart wb <= ds_date s <= weekStart wb + 6).
  { intros s Hs. rewrite Hperm in Hs. apply list_elem_of_filter in Hs as [(Hu & Hlo & Hhi) Hs].
    rewrite Hspan in Hhi. auto. }
  exists scores. split; [reflexivity|].
  intros s Hs. destruct (Hin s Hs) as (Hrow & Hu & Hd).
  assert (Hwd : forall d, 0 <= weekdayOf d < 7)
    by (intros d; unfold weekdayOf; apply Z.mod_pos_bound; lia).
  assert (Hcol : exists x, chartColumn ctz scores (getDayName ctz (ds_date s)) = Some x
                           /\ x ∈ scores /\ ds_date x = ds_date s).
  { unfold chartColumn.
    destruct (List.find _ scores) as [x|] eqn:Hfind.
    - apply List.find_some in Hfind as [Hx Hname].
      apply list_elem_of_In in Hx. apply String.eqb_eq in Hname.
      rewrite !getDayName_weekday in Hname.
      apply weekdayShort_inj in Hname; [|apply Hwd..].
      destruct (Hin x Hx) as (_ & _ & Hxd).
      exists x. split; [reflexivity|]. split; [exact Hx|].
      exact (same_weekday (weekStart wb) _ _ Hxd Hd Hname).
    - exfalso. apply list_elem_of_In in Hs.
      pose proof (List.find_none _ _ Hfind s Hs) as Hno. cbv beta in Hno.
      rewrite String.eqb_refl in Hno. discriminate Hno. }
  split; [exact Hrow|]. split; [exact Hu|]. split; [exact Hd|]. split.
  { rewrite getDayName_weekday. apply weekdayShort_days, Hwd. }
  split; [exact Hcol|].
  intros Honly. destruct Hcol as (x & -> & Hx & Hdate).
  f_equal. exact (Honly x Hx Hdate).
Qed.

End Server.

(** * The chat stream, from the server's writes to the client's screen

    POST /api/chat writes its events as lines of text; the coach screen
    reads the response body piece by piece, as the network delivers it, and
    puts the reply together again. *)

Section ChatStream.

Open Scope string_scope.

#[local] Arguments String.append !_ _ / : simpl nomatch.

Variable JSON_parse : string -> option JSValue.
Variable JSON_stringify : JSValue -> string.

(** [String(v)], as [+=] applies it to a value that is not a string. *)
Variable ToString : JSValue -> string.

(** ** routes: what [res.write] puts on the wire *)

Definition contentObject (c : string) : JSValue := JSObject [("content", JSString c)].
Definition errorObject (m : string) : JSValue := JSObject [("error", JSString m)].

Definition dataLine (e : SSEvent) : string :=
  match e with
  | EvContent c => "data: " ++ JSON_stringify (contentObject c)
  | EvError m => "data: " ++ JSON_stringify (errorObject m)
  | EvDone => "data: [DONE]"
  end.

Definition wireEvent (e : SSEvent) : string := dataLine e ++ nl ++ nl.

Definition wireText (events : list SSEvent) : string :=
  String.concat EmptyString (wireEvent <$> events).

(** ** coach screen: reading the stream *)

(** [buffer.split("\n")] *)
Fixpoint splitLines (s : string) : list string :=
  match s with
  | EmptyString => [EmptyString]
  | String c r =>
      if Ascii.eqb c "010" then EmptyString :: splitLines r
      else match splitLines r with
           | x :: rest => String c x :: rest
           | [] => [String c EmptyString]
           end
  end.

(** [line.slice(n)] *)
Fixpoint sliceFrom (n : nat) (s : string) : string :=
  match n, s with
  | O, _ => s
  | S k, String _ r => sliceFrom k r
  | S _, EmptyString => EmptyString
  end.

(** [fullContent += v] *)
Definition appendValue (fullContent : string) (v : JSValue) : string :=
  fullContent ++ match v with
                 | JSString s => s
                 | _ => ToString v
                 end.

(** The body of the loop over the lines: the reply so far, after one more
    line.  An exception of [JSON.parse] or of reading [parsed.content] is
    swallowed by the empty [catch]. *)
Definition onLine (fullContent line : string) : string :=
  if negb (String.prefix "data: " line) then fullContent
  else
    let data := sliceFrom 6 line in
    if String.eqb data "[DONE]" then fullContent
    else match JSON_parse data with
         | Some parsed =>
             match getProp parsed "content" with
             | Some c => if ToBoolean c then appendValue fullContent c else fullContent
             | None => fullContent
             end
         | None => fullContent
         end.

Record Reader := { buffer : string; fullContent : string }.

(** One turn of the [while] loop, for one piece of decoded text. *)
Definition onChunk (st : Reader) (value : string) : Reader :=
  let buffer := buffer st ++ value in
  let lines := splitLines buffer in
  {| buffer := List.last lines EmptyString;
     fullContent := fold_left onLine (removelast lines) (fullContent st) |}.

(** The text of the assistant's bubble when the stream has ended. *)
Definition readStream (chunks : list string) : string :=
  fullContent (fold_left onChunk chunks
                         {| buffer := EmptyString; fullContent := EmptyString |}).

(** ** Splitting and joining lines *)

Lemma append_nil_r (s : string) : s ++ EmptyString = s.
Proof. induction s as [|c s IH]; cbn [String.append]; [reflexivity | rewrite IH; reflexivity]. Qed.

Lemma string_app_assoc (a b c : string) : (a ++ b) ++ c = a ++ (b ++ c).
Proof. induction a as [|x a IH]; cbn [String.append]; [reflexivity | rewrite IH; reflexivity]. Qed.

Lemma splitLines_nonempty (s : string) : splitLines s <> [].
Proof.
  destruct s as [|c r]; cbn [splitLines]; [discriminate|].
  destruct (Ascii.eqb c "010"); [discriminate|].
  destruct (splitLines r); discriminate.
Qed.

Lemma splitLines_cons (c : ascii) (r : string) :
  Ascii.eqb c "010" = false ->
  splitLines (String c r)
  = String c (hd EmptyString (splitLines r)) :: tl (splitLines r).
Proof.
  intros Hc. cbn [splitLines]. rewrite Hc.
  pose proof (splitLines_nonempty r). destruct (splitLines r); [congruence|reflexivity].
Qed.

Lemma removelast_cons2 {A} (a : A) (l : list A) :
  l <> [] -> removelast (a :: l) = a :: removelast l.
Proof. destruct l; [congruence | reflexivity]. Qed.

Lemma last_cons2 {A} (a d : A) (l : list A) : l <> [] -> List.last (a :: l) d = List.last l d.
Proof. destruct l; [congruence | reflexivity]. Qed.

(** Splitting a text that arrives in two parts: the complete lines of the
    first part, then the lines of what was left of it followed by the
    second part. *)
Lemma splitLines_app (a b : string) :
  splitLines (a ++ b)
  = (removelast (splitLines a)
     ++ splitLines (List.last (splitLines a) EmptyString ++ b))%list.
Proof.
  induction a as [|c a IH]; [reflexivity|].
  cbn [String.append]. destruct (Ascii.eqb c "010") eqn:Hc.
  - cbn [splitLines]. rewrite Hc.
    rewrite removelast_cons2, last_cons2 by apply splitLines_nonempty.
    rewrite IH. reflexivity.
  - rewrite !splitLines_cons by exact Hc. rewrite IH.
    pose proof (splitLines_nonempty a) as Hne.
    destruct (splitLines a) as [|x [|y rest]]; [congruence| |].
    + cbn [removelast List.last hd tl app String.append].
      rewrite splitLines_cons by exact Hc. reflexivity.
    + cbn [removelast List.last hd tl app]. reflexivity.
Qed.

(** Reading two pieces one after the other is reading them joined. *)
Lemma onChunk_twice (st : Reader) (a b : string) :
  onChunk (onChunk st a) b = onChunk st (a ++ b).
Proof.
  unfold onChunk. cbn [buffer fullContent].
  rewrite <- string_app_assoc, (splitLines_app (buffer st ++ a) b).
  set (lines1 := splitLines (buffer st ++ a)).
  set (lines2 := splitLines (List.last lines1 EmptyString ++ b)).
  assert (Hne : lines2 <> []) by apply splitLines_nonempty.
  f_equal.
  - clearbody lines2. induction (removelast lines1) as [|x l IH]; [reflexivity|].
    cbn [app]. rewrite last_cons2; [exact IH|].
    destruct l; cbn; [exact Hne | discriminate].
  - rewrite <- fold_left_app. f_equal.
    clearbody lines2. induction (removelast lines1) as [|x l IH].
    + reflexivity.
    + cbn [app]. rewrite removelast_cons2; [rewrite IH; reflexivity|].
      destruct l; cbn; [exact Hne | discriminate].
Qed.

Lemma onChunks (chunks : list string) (st : Reader) (a : string) :
  fold_left onChunk chunks (onChunk st a)
  = onChunk st (a ++ String.concat EmptyString chunks).
Proof.
  revert a. induction chunks as [|b chunks IH]; intros a.
  - cbn. rewrite append_nil_r. reflexivity.
  - cbn [fold_left]. rewrite onChunk_twice, IH. f_equal.
    rewrite string_app_assoc. f_equal.
    destruct chunks; cbn [String.concat]; [rewrite append_nil_r|]; reflexivity.
Qed.

(** However the network cuts the text into pieces, the reader ends up as
    if it had received it in one piece. *)
Lemma readStream_whole (chunks : list string) :
  readStream chunks
  = fold_left onLine (removelast (splitLines (String.concat EmptyString chunks)))
              EmptyString.
Proof.
  unfold readStream. destruct chunks as [|a chunks]; [reflexivity|].
  cbn [fold_left].
  rewrite onChunks. unfold onChunk. cbn [buffer fullContent String.append].
  do 2 f_equal. destruct chunks; cbn [String.concat]; [rewrite append_nil_r|]; reflexivity.
Qed.

(** ** The lines of the server's text *)

Lemma splitLines_line (line rest : string) :
  hasChar "010" line = false ->
  splitLines (line ++ nl ++ rest) = line :: splitLines rest.
Proof.
  induction line as [|c line IH]; intros Hfree.
  - reflexivity.
  - cbn [hasChar] in Hfree. apply orb_false_iff in Hfree as [Hc Hline].
    cbn [String.append]. rewrite splitLines_cons by exact Hc.
    cbn [String.append] in IH. rewrite (IH Hline). reflexivity.
Qed.

(** The events as the reader sees them: each on a line of its own,
    followed by an empty line. *)
Definition wireLines (events : list SSEvent) : list string :=
  events ≫= fun e => [dataLine e; EmptyString].

Lemma concat_cons (x : string) (l : list string) :
  String.concat EmptyString (x :: l) = x ++ String.concat EmptyString l.
Proof. destruct l; cbn [String.concat]; [rewrite append_nil_r|]; reflexivity. Qed.

Lemma splitLines_wire (events : list SSEvent) :
  Forall (fun e => hasChar "010" (dataLine e) = false) events ->
  splitLines (wireText events) = (wireLines events ++ [EmptyString])%list.
Proof.
  unfold wireText, wireLines. induction 1 as [|e events He _ IH]; [reflexivity|].
  rewrite fmap_cons, concat_cons. unfold wireEvent at 1.
  rewrite !string_app_assoc, (splitLines_line _ _ He).
  change (nl ++ String.concat EmptyString (wireEvent <$> events))
    with (EmptyString ++ nl ++ String.concat EmptyString (wireEvent <$> events)).
  rewrite (splitLines_line EmptyString) by reflexivity.
  rewrite IH. reflexivity.
Qed.

Lemma removelast_snoc {A} (l : list A) (a : A) : removelast (l ++ [a])%list = l.
Proof. apply removelast_last. Qed.

(** ** The reply, put together again *)

(** What serialising and parsing must get right for an object the server
    sends: the text has no line break, is not the end marker, and parses
    back to the object. *)
Definition survives (v : JSValue) : Prop :=
  hasChar "010" (JSON_stringify v) = false
  /\ String.eqb (JSON_stringify v) "[DONE]" = false
  /\ JSON_parse (JSON_stringify v) = Some v.

Definition eventSurvives (e : SSEvent) : Prop :=
  match e with
  | EvContent c => c <> EmptyString /\ survives (contentObject c)
  | EvError m => survives (errorObject m)
  | EvDone => True
  end.

(** The text fragments of the events, joined. *)
Definition contentOfEvents (events : list SSEvent) : string :=
  String.concat EmptyString
    (events ≫= fun e => match e with
                        | EvContent c => [c]
                        | _ => []
                        end).

Lemma prefix_data (x : string) : String.prefix "data: " ("data: " ++ x) = true.
Proof. cbn [String.append]. cbn. destruct x; reflexivity. Qed.

Lemma sliceFrom_data (x : string) : sliceFrom 6 ("data: " ++ x) = x.
Proof. cbn [String.append]. reflexivity. Qed.

Lemma onLine_event (fullContent : string) (e : SSEvent) :
  eventSurvives e ->
  onLine fullContent (dataLine e)
  = fullContent ++ match e with
                   | EvContent c => c
                   | _ => EmptyString
                   end.
Proof.
  intros He. unfold onLine. destruct e as [c|m|]; unfold dataLine.
  - destruct He as (Hc & _ & Hdone & Hparse).
    rewrite prefix_data, sliceFrom_data. cbn [negb]. rewrite Hdone, Hparse.
    cbn [getProp contentObject assoc String.eqb Ascii.eqb Bool.eqb default ToBoolean].
    destruct c as [|x c]; [congruence|]. reflexivity.
  - destruct He as (_ & Hdone & Hparse).
    rewrite prefix_data, sliceFrom_data. cbn [negb]. rewrite Hdone, Hparse.
    cbn. rewrite append_nil_r. reflexivity.
  - cbn. rewrite append_nil_r. reflexivity.
Qed.

Lemma onLine_blank (fullContent : string) : onLine fullContent EmptyString = fullContent.
Proof. reflexivity. Qed.

Lemma fold_wireLines (events : list SSEvent) (fullContent : string) :
  Forall eventSurvives events ->
  fold_left onLine (wireLines events) fullContent
  = fullContent ++ contentOfEvents events.
Proof.
  unfold wireLines, contentOfEvents. intros Hall. revert fullContent.
  induction Hall as [|e events He _ IH]; intros fullContent.
  - cbn. rewrite append_nil_r. reflexivity.
  - rewrite !bind_cons. cbn [app fold_left].
    rewrite onLine_event by exact He. rewrite onLine_blank, IH.
    rewrite string_app_assoc. f_equal.
    destruct e as [c|m|]; cbn [app]; [rewrite concat_cons|..]; reflexivity.
Qed.

Lemma dataLine_free (e : SSEvent) :
  eventSurvives e -> hasChar "010" (dataLine e) = false.
Proof.
  destruct e as [c|m|]; cbn [eventSurvives dataLine].
  - intros (_ & H & _). cbn. exact H.
  - intros (H & _). cbn. exact H.
  - reflexivity.
Qed.

Lemma contentOfEvents_response (pieces : list string) (final : SSEvent) :
  (final = EvDone \/ exists m, final = EvError m) ->
  contentOfEvents ((EvContent <$> pieces) ++ [final])%list
  = String.concat EmptyString pieces.
Proof.
  intros Hfinal. unfold contentOfEvents. rewrite bind_app.
  assert (Hlast : [final] ≫= (fun e => match e with
                                       | EvContent c => [c]
                                       | _ => []
                                       end) = @nil string)
    by (destruct Hfinal as [-> | [m ->]]; reflexivity).
  rewrite Hlast, app_nil_r. f_equal.
  induction pieces as [|c pieces IH]; [reflexivity|].
  rewrite fmap_cons, bind_cons, IH. reflexivity.
Qed.

(** X22. The reply survives the wire.  Let the server have written the
    events of a chat response, each content fragment being non-empty, and
    let serialising and parsing get every object sent right.  Then however
    the network cuts the text into pieces, the reply the coach screen has
    assembled when the stream ends is the fragments joined in order; an
    error event and the end marker add nothing to it.  So for a response
    made of fragments followed by the end marker or by an error event, the
    reply shown is the concatenation of the fragments, the text the server
    stores as the assistant's message when the stream completes. *)
Theorem reply_survives_the_wire (events : list SSEvent) (chunks : list string) :
  Forall eventSurvives events ->
  String.concat EmptyString chunks = wireText events ->
  readStream chunks = contentOfEvents events
  /\ forall pieces final,
       final = EvDone \/ (exists m, final = EvError m) ->
       events = ((EvContent <$> pieces) ++ [final])%list ->
       readStream chunks = String.concat EmptyString pieces.
Proof.
  intros Hall Hcut.
  assert (Hread : readStream chunks = contentOfEvents events).
  { rewrite readStream_whole, Hcut, splitLines_wire.
    - rewrite removelast_snoc. apply (fold_wireLines events EmptyString Hall).
    - eapply Forall_impl; [exact Hall|]. exact dataLine_free. }
  split; [exact Hread|].
  intros pieces final Hfinal ->. rewrite Hread.
  apply contentOfEvents_response. exact Hfinal.
Qed.

End ChatStream.

(** * The sign-in screen: the text of the error alert

    When login or registration throws, the screen shows
    [msg.includes(":") ? msg.split(": ").slice(1).join(": ") : msg]. *)

Section AuthScreen.

Open Scope string_scope.

#[local] Arguments String.append !_ _ / : simpl nomatch.

(** [s.split(sep)] for a separator that is not empty.  [skip] counts the
    characters of a separator just matched that are still to be passed
    over. *)
Fixpoint splitGo (sep : string) (skip : nat) (s : string) : list string :=
  match s with
  | EmptyString => [EmptyString]
  | String c r =>
      match skip with
      | S k => splitGo sep k r
      | O =>
          if String.prefix sep s
          then EmptyString :: splitGo sep (String.length sep - 1) r
          else match splitGo sep O r with
               | x :: rest => String c x :: rest
               | [] => [String c EmptyString]
               end
      end
  end.

Definition split (sep s : string) : list string := splitGo sep O s.

(** [s.includes(sub)] *)
Fixpoint occurs (sub s : string) : bool :=
  String.prefix sub s
  || match s with
     | EmptyString => false
     | String _ r => occurs sub r
     end.

(** [arr.slice(1)] *)
Definition slice1 {A} (l : list A) : list A := tl l.

Definition alertText (msg : string) : string :=
  if occurs ":" msg then join ": " (slice1 (split ": " msg)) else msg.

Lemma splitGo_nonempty (sep : string) (k : nat) (s : string) : splitGo sep k s <> [].
Proof.
  revert k. induction s as [|c r IH]; intros k; cbn [splitGo]; [discriminate|].
  destruct k; [|apply IH].
  destruct (String.prefix sep (String c r)); [discriminate|].
  destruct (splitGo sep 0 r); discriminate.
Qed.

Lemma splitGo_char (sep : string) (c : ascii) (r : string) :
  String.prefix sep (String c r) = false ->
  splitGo sep O (String c r)
  = String c (hd EmptyString (splitGo sep O r)) :: tl (splitGo sep O r).
Proof.
  intros Hp. cbn [splitGo]. rewrite Hp.
  pose proof (splitGo_nonempty sep 0 r). destruct (splitGo sep 0 r); [congruence|reflexivity].
Qed.

(** A text in which the separator does not occur is one piece. *)
Lemma split_whole (sep s : string) :
  occurs sep s = false -> split sep s = [s].
Proof.
  unfold split. induction s as [|c r IH]; intros Hno; [reflexivity|].
  cbn [occurs] in Hno. apply orb_false_iff in Hno as [Hp Hr].
  rewrite splitGo_char by exact Hp. rewrite (IH Hr). reflexivity.
Qed.

Lemma prefix_colon_space (c : ascii) (a rest : string) :
  String.prefix ": " (String c a) = false ->
  String.prefix ": " (String c (a ++ String ":" rest)) = false.
Proof.
  destruct a as [|x a]; cbn [String.append String.prefix].
  - destruct (ascii_dec ":" c); [|reflexivity]. intros _.
    destruct (ascii_dec " " ":") as [E|]; [discriminate E | reflexivity].
  - destruct (ascii_dec ":" c); [|reflexivity].
    destruct (ascii_dec " " x); [|reflexivity].
    destruct a; cbn; intros H; discriminate H.
Qed.

Lemma prefix_nil (s : string) : String.prefix EmptyString s = true.
Proof. destruct s; reflexivity. Qed.

(** Up to the first colon-and-space the text is the first piece. *)
Lemma split_first (a b : string) :
  occurs ": " a = false ->
  split ": " (a ++ ": " ++ b) = a :: split ": " b.
Proof.
  unfold split. induction a as [|c a IH]; intros Hno.
  - cbn [String.append splitGo]. cbn. rewrite prefix_nil. reflexivity.
  - cbn [occurs] in Hno. apply orb_false_iff in Hno as [Hp Hr].
    cbn [String.append] in *.
    rewrite splitGo_char by (apply prefix_colon_space; exact Hp).
    rewrite (IH Hr). reflexivity.
Qed.

Lemma prefix_split (sep s : string) :
  String.prefix sep s = true ->
  s = sep ++ sliceFrom (String.length sep) s.
Proof.
  revert s. induction sep as [|x sep IH]; intros s Hp; [reflexivity|].
  destruct s as [|c s]; [discriminate Hp|].
  cbn [String.prefix] in Hp. destruct (ascii_dec x c) as [->|]; [|discriminate Hp].
  cbn [String.append String.length sliceFrom]. f_equal. exact (IH s Hp).
Qed.

Lemma join_cons (sep x : string) (l : list string) :
  l <> [] -> join sep (x :: l) = x ++ sep ++ join sep l.
Proof. destruct l; [congruence | reflexivity]. Qed.

Lemma join_string_cons (sep : string) (c : ascii) (l : list string) :
  l <> [] ->
  join sep (String c (hd EmptyString l) :: tl l) = String c (join sep l).
Proof.
  destruct l as [|x [|y rest]]; [congruence|reflexivity|].
  intros _. reflexivity.
Qed.

(** Joining what was split gives the text back. *)
Lemma join_splitGo (sep s : string) (k : nat) :
  sep <> EmptyString ->
  join sep (splitGo sep k s) = sliceFrom k s.
Proof.
  intros Hsep. revert k. induction s as [|c r IH]; intros k.
  - destruct k; reflexivity.
  - destruct k as [|k]; [|cbn [splitGo sliceFrom]; apply IH].
    destruct (String.prefix sep (String c r)) eqn:Hp.
    + cbn [splitGo]. rewrite Hp.
      rewrite join_cons by apply splitGo_nonempty. rewrite IH.
      cbn [String.append sliceFrom].
      transitivity (sep ++ sliceFrom (String.length sep) (String c r));
        [|symmetry; exact (prefix_split _ _ Hp)].
      destruct sep as [|x sep]; [congruence|].
      cbn [String.length sliceFrom Nat.sub]. rewrite Nat.sub_0_r. reflexivity.
    + rewrite splitGo_char by exact Hp.
      rewrite join_string_cons by apply splitGo_nonempty.
      rewrite IH. reflexivity.
Qed.

Lemma occurs_colon (a b : string) : occurs ":" (a ++ ": " ++ b) = true.
Proof.
  induction a as [|c a IH]; cbn [String.append occurs] in *.
  - cbn. destruct b; reflexivity.
  - rewrite IH. apply orb_true_r.
Qed.

(** X23. The text of the error alert.  A message without a colon is shown
    as it is.  A message that holds a colon followed by a space is shown
    from after the first such pair on, so a leading status such as "409: "
    is cut off and the rest is kept whole.  A message with a colon but no
    colon followed by a space is shown as the empty text. *)
Theorem alert_text_cases (msg : string) :
  (occurs ":" msg = false -> alertText msg = msg)
  /\ (forall a b, msg = a ++ ": " ++ b -> occurs ": " a = false -> alertText msg = b)
  /\ (occurs ":" msg = true -> occurs ": " msg = false -> alertText msg = EmptyString).
Proof.
  unfold alertText. split; [|split].
  - intros ->. reflexivity.
  - intros a b -> Hno. rewrite occurs_colon, split_first by exact Hno.
    cbn [slice1 tl]. unfold split. rewrite join_splitGo by discriminate. reflexivity.
  - intros -> Hno. rewrite split_whole by exact Hno. reflexivity.
Qed.

End AuthScreen.

Example isoDate_epoch : isoDate 1970 1 1 = 0.
Proof. reflexivity. Qed.

Example isoDate_2026_02_07 : isoDate 2026 2 7 = 20491 /\ weekdayOf 20491 = 6.
Proof. split; reflexivity. Qed.

Example dateFields_20491 : dateFields 20491 = (2026, 2, 7).
Proof. reflexivity. Qed.

Example dateFields_leap : dateFields (isoDate 2024 2 29) = (2024, 2, 29)
  /\ dateFields (isoDate 2024 2 29 + 1) = (2024, 3, 1)
  /\ dateFields (isoDate 2000 12 31) = (2000, 12, 31)
  /\ dateFields (isoDate 1900 2 28 + 1) = (1900, 3, 1)
  /\ dateFields (-1) = (1969, 12, 31).
Proof. repeat split; reflexivity. Qed.

Example getWeekBounds_utc_saturday :
  getWeekBounds 0 0 (Some (isoDate 2026 2 7))
  = {| weekStart := isoDate 2026 2 2; weekEnd := isoDate 2026 2 8 |}.
Proof. reflexivity. Qed.

Example formatISODate_ex : formatISODate (isoDate 2026 2 7) = "2026-02-07"%string.
Proof. vm_compute. reflexivity. Qed.

Example jsonMatch_ex :
  jsonMatch "Sure! {a{b}c} and } more" = Some "{a{b}c} and }"%string
  /\ jsonMatch "} no { match" = None
  /\ jsonMatch "plain" = None.
Proof. repeat split; reflexivity. Qed.

Example isoDate_table :
  isoDate 2000 3 1 = 11017 /\ isoDate 1600 1 1 = -135140
  /\ isoDate 2400 2 29 = 157113 /\ isoDate 2100 3 1 = 47541
  /\ isoDate 1 1 1 = -719162 /\ isoDate 9999 12 31 = 2932896
  /\ dateFields 157113 = (2400, 2, 29) /\ dateFields 47541 = (2100, 3, 1)
  /\ dateFields (-719162) = (1, 1, 1) /\ dateFields 2932896 = (9999, 12, 31)
  /\ weekdayOf 11017 = 3 /\ weekdayOf (-135140) = 6 /\ weekdayOf 20492 = 0.
Proof. repeat split; reflexivity. Qed.

(** [setDate] rolls over month and year ends: the day before the first of
    January, and the 35th of January. *)
Example setDate_rollover :
  dateFields (JSDate.toISODate (JSDate.setDate 0 (JSDate.parseISODate (isoDate 2026 1 1)) 0))
  = (2025, 12, 31)
  /\ dateFields (JSDate.toISODate (JSDate.setDate 0 (JSDate.parseISODate (isoDate 2026 1 1)) 35))
     = (2026, 2, 4)
  /\ getWeekBounds 0 0 (Some (isoDate 2026 1 1))
     = {| weekStart := isoDate 2025 12 29; weekEnd := isoDate 2026 1 4 |}.
Proof. repeat split; reflexivity. Qed.

(** ** Double-precision numbers

    The numbers of JavaScript, as far as the examples need them: the
    rounding that every arithmetic operation and every number literal
    ends with. *)
Module Binary64.

(** The whole number nearest to [q], the even one of two equally near. *)
Definition roundHalfEven (q : Q) : Z :=
  let f := Qfloor q in
  match ((q - inject_Z f) ?= 1 # 2)%Q with
  | Lt => f
  | Gt => (f + 1)%Z
  | Eq => if Z.even f then f else (f + 1)%Z
  end.

(** The [e] with [2 ^ e <= a < 2 ^ (e + 1)], for [a] positive. *)
Definition binade (a : Q) : Z :=
  let e := (Z.log2 (Qnum a) - Z.log2 (Zpos (Qden a)))%Z in
  if Qle_bool (Qpower 2 e) a then e else (e - 1)%Z.

(** The IEEE 754 double nearest to [q], ties to even: 53 significant bits,
    subnormal below [2 ^ -1022].  (Numbers too large for a double do not
    occur in the examples.) *)
Definition double (q : Q) : Q :=
  if Qeq_bool q 0 then 0%Q
  else
    let e := Z.max (binade (Qabs q)) (-1022) in
    let ulp := Qpower 2 (e - 52) in
    Qred (inject_Z (roundHalfEven (q / ulp)) * ulp).

End Binary64.

(** ** A reference platform for the examples

    A JSON reader after ECMA-404 (numbers rounded to the nearest double,
    strings as UTF-8 bytes), used where an example needs [JSON.parse] on a concrete text.
    The theorems above do not depend on it. *)

Module RefJSON.

Definition isWs (c : ascii) : bool :=
  (Ascii.eqb c " " || Ascii.eqb c "009" || Ascii.eqb c "010" || Ascii.eqb c "013")%char.

Fixpoint skipWs (s : string) : string :=
  match s with
  | String c r => if isWs c then skipWs r else s
  | EmptyString => s
  end.

Definition digitVal (c : ascii) : option Z :=
  let n := Z.of_nat (nat_of_ascii c) in
  if (48 <=? n) && (n <=? 57) then Some (n - 48) else None.

Definition hexVal (c : ascii) : option Z :=
  let n := Z.of_nat (nat_of_ascii c) in
  if (48 <=? n) && (n <=? 57) then Some (n - 48)
  else if (65 <=? n) && (n <=? 70) then Some (n - 55)
  else if (97 <=? n) && (n <=? 102) then Some (n - 87)
  else None.

(** The digits at the head of [s]: their value after [acc], how many there
    are, and the rest. *)
Fixpoint digits (s : string) (acc : Z) (count : nat) : Z * nat * string :=
  match s with
  | String c r =>
      match digitVal c with
      | Some d => digits r (acc * 10 + d) (S count)
      | None => (acc, count, s)
      end
  | EmptyString => (acc, count, s)
  end.

Definition intPart (s : string) : option (Z * string) :=
  match s with
  | String "0" r => Some (0, r)
  | _ =>
      match digits s 0 0 with
      | (_, O, _) => None
      | (v, _, r) => Some (v, r)
      end
  end.

Definition fracPart (s : string) : option (Q * string) :=
  match s with
  | String "." r =>
      match digits r 0 0 with
      | (_, O, _) => None
      | (v, n, r') => Some (inject_Z v / inject_Z (10 ^ Z.of_nat n), r')%Q
      end
  | _ => Some (0%Q, s)
  end.

Definition expPart (s : string) : option (Z * string) :=
  match s with
  | String c r =>
      if (Ascii.eqb c "e" || Ascii.eqb c "E")%char then
        let '(neg, r1) := match r with
                          | String "-" r1 => (true, r1)
                          | String "+" r1 => (false, r1)
                          | _ => (false, r)
                          end in
        match digits r1 0 0 with
        | (_, O, _) => None
        | (v, _, r2) => Some (if neg : bool then - v else v, r2)
        end
      else Some (0, s)
  | EmptyString => Some (0, s)
  end.

Definition number (s : string) : option (Q * string) :=
  let '(neg, s1) := match s with
                    | String "-" r => (true, r)
                    | _ => (false, s)
                    end in
  '(i, s2) ← intPart s1;
  '(f, s3) ← fracPart s2;
  '(e, s4) ← expPart s3;
  let m := (inject_Z i + f)%Q in
  let v := (m * Qpower 10 e)%Q in
  Some (Binary64.double (if neg : bool then (- v)%Q else v), s4).

(** A UTF-16 code unit as UTF-8 bytes. *)
Definition utf8 (u : Z) : string :=
  let byte z := String (ascii_of_nat (Z.to_nat z)) EmptyString in
  if u <? 128 then byte u
  else if u <? 2048 then byte (192 + u / 64) ++ byte (128 + u mod 64)
  else byte (224 + u / 4096) ++ byte (128 + u / 64 mod 64) ++ byte (128 + u mod 64).

(** The characters of a string literal after its opening quote. *)
Fixpoint stringBody (s : string) : option (string * string) :=
  match s with
  | EmptyString => None
  | String c r =>
      if Ascii.eqb c "034" then Some (EmptyString, r)
      else if Ascii.eqb c "\" then
        match r with
        | String e r1 =>
            let simple (x : ascii) :=
              '(t, rest) ← stringBody r1; Some (String x t, rest) in
            if Ascii.eqb e "034" then simple "034"%char
            else if Ascii.eqb e "\" then simple "\"%char
            else if Ascii.eqb e "/" then simple "/"%char
            else if Ascii.eqb e "b" then simple "008"%char
            else if Ascii.eqb e "f" then simple "012"%char
            else if Ascii.eqb e "n" then simple "010"%char
            else if Ascii.eqb e "r" then simple "013"%char
            else if Ascii.eqb e "t" then simple "009"%char
            else if Ascii.eqb e "u" then
              match r1 with
              | String h1 (String h2 (String h3 (String h4 r2))) =>
                  a ← hexVal h1; b ← hexVal h2; c' ← hexVal h3; d ← hexVal h4;
                  '(t, rest) ← stringBody r2;
                  Some ((utf8 (((a * 16 + b) * 16 + c') * 16 + d) ++ t)%string, rest)
              | _ => None
              end
            else None
        | EmptyString => None
        end
      else if (nat_of_ascii c <? 32)%nat then None
      else '(t, rest) ← stringBody r; Some (String c t, rest)
  end.

(** A later member with the same name replaces the value of the earlier one. *)
Fixpoint setField (k : string) (v : JSValue) (fields : list (string * JSValue))
  : list (string * JSValue) :=
  match fields with
  | [] => [(k, v)]
  | (k', v') :: rest =>
      if String.eqb k k' then (k, v) :: rest else (k', v') :: setField k v rest
  end.

Definition literal (word : string) (v : JSValue) (s : string)
  : option (JSValue * string) :=
  if String.prefix word s
  then Some (v, String.substring (String.length word)
                                  (String.length s - String.length word) s)
  else None.

Section Nested.

(** The reader of the values nested one level deeper. *)
Variable value : string -> option (JSValue * string).

(** After a first element: [, value]* and the closing bracket. *)
Fixpoint elements (n : nat) (acc : list JSValue) (s : string)
  : option (JSValue * string) :=
  match n with
  | O => None
  | S n =>
      match skipWs s with
      | String "]" r => Some (JSArray (reverse acc), r)
      | String "," r => '(v, r1) ← value r; elements n (v :: acc) r1
      | _ => None
      end
  end.

Definition member (s : string) : option (string * JSValue * string) :=
  match skipWs s with
  | String c r =>
      if Ascii.eqb c "034" then
        '(k, r1) ← stringBody r;
        match skipWs r1 with
        | String ":" r2 => '(v, r3) ← value r2; Some (k, v, r3)
        | _ => None
        end
      else None
  | EmptyString => None
  end.

Fixpoint members (n : nat) (acc : list (string * JSValue)) (s : string)
  : option (JSValue * string) :=
  match n with
  | O => None
  | S n =>
      match skipWs s with
      | String "}" r => Some (JSObject acc, r)
      | String "," r => '(k, v, r1) ← member r; members n (setField k v acc) r1
      | _ => None
      end
  end.

End Nested.

Fixpoint value (fuel : nat) (s : string) : option (JSValue * string) :=
  match fuel with
  | O => None
  | S fuel =>
      match skipWs s with
      | EmptyString => None
      | String c r as t =>
          if Ascii.eqb c "{" then
            match skipWs r with
            | String "}" r1 => Some (JSObject [], r1)
            | _ =>
                '(k, v, r1) ← member (value fuel) r;
                members (value fuel) (String.length r1 + 1) [(k, v)] r1
            end
          else if Ascii.eqb c "[" then
            match skipWs r with
            | String "]" r1 => Some (JSArray [], r1)
            | _ =>
                '(v, r1) ← value fuel r;
                elements (value fuel) (String.length r1 + 1) [v] r1
            end
          else if Ascii.eqb c "034" then
            '(str, r1) ← stringBody r; Some (JSString str, r1)
          else if Ascii.eqb c "t" then literal "true" (JSBool true) t
          else if Ascii.eqb c "f" then literal "false" (JSBool false) t
          else if Ascii.eqb c "n" then literal "null" JSNull t
          else '(q, r1) ← number t; Some (JSNumber (Fin q), r1)
      end
  end.

(** [JSON.parse] *)
Definition parse (text : string) : option JSValue :=
  match value (String.length text + 1) text with
  | Some (v, rest) =>
      match skipWs rest with
      | EmptyString => Some v
      | _ => None
      end
  | None => None
  end.

End RefJSON.

(** The remaining built-ins, as far as the examples exercise them: decimal
    literals for [Number], whole numbers for [String]. *)
Module Ref.

Open Scope string_scope.

Definition bcrypt_hash (pw : string) : string := "$2b$10$" ++ pw.
Definition bcrypt_compare (pw hash : string) : bool := String.eqb (bcrypt_hash pw) hash.

Definition StringToNumber (s : string) : JSNum :=
  match s with
  | EmptyString => Fin 0
  | _ =>
      match RefJSON.number s with
      | Some (q, EmptyString) => Fin q
      | _ => NaN
      end
  end.

Definition ObjectToString (v : JSValue) : string := "[object Object]".
Definition NumberToString (q : Q) : string := pretty (Qfloor q).
Definition pgText (v : JSValue) : string := ObjectToString v.

Definition zodFlatten (body : JSValue) : JSValue :=
  JSObject [("formErrors", JSArray []); ("fieldErrors", JSObject [])].

(** A generation service that always answers [text]. *)
Definition answering (text : string) (messages : list ChatTurn)
  : option (option string) := Some (Some text).

Definition streaming (chunks : list string) (messages : list ChatTurn)
  : option (list string * bool) := Some (chunks, true).

(** The scoring and chat routes on this platform, for a server with local
    time offset [tz] and a service that answers [text]. *)
Definition scoreDaily (tz : Z) (text : string) : option Z -> option Z -> M Response :=
  postScoreDaily tz RefJSON.parse StringToNumber ObjectToString Binary64.double pgText
                 (answering text).


(** *** A sample world: the example of the specification

    User 1 logged two activities on Saturday 2026-02-07 and has daily
    scores of 80 and 60 on the Monday and the Wednesday before. *)

Definition feb (d : Z) : Z := isoDate 2026 2 d.

Definition at_ (date hour : Z) : Z := JSDate.MakeDate date (JSDate.MakeTime hour 0 0 0).

Definition asha : User :=
  {| user_id := 1; username := "asha"; email := "asha@example.org";
     password := bcrypt_hash "s3cret"; fullName := "Asha Rao";
     occupation := "Engineer"; goals := "Ship the release";
     user_createdAt := at_ (feb 1) 9 |}.

Definition entry1 : ProductivityEntry :=
  {| entry_id := 1; entry_userId := 1; title := "Code review"; category := "work";
     duration := 30; completed := true; notes := None; entry_date := feb 7;
     entry_createdAt := at_ (feb 7) 10 |}.

Definition entry2 : ProductivityEntry :=
  {| entry_id := 2; entry_userId := 1; title := "Run"; category := "exercise";
     duration := 45; completed := false; notes := Some "cut short";
     entry_date := feb 7; entry_createdAt := at_ (feb 7) 17 |}.

Definition entry3 : ProductivityEntry :=
  {| entry_id := 3; entry_userId := 2; title := "Reading"; category := "learning";
     duration := 60; completed := true; notes := None; entry_date := feb 7;
     entry_createdAt := at_ (feb 7) 12 |}.

Definition monday80 : DailyScore :=
  {| ds_id := 1; ds_userId := 1; ds_date := feb 2; score := 80;
     aiInsight := Some "Strong start."; ds_createdAt := at_ (feb 2) 20 |}.

Definition wednesday60 : DailyScore :=
  {| ds_id := 2; ds_userId := 1; ds_date := feb 4; score := 60;
     aiInsight := Some "A slower day."; ds_createdAt := at_ (feb 4) 20 |}.

Definition week70 : WeeklyScore :=
  {| ws_id := 1; ws_userId := 1; ws_weekStart := feb 2; ws_weekEnd := feb 8;
     avgScore := 70; totalEntries := 2; ws_createdAt := at_ (feb 2) 20 |}.

Definition turn (i : nat) : ChatMessage :=
  {| msg_id := Z.of_nat i; msg_userId := 1;
     role := if Nat.even i then "assistant" else "user";
     content := "turn " ++ pretty i; msg_createdAt := at_ (feb 6) 8 + Z.of_nat i |}.

Definition store0 : Store :=
  {| users := {| rows := [asha]; nextId := 2 |};
     productivityEntries := {| rows := [entry1; entry2; entry3]; nextId := 4 |};
     dailyScores := {| rows := [monday80; wednesday60]; nextId := 3 |};
     weeklyScores := {| rows := [week70]; nextId := 2 |};
     chatMessages := {| rows := turn <$> seq 1 25; nextId := 26 |} |}.

(** Saturday 2026-02-07, 18:00 UTC. *)
Definition world0 : World :=
  {| db := store0; clock := at_ (feb 7) 18; aiLog := [] |}.

(** Sunday 2026-02-08, 18:00 UTC, the same database. *)
Definition sunday0 : World :=
  {| db := store0; clock := at_ (feb 8) 18; aiLog := [] |}.

Definition jsonScore (n : string) (insight : string) : string :=
  "{" ++ dq ++ "score" ++ dq ++ ": " ++ n ++ ", " ++ dq ++ "insight" ++ dq ++ ": "
  ++ dq ++ insight ++ dq ++ "}".

Definition scoreRows (w : World) : list (Z * Z * Q * option string) :=
  (fun r => (ds_userId r, ds_date r, Qred (score r), aiInsight r))
    <$> rows (dailyScores (db w)).

Definition weekRows (w : World) : list (Z * Z * Z * Q * Z) :=
  (fun r => (ws_userId r, ws_weekStart r, ws_weekEnd r, Qred (avgScore r),
             totalEntries r))
    <$> rows (weeklyScores (db w)).

End Ref.

(** The example of the specification: scoring Saturday with 75 gives the
    week 2026-02-02 .. 2026-02-08 three scores with mean 71.666..., stored
    as 71.7 (the double nearest to it). *)
Example spec_example_week :
  let run := Ref.scoreDaily 0 (Ref.jsonScore "75" "Solid day.") (Some 1)
                            (Some (Ref.feb 7)) Ref.world0 in
  fst run = inr (Json 200 (JSObject [("score", JSNumber (Fin 75));
                                     ("insight", JSString "Solid day.");
                                     ("date", JSString "2026-02-07")]%string))
  /\ Ref.weekRows (snd run) = [(1, Ref.feb 2, Ref.feb 8, Binary64.double 71.7, 3)]
  /\ Ref.scoreRows (snd run)
     = [(1, Ref.feb 2, 80%Q, Some "Strong start."%string);
        (1, Ref.feb 4, 60%Q, Some "A slower day."%string);
        (1, Ref.feb 7, 75%Q, Some "Solid day."%string)].
Proof. vm_compute. repeat split. Qed.

(** Doubles at work: with 64.05 and 64.15 stored and 64.25 scored, the sum
    of the three doubles divided by 3 and multiplied by 10 falls just
    below 641.5, so that the aggregate stored is 64.1, although the mean of
    the three decimal numbers is 64.15. *)
Example weekly_average_in_doubles :
  let stored (id date : Z) (q : Q) :=
    {| ds_id := id; ds_userId := 1; ds_date := date; score := Binary64.double q;
       aiInsight := None; ds_createdAt := Ref.at_ date 20 |} in
  let w :=
    {| db := with_dailyScores
               {| rows := [stored 1 (Ref.feb 2) 64.05%Q; stored 2 (Ref.feb 4) 64.15%Q];
                  nextId := 3 |} Ref.store0;
       clock := Ref.at_ (Ref.feb 7) 18; aiLog := [] |} in
  let run := Ref.scoreDaily 0 (Ref.jsonScore "64.25" "Fine.") (Some 1)
                            (Some (Ref.feb 7)) w in
  fst run = inr (Json 200 (JSObject [("score", JSNumber (Fin (Binary64.double 64.25)));
                                     ("insight", JSString "Fine.");
                                     ("date", JSString "2026-02-07")]%string))
  /\ Ref.weekRows (snd run) = [(1, Ref.feb 2, Ref.feb 8, Binary64.double 64.1, 3)]
  /\ ((64.05 + 64.15 + 64.25) / 3 == 64.15)%Q.
Proof. vm_compute. repeat split. Qed.

(** ** The week bounds away from UTC *)

(** Anywhere up to a day east of UTC the computed week starts on a Sunday,
    whatever the reference: local midnight of the Monday is still Sunday
    in UTC, and [toISOString] prints the UTC date. *)
Lemma getWeekBounds_east_starts_sunday (tz now : Z) (dateStr : option Z) :
  0 < tz <= JSDate.msPerDay ->
  let wb := getWeekBounds tz now dateStr in
  weekdayOf (weekStart wb) = 0 /\ weekEnd wb = weekStart wb + 6.
Proof.
  intros Htz wb. subst wb. rewrite getWeekBounds_eq. cbv zeta.
  cbn [weekStart weekEnd].
  assert (Hd : JSDate.Day (- tz) = -1).
  { unfold JSDate.Day, JSDate.msPerDay in *. symmetry.
    apply (Z.div_unique_pos _ _ _ (86400000 - tz)); lia. }
  rewrite Hd. split; [|lia].
  set (l := JSDate.Day _). pose proof (localMonday_weekday l) as Hm.
  unfold weekdayOf in *.
  replace (localMonday l + -1 + 4) with ((localMonday l + 4) + (-1)) by lia.
  rewrite <- Z.add_mod_idemp_l, Hm by lia. reflexivity.
Qed.

(** C2. On a server one hour east of UTC, [getWeekBounds("2026-02-08")]
    (a Sunday) returns 2026-02-01 .. 2026-02-07: the first date is a Sunday,
    not a Monday, and the reference date lies outside the range.  The
    claim asks for Monday 2026-02-02 .. Sunday 2026-02-08. *)
Theorem getWeekBounds_one_hour_east :
  let wb := getWeekBounds 3600000 0 (Some (isoDate 2026 2 8)) in
  weekdayOf (isoDate 2026 2 8) = 0
  /\ wb = {| weekStart := isoDate 2026 2 1; weekEnd := isoDate 2026 2 7 |}
  /\ weekdayOf (weekStart wb) = 0
  /\ weekEnd wb < isoDate 2026 2 8.
Proof. vm_compute. repeat split. Qed.

(** Five hours west of UTC a Monday is attributed to the week before:
    [new Date("2026-02-02")] is still Sunday evening there. *)
Example getWeekBounds_five_hours_west :
  let wb := getWeekBounds (-18000000) 0 (Some (isoDate 2026 2 2)) in
  weekdayOf (isoDate 2026 2 2) = 1
  /\ wb = {| weekStart := isoDate 2026 1 26; weekEnd := isoDate 2026 2 1 |}
  /\ weekEnd wb < isoDate 2026 2 2.
Proof. vm_compute. repeat split. Qed.

(** The effect on the scoring flow one hour east of UTC.  A user with no
    score yet logs an activity on Sunday 2026-02-08 and has it scored: the
    score is saved, the week refreshed is 2026-02-01 .. 2026-02-07, no score
    lies in it, and no weekly row is written. *)
Example sunday_score_one_hour_east :
  let sundayEntry :=
    {| entry_id := 1; entry_userId := 1; title := "Plan"; category := "work";
       duration := 20; completed := true; notes := None; entry_date := Ref.feb 8;
       entry_createdAt := Ref.at_ (Ref.feb 8) 9 |} in
  let w :=
    {| db := {| users := {| rows := [Ref.asha]; nextId := 2 |};
                productivityEntries := {| rows := [sundayEntry]; nextId := 2 |};
                dailyScores := emptyTable; weeklyScores := emptyTable;
                chatMessages := emptyTable |};
       clock := Ref.at_ (Ref.feb 8) 18; aiLog := [] |} in
  let east := Ref.scoreDaily 3600000 (Ref.jsonScore "90" "Great.") (Some 1)
                             (Some (Ref.feb 8)) w in
  let utc := Ref.scoreDaily 0 (Ref.jsonScore "90" "Great.") (Some 1)
                            (Some (Ref.feb 8)) w in
  Ref.scoreRows (snd east) = [(1, Ref.feb 8, 90%Q, Some "Great."%string)]
  /\ Ref.weekRows (snd east) = []
  /\ Ref.scoreRows (snd utc) = [(1, Ref.feb 8, 90%Q, Some "Great."%string)]
  /\ Ref.weekRows (snd utc) = [(1, Ref.feb 2, Ref.feb 8, 90%Q, 1)].
Proof. vm_compute. repeat split. Qed.

(** C1. A score left out of the aggregate of its week.  On a server one
    hour east of UTC, user 1 has daily scores 80 for Monday 2026-02-02 and
    60 for Wednesday 2026-02-04, with the weekly aggregate (70, 2) of the
    week 2026-02-02 .. 2026-02-08, and has Sunday 2026-02-08 scored with 90.
    The request answers 200 and the score is persisted, so that the
    enclosing Monday-to-Sunday window holds three scores, with mean
    76.66...  But the aggregate written is that of 2026-02-01 .. 2026-02-07,
    with average 70 and count 2, and the aggregate of the enclosing window
    still says 70 and 2, where the claim asks for 76.7 and 3. *)
Theorem sunday_score_misses_its_week :
  let sundayEntry :=
    {| entry_id := 4; entry_userId := 1; title := "Plan"; category := "work";
       duration := 20; completed := true; notes := None; entry_date := Ref.feb 8;
       entry_createdAt := Ref.at_ (Ref.feb 8) 9 |} in
  let w :=
    {| db := with_productivityEntries
               {| rows := [Ref.entry1; Ref.entry2; Ref.entry3; sundayEntry];
                  nextId := 5 |} Ref.store0;
       clock := Ref.at_ (Ref.feb 8) 18; aiLog := [] |} in
  let run := Ref.scoreDaily 3600000 (Ref.jsonScore "90" "Great.") (Some 1)
                            (Some (Ref.feb 8)) w in
  let enclosing :=
    filter (fun r => ds_userId r = 1 /\ Ref.feb 2 <= ds_date r <= Ref.feb 8)
           (rows (dailyScores (db (snd run)))) in
  weekdayOf (Ref.feb 2) = 1 /\ weekdayOf (Ref.feb 8) = 0
  /\ fst run = inr (Json 200 (JSObject [("score", JSNumber (Fin 90));
                                        ("insight", JSString "Great.");
                                        ("date", JSString "2026-02-08")]%string))
  /\ Ref.scoreRows (snd run)
     = [(1, Ref.feb 2, 80%Q, Some "Strong start."%string);
        (1, Ref.feb 4, 60%Q, Some "A slower day."%string);
        (1, Ref.feb 8, 90%Q, Some "Great."%string)]
  /\ Qred <$> (score <$> enclosing) = [80; 60; 90]%Q
  /\ Qred (roundOneDecimal Binary64.double (average Binary64.double enclosing)) = Binary64.double 76.7
  /\ Ref.weekRows (snd run)
     = [(1, Ref.feb 2, Ref.feb 8, 70%Q, 2); (1, Ref.feb 1, Ref.feb 7, 70%Q, 2)].
Proof. vm_compute. repeat split. Qed.

(** ** A score of zero *)

(** The service rates the day 0: the flow answers and stores 50. *)
Example zero_score_end_to_end :
  let run := Ref.scoreDaily 0 (Ref.jsonScore "0" "Nothing got done.") (Some 1)
                            (Some (Ref.feb 7)) Ref.world0 in
  RefJSON.parse (Ref.jsonScore "0" "Nothing got done.")
  = Some (JSObject [("score", JSNumber (Fin 0));
                    ("insight", JSString "Nothing got done.")]%string)
  /\ fst run = inr (Json 200 (JSObject [("score", JSNumber (Fin 50));
                                        ("insight", JSString "Nothing got done.");
                                        ("date", JSString "2026-02-07")]%string))
  /\ Ref.scoreRows (snd run)
     = [(1, Ref.feb 2, 80%Q, Some "Strong start."%string);
        (1, Ref.feb 4, 60%Q, Some "A slower day."%string);
        (1, Ref.feb 7, 50%Q, Some "Nothing got done."%string)].
Proof. vm_compute. repeat split. Qed.

(** ** The first JSON object of a response *)





(** ** Identifiers the entry table cannot hold *)

(** C7, as stated, fails on an identifier that no entry has because the
    identifier column cannot hold it: 99999999999 is beyond the range of a
    four-byte integer, and the text [abc] gives [NaN].  The query fails and
    the route answers 500 "Failed to delete entry", not "not found". *)
Lemma delete_unknown_id_not_reported_missing :
  (forall e, e ∈ rows (productivityEntries (db Ref.world0)) ->
             entry_id e <> 99999999999)
  /\ deleteEntryRoute (Some 1) (Fin 99999999999) Ref.world0
     = (inr (Json 500 (message "Failed to delete entry")), Ref.world0)
  /\ deleteEntryRoute (Some 1) NaN Ref.world0
     = (inr (Json 500 (message "Failed to delete entry")), Ref.world0)
  /\ deleteEntryRoute (Some 1) (Fin 7) Ref.world0
     = (inr (Json 404 (message "Entry not found")), Ref.world0).
Proof.
  split; [|vm_compute; repeat split].
  apply Forall_forall. repeat constructor; discriminate.
Qed.

(** ** The theorems at work on the sample world *)

(** C3: on the sample world, two saves in flight for Saturday 2026-02-07,
    which has no score yet, and for the week of 2026-02-09. *)
Lemma concurrent_saves_witness :
  let w := Ref.world0 in
  let wd := snd (saveDailyScoreTwice 1 (Ref.feb 7) 75 "Solid day." 40 "Slow day." w) in
  let ww := snd (saveWeeklyScoreTwice 1 (Ref.feb 9) (Ref.feb 15) 75 1 40 1 w) in
  Forall (fun r => ~ dailyKey 1 (Ref.feb 7) r) (rows (dailyScores (db w)))
  /\ Forall (fun r => ~ weeklyKey 1 (Ref.feb 9) r) (rows (weeklyScores (db w)))
  /\ Ref.scoreRows wd
     = [(1, Ref.feb 2, 80%Q, Some "Strong start."%string);
        (1, Ref.feb 4, 60%Q, Some "A slower day."%string);
        (1, Ref.feb 7, 75%Q, Some "Solid day."%string);
        (1, Ref.feb 7, 40%Q, Some "Slow day."%string)]
  /\ ~ NoDup (dailyKeyOf <$> rows (dailyScores (db wd)))
  /\ Ref.weekRows ww
     = [(1, Ref.feb 2, Ref.feb 8, 70%Q, 2); (1, Ref.feb 9, Ref.feb 15, 75%Q, 1);
        (1, Ref.feb 9, Ref.feb 15, 40%Q, 1)]
  /\ ~ NoDup (weeklyKeyOf <$> rows (weeklyScores (db ww))).
Proof.
  intros w wd ww.
  assert (Hd : Forall (fun r => ~ dailyKey 1 (Ref.feb 7) r) (rows (dailyScores (db w))))
    by (repeat constructor; intros [_ H]; discriminate H).
  assert (Hw : Forall (fun r => ~ weeklyKey 1 (Ref.feb 9) r) (rows (weeklyScores (db w))))
    by (repeat constructor; intros [_ H]; discriminate H).
  split; [exact Hd|]. split; [exact Hw|].
  destruct (concurrent_saves_insert_twice 1 (Ref.feb 7) (Ref.feb 9) (Ref.feb 15)
              75 40 75 40 "Solid day." "Slow day." 1 1 w
              (proj1 (Forall_forall _ _) Hd) (proj1 (Forall_forall _ _) Hw))
    as (_ & Hdaily & _ & Hweekly).
  split; [vm_compute; reflexivity|]. split; [exact Hdaily|].
  split; [vm_compute; reflexivity | exact Hweekly].
Defined.


(** C6 on Monday 2026-02-09, a day without entries. *)
Lemma score_without_entries_witness :
  let w := Ref.world0 in
  1 <> 0
  /\ (forall e, e ∈ rows (productivityEntries (db w)) ->
                ~ (entry_userId e = 1 /\ entry_date e = Ref.feb 9))
  /\ Ref.scoreDaily 0 "unused" (Some 1) (Some (Ref.feb 9)) w
     = (inr (Json 200
               (JSObject
                  [("score"%string, JSNumber (Fin 0));
                   ("insight"%string,
                    JSString "No activities logged today. Start tracking to get your productivity score!")])),
        w).
Proof.
  intros w.
  assert (Hauth : 1 <> 0) by lia.
  assert (Hnone : forall e, e ∈ rows (productivityEntries (db w)) ->
                            ~ (entry_userId e = 1 /\ entry_date e = Ref.feb 9)).
  { apply Forall_forall. repeat constructor; intros [_ Hd]; discriminate Hd. }
  split; [exact Hauth|]. split; [exact Hnone|].
  exact (proj1 (score_without_entries 0 RefJSON.parse Ref.StringToNumber
                  Ref.ObjectToString Binary64.double Ref.pgText (Ref.answering "unused") 1
                  (Some (Ref.feb 9)) w Hauth Hnone)).
Defined.

(** C7: user 1 deletes entry 2, which is theirs, entry 3, which is not,
    and an entry whose identifier the column cannot hold. *)
Lemma deleteEntry_witness :
  let w := Ref.world0 in
  1 <> 0
  /\ fst (deleteEntryRoute (Some 1) (Fin 2) w) = inr (Json 200 (message "Deleted"))
  /\ entry_id <$> rows (productivityEntries
                          (db (snd (deleteEntryRoute (Some 1) (Fin 2) w))))
     = [1; 3]
  /\ deleteEntryRoute (Some 1) (Fin 3) w
     = (inr (Json 404 (message "Entry not found")), w)
  /\ deleteEntryRoute (Some 1) (Fin 99999999999) w
     = (inr (Json 500 (message "Failed to delete entry")), w).
Proof.
  intros w.
  assert (Hauth : 1 <> 0) by lia.
  split; [exact Hauth|].
  destruct (deleteEntry_owner_only 1 (Fin 2) w _ _ Hauth
              (surjective_pairing (deleteEntryRoute (Some 1) (Fin 2) w)))
    as (Hiff & Hyes & _).
  destruct (deleteEntry_owner_only 1 (Fin 3) w _ _ Hauth
              (surjective_pairing (deleteEntryRoute (Some 1) (Fin 3) w)))
    as (_ & _ & Hno).
  destruct (deleteEntry_owner_only 1 (Fin 99999999999) w _ _ Hauth
              (surjective_pairing (deleteEntryRoute (Some 1) (Fin 99999999999) w)))
    as (_ & _ & Hbad).
  split; [|split; [|split]].
  - apply Hiff. exists Ref.entry2. split; [right; left|split; reflexivity].
  - destruct Hyes as [_ Hdb].
    + exists Ref.entry2. split; [right; left|split; reflexivity].
    + rewrite Hdb. reflexivity.
  - destruct Hno as (Hw & _ & Hres).
    + intros (e & He & Hk). revert e He Hk.
      apply (proj1 (Forall_forall
                      (fun e => ~ (int4 (Fin 3) = Some (entry_id e)
                                   /\ entry_userId e = 1)) _)).
      repeat constructor; intros [Hid Hu];
        first [discriminate Hid | discriminate Hu].
    + rewrite (surjective_pairing (deleteEntryRoute (Some 1) (Fin 3) w)), Hres, Hw.
      reflexivity.
  - destruct Hbad as (Hw & _ & Hres).
    + intros (e & _ & Hid & _). discriminate Hid.
    + rewrite (surjective_pairing (deleteEntryRoute (Some 1) (Fin 99999999999) w)),
        Hres, Hw.
      reflexivity.
Defined.

(** C10: on the sample world Asha logs in, and the session check under the
    session opened answers with the same object; a wrong password and a
    session of an unknown user are answered 401. *)
Lemma auth_responses_witness :
  let w := Ref.world0 in
  let form := JSObject [("username", JSString "asha"); ("password", JSString "s3cret")]%string in
  let wrong := JSObject [("username", JSString "asha"); ("password", JSString "guess")]%string in
  let sent :=
    JSObject [("id", JSInt 1); ("username", JSString "asha");
              ("email", JSString "asha@example.org"); ("fullName", JSString "Asha Rao");
              ("occupation", JSString "Engineer"); ("goals", JSString "Ship the release");
              ("createdAt", JSString "2026-02-01T09:00:00.000Z")]%string in
  postLogin Ref.bcrypt_compare None form w = (inr (Json 200 sent, Some 1), w)
  /\ getMe (Some 1) w = (inr (Json 200 sent), w)
  /\ postLogin Ref.bcrypt_compare None wrong w
     = (inr (Json 401 (message "Invalid credentials"), None), w)
  /\ getMe (Some 7) w = (inr (Json 401 (message "User not found")), w)
  /\ assoc "password" (userObject Ref.asha) = Some (JSString "$2b$10$s3cret").
Proof.
  intros w form wrong sent.
  destruct (auth_responses_omit_password Ref.bcrypt_hash Ref.bcrypt_compare Ref.zodFlatten)
    as (_ & Hlogin & Hme & _).
  rewrite !Hlogin, !Hme. vm_compute. repeat split.
Defined.


(** C9: the week of 2026-02-02 is saved again with another week end. *)
Lemma saveWeeklyScore_witness :
  let w := Ref.world0 in
  (exists r, r ∈ rows (weeklyScores (db w))
             /\ ws_userId r = 1 /\ ws_weekStart r = Ref.feb 2)
  /\ exists r',
       rows (weeklyScores (db (snd (saveWeeklyScore 1 (Ref.feb 2) (Ref.feb 9)
                                      71.7%Q 3 w)))) !! 0%nat = Some r'
       /\ ws_weekEnd r' = Ref.feb 8 /\ avgScore r' = 71.7%Q /\ totalEntries r' = 3.
Proof.
  intros w.
  assert (Hex : exists r, r ∈ rows (weeklyScores (db w))
                          /\ ws_userId r = 1 /\ ws_weekStart r = Ref.feb 2).
  { exists Ref.week70. split; [left|split; reflexivity]. }
  split; [exact Hex|].
  destruct (saveWeeklyScore_keeps_weekEnd 1 (Ref.feb 2) (Ref.feb 9) 71.7%Q 3 w Hex)
    as [_ Hrows].
  destruct (Hrows 0%nat Ref.week70 eq_refl)
    as (r' & Hr' & _ & _ & _ & Hend & _ & Hkey & _).
  exists r'. split; [exact Hr'|]. split; [exact Hend|].
  apply Hkey. split; reflexivity.
Defined.

(** * A server to run the theorems on

    The reference platform completed: a validator for entries, a
    serialiser for the objects the chat stream carries, and a short history
    of requests served from the empty database. *)
Module Demo.

Open Scope string_scope.

Fixpoint decimal (acc : Z) (s : string) : option Z :=
  match s with
  | EmptyString => Some acc
  | String c r => d ← RefJSON.digitVal c; decimal (10 * acc + d) r
  end.

(** The day a text of the form YYYY-MM-DD names. *)
Definition readDay (s : string) : option Z :=
  if (String.length s =? 10)%nat && String.eqb (substring 4 1 s) "-"
     && String.eqb (substring 7 1 s) "-"
  then y ← decimal 0 (substring 0 4 s);
       m ← decimal 0 (substring 5 2 s);
       d ← decimal 0 (substring 8 2 s);
       Some (isoDate y m d)
  else None.

Definition wholeNumber (v : JSValue) : option Z :=
  match v with
  | JSNumber (Fin q) => if Qeq_bool q (inject_Z (Qfloor q)) then Some (Qfloor q) else None
  | _ => None
  end.

(** The validator of entries: title, category, duration and date are
    required; [completed] defaults to false and [notes] to null. *)
Definition entrySchema (body : JSValue) : JSValue + InsertProductivityEntry :=
  match
    t ← stringField "title" body;
    c ← stringField "category" body;
    n ← getProp body "duration" ≫= wholeNumber;
    d ← stringField "date" body ≫= readDay;
    done ← match getProp body "completed" with
           | Some (JSBool b) => Some b
           | Some JSUndefined => Some false
           | _ => None
           end;
    note ← match getProp body "notes" with
           | Some (JSString s) => Some (Some s)
           | Some JSNull | Some JSUndefined => Some None
           | _ => None
           end;
    Some {| ie_title := t; ie_category := c; ie_duration := n; ie_completed := done;
            ie_notes := note; ie_date := d |}
  with
  | Some data => inr data
  | None => inl (Ref.zodFlatten body)
  end.

(** The server on this platform: local time offset [tz], a scoring service
    that answers [text] and a chat service that streams [chunks]. *)
Definition serve (tz : Z) (text : string) (chunks : list string)
  : option Z -> Request -> M (Response * option Z) :=
  handle tz Ref.bcrypt_hash Ref.bcrypt_compare RefJSON.parse Ref.StringToNumber
         Ref.ObjectToString Ref.NumberToString Binary64.double Ref.pgText Ref.zodFlatten
         (Ref.answering text) (Ref.streaming chunks) entrySchema.

Definition reachable (tz : Z) (text : string) (chunks : list string) : World -> Prop :=
  served tz Ref.bcrypt_hash Ref.bcrypt_compare RefJSON.parse Ref.StringToNumber
         Ref.ObjectToString Ref.NumberToString Binary64.double Ref.pgText Ref.zodFlatten
         (Ref.answering text) (Ref.streaming chunks) entrySchema.

Definition registration (name mail pw full job goal : string) : JSValue :=
  JSObject [("username", JSString name); ("email", JSString mail);
            ("password", JSString pw); ("fullName", JSString full);
            ("occupation", JSString job); ("goals", JSString goal)].

Definition credentials (name pw : string) : JSValue :=
  JSObject [("username", JSString name); ("password", JSString pw)].

Definition ashaForm : JSValue :=
  registration "asha" "asha@example.org" "s3cret" "Asha Rao" "Engineer" "Ship the release".

Definition benForm : JSValue :=
  registration "ben" "ben@example.org" "hunter2" "Ben Okoye" "Teacher" "Grade on time".

Definition review : JSValue :=
  JSObject [("title", JSString "Code review"); ("category", JSString "work");
            ("duration", JSInt 30); ("completed", JSBool true);
            ("date", JSString "2026-02-02")].


Definition question : JSValue := JSObject [("message", JSString "What next?")].

Definition verdict : string := Ref.jsonScore "75" "Solid day.".
Definition reply : list string := ["Keep "; ""; "going."].

Definition run (sess : option Z) (req : Request) (w : World) : World :=
  snd (serve 0 verdict reply sess req w).

Definition later (t : Z) (w : World) : World :=
  {| db := db w; clock := t; aiLog := aiLog w |}.

(** Monday 2026-02-02 on a server in UTC: Asha and Ben register at nine,
    Asha logs a code review at ten, Ben scores a day without entries and
    Asha has her day scored in the evening, then asks the coach. *)
Definition opened : World :=
  {| db := emptyStore; clock := Ref.at_ (Ref.feb 2) 9; aiLog := [] |}.
Definition registered : World :=
  Eval vm_compute in run None (PostRegister benForm) (run None (PostRegister ashaForm) opened).
Definition logged : World :=
  Eval vm_compute in run (Some 1) (PostEntries review) (later (Ref.at_ (Ref.feb 2) 10) registered).
Definition evening : World :=
  Eval vm_compute in later (Ref.at_ (Ref.feb 2) 20) logged.
Definition scored : World :=
  Eval vm_compute in run (Some 1) (PostScoreDaily None) evening.
Definition coached : World :=
  Eval vm_compute in run (Some 1) (PostChat question) scored.

(** [JSON.stringify], for strings and for objects whose fields are strings. *)
Fixpoint escape (s : string) : string :=
  match s with
  | EmptyString => EmptyString
  | String c r =>
      (if Ascii.eqb c "034" then "\" ++ dq
       else if Ascii.eqb c "\" then "\\"
       else if Ascii.eqb c "010" then "\n"
       else String c EmptyString) ++ escape r
  end.

Definition quote (s : string) : string := dq ++ escape s ++ dq.

Definition stringify (v : JSValue) : string :=
  match v with
  | JSString s => quote s
  | JSObject fields =>
      "{" ++ join "," ((fun p => quote (fst p) ++ ":"
                                 ++ match snd p with
                                    | JSString s => quote s
                                    | _ => "null"
                                    end) <$> fields) ++ "}"
  | _ => "null"
  end.

Definition ToString (v : JSValue) : string :=
  match v with
  | JSString s => s
  | _ => Ref.ObjectToString v
  end.

End Demo.

(** The sample history is one the server can bring about. *)
Lemma registered_eq :
  Demo.run None (PostRegister Demo.benForm) (Demo.run None (PostRegister Demo.ashaForm) Demo.opened)
  = Demo.registered.
Proof. vm_compute. reflexivity. Qed.

Lemma asha_known (w : World) :
  rows (users (db w)) = rows (users (db Demo.registered)) ->
  knownSession (db w) (Some 1).
Proof.
  intros E. cbn [knownSession]. rewrite E. eexists. split; [left|reflexivity].
Qed.

Lemma registered_reachable : Demo.reachable 0 Demo.verdict Demo.reply Demo.registered.
Proof.
  rewrite <- registered_eq. unfold Demo.run, Demo.serve, Demo.reachable.
  apply served_request; [apply served_request; [apply served_start | exact I] | exact I].
Qed.

Lemma logged_reachable : Demo.reachable 0 Demo.verdict Demo.reply Demo.logged.
Proof.
  replace Demo.logged
    with (Demo.run (Some 1) (PostEntries Demo.review)
            (Demo.later (Ref.at_ (Ref.feb 2) 10) Demo.registered))
    by (vm_compute; reflexivity).
  unfold Demo.run, Demo.serve, Demo.reachable.
  apply served_request; [|apply asha_known; reflexivity].
  apply served_tick; [exact registered_reachable | vm_compute; discriminate].
Qed.

Lemma evening_reachable : Demo.reachable 0 Demo.verdict Demo.reply Demo.evening.
Proof.
  change Demo.evening with (Demo.later (Ref.at_ (Ref.feb 2) 20) Demo.logged).
  apply served_tick; [exact logged_reachable | vm_compute; discriminate].
Qed.

Lemma scored_reachable : Demo.reachable 0 Demo.verdict Demo.reply Demo.scored.
Proof.
  replace Demo.scored with (Demo.run (Some 1) (PostScoreDaily None) Demo.evening)
    by (vm_compute; reflexivity).
  unfold Demo.run, Demo.serve, Demo.reachable.
  apply served_request; [exact evening_reachable | apply asha_known; reflexivity].
Qed.

Lemma coached_reachable : Demo.reachable 0 Demo.verdict Demo.reply Demo.coached.
Proof.
  replace Demo.coached with (Demo.run (Some 1) (PostChat Demo.question) Demo.scored)
    by (vm_compute; reflexivity).
  unfold Demo.run, Demo.serve, Demo.reachable.
  apply served_request; [exact scored_reachable | apply asha_known; reflexivity].
Qed.

(** ** The further theorems at work on the sample history *)

(** The theorems of the whole server, on the platform of the examples. *)
Notation "'on_platform' thm" :=
  (thm 0 Ref.bcrypt_hash Ref.bcrypt_compare RefJSON.parse Ref.StringToNumber
       Ref.ObjectToString Ref.NumberToString Binary64.double Ref.pgText Ref.zodFlatten
       (Ref.answering Demo.verdict) (Ref.streaming Demo.reply) Demo.entrySchema)
  (at level 10, thm at level 9, only parsing).

(** X1: the leaderboard asked for without a session. *)
Lemma routes_need_session_witness :
  Demo.serve 0 Demo.verdict Demo.reply None GetScoreboard Demo.coached
  = (inr (Json 401 (message "Not authenticated"), None), Demo.coached).
Proof.
  exact (on_platform routes_need_session GetScoreboard None Demo.coached
           eq_refl (or_introl eq_refl)).
Defined.

(** X2: Asha's name with a wrong password. *)
Lemma login_failure_witness :
  let body := Demo.credentials "asha" "guess" in
  loginSchema_safeParse body = Some ("asha", "guess")%string
  /\ postLogin Ref.bcrypt_compare None body Demo.coached
     = (inr (Json 401 (message "Invalid credentials"), None), Demo.coached).
Proof.
  intros body. split; [reflexivity|].
  apply (login_failure_is_uniform Ref.bcrypt_compare None body Demo.coached
           "asha" "guess" eq_refl).
  apply (proj1 (Forall_forall
                  (fun u => username u = "asha"%string
                            -> Ref.bcrypt_compare "guess" (password u) = false) _)).
  repeat constructor.
Defined.

(** X3: Asha registers a second time, and then someone else under her
    e-mail address; Ben got identifier 2, the refused insert uses up 3. *)
Lemma register_conflicts_witness :
  let form := Demo.registration "asha2" "asha@example.org" "pw" "A. Rao" "Engineer" "None" in
  let again := postRegister Ref.bcrypt_hash Ref.zodFlatten (Some 2) form Demo.coached in
  (exists u, u ∈ rows (users (db Demo.coached)) /\ username u = "asha"%string)
  /\ postRegister Ref.bcrypt_hash Ref.zodFlatten (Some 2) Demo.ashaForm Demo.coached
     = (inr (Json 409 (message "Username already taken"), Some 2), Demo.coached)
  /\ Forall (fun u => username u <> "asha2"%string) (rows (users (db Demo.coached)))
  /\ (exists u, u ∈ rows (users (db Demo.coached)) /\ email u = "asha@example.org"%string)
  /\ fst again = inr (Json 409 (message "Email already in use"), Some 2)
  /\ rows (users (db (snd again))) = rows (users (db Demo.coached))
  /\ nextId (users (db Demo.coached)) = 3
  /\ nextId (users (db (snd again))) = 4.
Proof.
  intros form again.
  assert (Hex : exists u, u ∈ rows (users (db Demo.coached))
                          /\ username u = "asha"%string)
    by (eexists; split; [left | reflexivity]).
  assert (Hfree : Forall (fun u => username u <> "asha2"%string)
                         (rows (users (db Demo.coached))))
    by (repeat constructor; discriminate).
  assert (Hmail : exists u, u ∈ rows (users (db Demo.coached))
                            /\ email u = "asha@example.org"%string)
    by (eexists; split; [left | reflexivity]).
  split; [exact Hex|]. split.
  { exact (proj1 (register_conflicts Ref.bcrypt_hash Ref.zodFlatten (Some 2)
                    Demo.ashaForm _ Demo.coached eq_refl) Hex). }
  split; [exact Hfree|]. split; [exact Hmail|].
  destruct (proj2 (register_conflicts Ref.bcrypt_hash Ref.zodFlatten (Some 2) form
                     _ Demo.coached eq_refl)
                  (proj1 (Forall_forall _ _) Hfree) Hmail)
    as (Hres & Hrows & Hnext & _).
  split; [exact Hres|]. split; [exact Hrows|]. split; [reflexivity|].
  subst again. rewrite Hnext. reflexivity.
Defined.

(** X4: Asha registers on the empty database and logs in. *)
Lemma register_then_login_witness :
  let w' := snd (postRegister Ref.bcrypt_hash Ref.zodFlatten None Demo.ashaForm Demo.opened) in
  exists user,
    postRegister Ref.bcrypt_hash Ref.zodFlatten None Demo.ashaForm Demo.opened
    = (inr (Json 201 user, Some 1), w')
    /\ postLogin Ref.bcrypt_compare None (Demo.credentials "asha" "s3cret") w'
       = (inr (Json 200 user, Some 1), w').
Proof.
  intros w'.
  exists (safeUser (newUser Ref.bcrypt_hash
                      {| iu_username := "asha"; iu_email := "asha@example.org";
                         iu_password := "s3cret"; iu_fullName := "Asha Rao";
                         iu_occupation := "Engineer"; iu_goals := "Ship the release" |}
                      Demo.opened)).
  assert (Hreg : postRegister Ref.bcrypt_hash Ref.zodFlatten None Demo.ashaForm Demo.opened
                 = (inr (Json 201 (safeUser (newUser Ref.bcrypt_hash
                      {| iu_username := "asha"; iu_email := "asha@example.org";
                         iu_password := "s3cret"; iu_fullName := "Asha Rao";
                         iu_occupation := "Engineer"; iu_goals := "Ship the release" |}
                      Demo.opened)), Some 1), w'))
    by (vm_compute; reflexivity).
  split; [exact Hreg|].
  exact (proj1 (register_then_login Ref.bcrypt_hash Ref.bcrypt_compare Ref.zodFlatten
                  None None (Some 1) Demo.ashaForm (Demo.credentials "asha" "s3cret")
                  Demo.opened w' _ "asha" "s3cret" Hreg eq_refl eq_refl eq_refl eq_refl)
               eq_refl eq_refl eq_refl).
Defined.

(** X5: Asha's question to the coach, answered in three fragments of which
    one is empty. *)
Lemma chat_exchange_witness :
  let run := Demo.serve 0 Demo.verdict Demo.reply (Some 1)
                        (PostChat Demo.question) Demo.scored in
  getProp Demo.question "message" = Some (JSString "What next?")
  /\ fst run = inr (EventStream [EvContent "Keep "; EvContent "going."; EvDone], Some 1)
  /\ content <$> rows (chatMessages (db (snd run))) = ["What next?"; "Keep going."]%string.
Proof.
  intros run. split; [reflexivity|].
  destruct (chat_exchange 0 Ref.NumberToString Ref.pgText (Ref.streaming Demo.reply)
              1 Demo.question (JSString "What next?") Demo.scored
              ltac:(discriminate) eq_refl eq_refl)
    as (request & _ & _ & Hres & Hrows).
  split.
  - unfold run, Demo.serve, handle, keepSession, bind.
    rewrite (surjective_pairing (postChat _ _ _ _ _ _ _)), Hres. reflexivity.
  - unfold run, Demo.serve, handle, keepSession, bind.
    rewrite (surjective_pairing (postChat _ _ _ _ _ _ _)), Hres.
    cbn [snd ret]. rewrite Hrows. reflexivity.
Defined.

(** X6: Asha clears her chat. *)
Lemma clear_chat_history_witness :
  let w' := snd (deleteChatHistory (Some 1) Demo.coached) in
  1 <> 0
  /\ getChatHistory (Some 1) w' = (inr (Json 200 (JSArray [])), w')
  /\ productivityEntries (db w') = productivityEntries (db Demo.coached).
Proof.
  intros w'.
  assert (Hauth : 1 <> 0) by lia.
  split; [exact Hauth|].
  destruct (clear_chat_history 1 Demo.coached Hauth)
    as (_ & Hempty & _ & (_ & Hentries & _) & _).
  split; [exact Hempty | exact Hentries].
Defined.

(** X8: the scoring service answers "null". *)
Lemma scoring_fails_witness :
  let score := postScoreDaily 0 RefJSON.parse Ref.StringToNumber Ref.ObjectToString
                              Binary64.double Ref.pgText (Ref.answering "null") in
  RefJSON.parse (jsonCandidate "null") = Some JSNull
  /\ fst (score (Some 1) None Demo.evening)
     = inr (Json 500 (message "Failed to generate score"))
  /\ db (snd (score (Some 1) None Demo.evening)) = db Demo.evening
  /\ length (aiLog (snd (score (Some 1) None Demo.evening))) = 1%nat.
Proof.
  intros score.
  assert (Hnull : RefJSON.parse (jsonCandidate "null") = Some JSNull) by reflexivity.
  split; [exact Hnull|].
  unfold score.
  rewrite (scoring_fails_without_usable_answer 0 RefJSON.parse Ref.StringToNumber
             Ref.ObjectToString Binary64.double Ref.pgText (Ref.answering "null") 1 None
             Demo.evening).
  - repeat split.
  - lia.
  - eexists. split; [left|]. split; reflexivity.
  - right. exists (Some "null"%string). split; [reflexivity | exact Hnull].
Defined.


(** X10: Asha's entries of February, and a range the wrong way round. *)
Lemma entry_listings_witness :
  1 <> 0
  /\ (exists listed,
        getEntriesRange (Some 1) (Some (Ref.feb 1)) (Some (Ref.feb 28)) Demo.coached
        = (inr (Json 200 (JSArray (entryObject <$> listed))), Demo.coached)
        /\ length listed = 1%nat)
  /\ getEntriesRange (Some 1) (Some (Ref.feb 28)) (Some (Ref.feb 1)) Demo.coached
     = (inr (Json 200 (JSArray [])), Demo.coached).
Proof.
  assert (Hauth : 1 <> 0) by lia.
  split; [exact Hauth|].
  destruct (entry_listings 1 Demo.coached Hauth) as (Hrange & _).
  split.
  - destruct (Hrange (Ref.feb 1) (Ref.feb 28)) as (listed & Hrun & Hperm & _).
    exists listed. split; [exact Hrun|].
    rewrite (Permutation_length Hperm). reflexivity.
  - destruct (Hrange (Ref.feb 28) (Ref.feb 1)) as (listed & Hrun & _ & _ & Hnone).
    rewrite Hrun, Hnone by (vm_compute; reflexivity). reflexivity.
Defined.


(** X12: what Asha's chat request leaves of Ben's rows. *)
Lemma requests_write_own_rows_only_witness :
  Some 1 <> Some 2
  /\ rowsOf 2 (db (snd (Demo.serve 0 Demo.verdict Demo.reply (Some 1)
                          (PostChat Demo.question) Demo.scored)))
     = rowsOf 2 (db Demo.scored).
Proof.
  assert (Hother : Some 1 <> Some 2) by discriminate.
  split; [exact Hother|].
  exact (proj1 (on_platform requests_write_own_rows_only (Some 1)
                  (PostChat Demo.question) Demo.scored 2 Hother)).
Defined.


(** X15: the keys of the sample history. *)
Lemma served_owners_and_keys_witness :
  NoDup (username <$> rows (users (db Demo.coached)))
  /\ NoDup (email <$> rows (users (db Demo.coached))).
Proof.
  destruct (on_platform served_owners_and_keys Demo.coached coached_reachable)
    as (_ & _ & Hnames & Hmail & _).
  split; [exact Hnames | exact Hmail].
Defined.

(** X17: Sunday 2026-02-08 one hour east of UTC, Monday 2026-02-02 five
    hours west. *)
Lemma getWeekBounds_by_zone_witness :
  (- JSDate.msPerDay < 3600000 < JSDate.msPerDay)
  /\ ~ (weekStart (getWeekBounds 3600000 0 (Some (Ref.feb 8))) <= Ref.feb 8
        <= weekEnd (getWeekBounds 3600000 0 (Some (Ref.feb 8))))
  /\ ~ (weekStart (getWeekBounds (-18000000) 0 (Some (Ref.feb 2))) <= Ref.feb 2
        <= weekEnd (getWeekBounds (-18000000) 0 (Some (Ref.feb 2)))).
Proof.
  assert (Heast : - JSDate.msPerDay < 3600000 < JSDate.msPerDay)
    by (unfold JSDate.msPerDay; lia).
  assert (Hwest : - JSDate.msPerDay < -18000000 < JSDate.msPerDay)
    by (unfold JSDate.msPerDay; lia).
  split; [exact Heast|]. split.
  - destruct (getWeekBounds_by_zone 3600000 0 (Ref.feb 8) Heast) as (_ & _ & He & _).
    destruct (He ltac:(lia)) as [_ Hiff]. intros Hin. apply Hiff in Hin.
    apply Hin. reflexivity.
  - destruct (getWeekBounds_by_zone (-18000000) 0 (Ref.feb 2) Hwest) as (_ & _ & _ & Hw).
    destruct (Hw ltac:(lia)) as [_ Hiff]. intros Hin. apply Hiff in Hin.
    apply Hin. reflexivity.
Defined.

(** X19: the passwords of the sample history. *)
Lemma stored_passwords_are_hashes_witness :
  Forall (fun u => exists pw, password u = Ref.bcrypt_hash pw)
         (rows (users (db Demo.coached))).
Proof.
  apply Forall_forall.
  exact (on_platform stored_passwords_are_hashes Demo.coached coached_reachable).
Defined.

(** X20: Ben logs in, asks who he is and logs out. *)
Lemma session_check_after_login_witness :
  exists user,
    postLogin Ref.bcrypt_compare None (Demo.credentials "ben" "hunter2") Demo.coached
    = (inr (Json 200 user, Some 2), Demo.coached)
    /\ getMe (Some 2) Demo.coached = (inr (Json 200 user), Demo.coached)
    /\ postLogout (Some 2) Demo.coached
       = (inr (Json 200 (message "Logged out"), None), Demo.coached).
Proof.
  eexists.
  assert (Hlogin : postLogin Ref.bcrypt_compare None (Demo.credentials "ben" "hunter2")
                             Demo.coached
                   = (inr (Json 200 _, Some 2), Demo.coached))
    by (lazy; reflexivity).
  split; [exact Hlogin|].
  destruct (on_platform session_check_after_login None (Some 2) _ _ Demo.coached
              coached_reachable Hlogin) as (Hme & _ & Hout & _).
  split; [exact Hme | exact Hout].
Defined.

(** X21: the chart of a client five and a half hours east of UTC. *)
Lemma week_chart_witness :
  1 <> 0
  /\ exists scores,
       fst (getScoresDaily 0 (Some 1) Demo.coached)
       = inr (Json 200 (JSArray (dailyScoreObject <$> scores)))
       /\ length scores = 1%nat
       /\ Forall (fun s => getDayName 19800000 (ds_date s) ∈ days
                           /\ exists x, chartColumn 19800000 scores
                                          (getDayName 19800000 (ds_date s)) = Some x
                                        /\ ds_date x = ds_date s) scores.
Proof.
  assert (Hauth : 1 <> 0) by lia.
  split; [exact Hauth|].
  destruct (week_chart_columns 0 19800000 1 Demo.coached Hauth)
    as (scores & Hrun & Hall).
  exists scores. rewrite Hrun. split; [reflexivity|]. split.
  - apply (f_equal (fun r => match fst r with
                             | inr (Json _ (JSArray l)) => length l
                             | _ => 0%nat
                             end)) in Hrun.
    cbn [fst] in Hrun. rewrite length_fmap in Hrun. rewrite <- Hrun.
    vm_compute. reflexivity.
  - apply Forall_forall. intros s Hs.
    destruct (Hall s Hs) as (_ & _ & _ & Hday & (x & Hx & _ & Hdate) & _).
    split; [exact Hday|]. exists x. split; [exact Hx | exact Hdate].
Defined.

(** X22: the reply to Asha on the wire, cut in the middle of a line and
    between the two line breaks. *)
Lemma reply_survives_the_wire_witness :
  let events := [EvContent "Keep "; EvContent "going."; EvDone] in
  let chunks := ["data: {" ++ dq ++ "content" ++ dq ++ ":" ++ dq ++ "Ke";
                 "ep " ++ dq ++ "}" ++ nl;
                 nl ++ "data: {" ++ dq ++ "content" ++ dq ++ ":" ++ dq ++ "going." ++ dq
                 ++ "}" ++ nl ++ nl ++ "data: [DO";
                 "NE]" ++ nl ++ nl]%string in
  String.concat EmptyString chunks = wireText Demo.stringify events
  /\ readStream RefJSON.parse Demo.ToString chunks = "Keep going."%string.
Proof.
  intros events chunks.
  assert (Hcut : String.concat EmptyString chunks = wireText Demo.stringify events)
    by reflexivity.
  split; [exact Hcut|].
  refine (proj2 (reply_survives_the_wire RefJSON.parse Demo.stringify Demo.ToString
                   events chunks _ Hcut) ["Keep "; "going."]%string EvDone
                (or_introl eq_refl) eq_refl).
  repeat constructor; first [discriminate | reflexivity].
Defined.
